(** * TooDone: the task / timer / alarm state model of [Productivity.py]

    A shallow embedding of the task store of the application (class
    [ProductivityApp]) and proofs about its load, save, timer, alarm, rename
    and reorder operations.

    Tasks are kept by the program as the dictionaries that [json.load]
    returned, so the embedding works on dynamically typed values: every
    modelled function follows its Python text statement by statement, and an
    exception that escapes the modelled function is an explicit result. *)

From Stdlib Require Import ZArith String Ascii List Bool Lia.
From stdpp Require Import base option list strings pretty gmap.

Local Open Scope string_scope.
Local Open Scope list_scope.

(** ** Python values *)

Module Py.

(** The values [json.load] produces.  Python numbers ([int] and [float]) are
    modelled as integers: the modelled code only adds, subtracts and compares
    them.  A dictionary keeps its insertion order, as Python's does. *)
#[local] Unset Elimination Schemes.
Inductive value : Type :=
| VNone
| VBool (b : bool)
| VNum (n : Z)
| VStr (s : string)
| VList (l : list value)
| VDict (d : list (string * value)).
#[local] Set Elimination Schemes.

Abbreviation pydict := (list (string * value)).

(** Exceptions the modelled statements can raise. *)
Inductive exn : Type :=
| TypeError
| KeyError
| AttributeError
| IndexError
| UnboundLocalError
| RecursionError
| ValueError (msg : string).

(** The outcome of a statement sequence: a value, or an exception that
    propagates to the caller. *)
Inductive result (A : Type) : Type :=
| Ok (a : A)
| Raise (e : exn).
Arguments Ok {A} a.
Arguments Raise {A} e.

Definition result_bind {A B} (f : A → result B) (m : result A) : result B :=
  match m with
  | Ok a => f a
  | Raise e => Raise e
  end.

#[export] Instance result_mret : MRet result := λ A a, Ok a.
#[export] Instance result_mbind : MBind result := λ A B f m, result_bind f m.

(** [try: body / except Exception: handler], for a body whose effect is its
    returned value. *)
Definition try_except {A} (body : result A) (handler : exn → A) : A :=
  match body with
  | Ok a => a
  | Raise e => handler e
  end.

(** [bool(v)] *)
Definition truthy (v : value) : bool :=
  match v with
  | VNone => false
  | VBool b => b
  | VNum n => negb (n =? 0)%Z
  | VStr s => negb (s =? "")
  | VList l => match l with [] => false | _ => true end
  | VDict d => match d with [] => false | _ => true end
  end.

(** [isinstance(v, (int, float))]; [bool] is a subclass of [int]. *)
Definition is_number (v : value) : bool :=
  match v with
  | VNum _ | VBool _ => true
  | _ => false
  end.

(** The number a numeric value stands for ([True] is 1, [False] is 0). *)
Definition num_val (v : value) : option Z :=
  match v with
  | VNum n => Some n
  | VBool b => Some (if b then 1 else 0)%Z
  | _ => None
  end.

Definition is_list (v : value) : bool :=
  match v with VList _ => true | _ => false end.
Definition is_dict (v : value) : bool :=
  match v with VDict _ => true | _ => false end.
Definition is_bool (v : value) : bool :=
  match v with VBool _ => true | _ => false end.
(** [isinstance(v, (str, type(None)))] *)
Definition is_str_or_none (v : value) : bool :=
  match v with VStr _ | VNone => true | _ => false end.
(** [isinstance(v, (int, float, type(None)))] *)
Definition is_number_or_none (v : value) : bool :=
  match v with VNum _ | VBool _ | VNone => true | _ => false end.

(** *** Dictionaries *)

(** [k in d], and the value stored under [k]. *)
Fixpoint dict_lookup (k : string) (d : pydict) : option value :=
  match d with
  | [] => None
  | (k', v) :: d' => if k' =? k then Some v else dict_lookup k d'
  end.

Definition dict_has (k : string) (d : pydict) : bool :=
  match dict_lookup k d with Some _ => true | None => false end.

(** [d.get(k)] *)
Definition dict_get (k : string) (d : pydict) : value :=
  default VNone (dict_lookup k d).

(** [d.get(k, dflt)] *)
Definition dict_get_or (k : string) (dflt : value) (d : pydict) : value :=
  default dflt (dict_lookup k d).

(** [d[k]] *)
Definition dict_item (k : string) (d : pydict) : result value :=
  match dict_lookup k d with
  | Some v => Ok v
  | None => Raise KeyError
  end.

(** [d[k] = v]: an existing key keeps its position, a new key goes last. *)
Fixpoint dict_set (k : string) (v : value) (d : pydict) : pydict :=
  match d with
  | [] => [(k, v)]
  | (k', v') :: d' =>
      if k' =? k then (k, v) :: d' else (k', v') :: dict_set k v d'
  end.

(** [d.setdefault(k, v)] *)
Definition dict_setdefault (k : string) (v : value) (d : pydict) : pydict :=
  if dict_has k d then d else dict_set k v d.

(** [d.pop(k, None)], the popped value dropped. *)
Fixpoint dict_pop (k : string) (d : pydict) : pydict :=
  match d with
  | [] => []
  | (k', v') :: d' => if k' =? k then d' else (k', v') :: dict_pop k d'
  end.

(** [v.get(k)] on an arbitrary value: only a dictionary has [get]. *)
Definition value_get (k : string) (v : value) : result value :=
  match v with
  | VDict d => Ok (dict_get k d)
  | _ => Raise AttributeError
  end.

(** [v[k]] with a string key [k]. *)
Definition value_item (k : string) (v : value) : result value :=
  match v with
  | VDict d => dict_item k d
  | _ => Raise TypeError
  end.

(** *** Equality *)

(** [a == b].  Numbers compare by value across [bool] and [int], lists
    element by element, dictionaries key by key regardless of order. *)
Fixpoint py_eq (a b : value) : bool :=
  match a, b with
  | VNone, VNone => true
  | VStr s, VStr t => s =? t
  | VNum n, VNum m => (n =? m)%Z
  | VNum n, VBool c => (n =? (if c then 1 else 0))%Z
  | VBool c, VNum m => ((if c then 1 else 0) =? m)%Z
  | VBool c, VBool e => Bool.eqb c e
  | VList l, VList r =>
      (fix go (l r : list value) : bool :=
         match l, r with
         | [], [] => true
         | x :: l', y :: r' => py_eq x y && go l' r'
         | _, _ => false
         end) l r
  | VDict d, VDict e =>
      (length d =? length e)%nat &&
      (fix go (d : pydict) : bool :=
         match d with
         | [] => true
         | (k, x) :: d' =>
             match dict_lookup k e with
             | Some y => py_eq x y
             | None => false
             end && go d'
         end) d
  | _, _ => false
  end.

(** [a != b] *)
Definition py_ne (a b : value) : bool := negb (py_eq a b).

(** *** Strings *)

(** [c.isspace()] for the characters a [string] holds here (code points
    below 256). *)
Definition isspace (c : ascii) : bool :=
  let n := nat_of_ascii c in
  ((9 <=? n) && (n <=? 13) || (28 <=? n) && (n <=? 32)
   || (n =? 133) || (n =? 160))%nat.

Fixpoint lstrip (s : string) : string :=
  match s with
  | EmptyString => EmptyString
  | String c s' => if isspace c then lstrip s' else s
  end.

(** [s.strip()] *)
Definition strip (s : string) : string :=
  String.rev (lstrip (String.rev (lstrip s))).

(** [str(v).strip()] is empty: only a string of white space prints as
    one; every other value prints with at least one visible character. *)
Definition str_strip_empty (v : value) : bool :=
  match v with
  | VStr s => strip s =? ""
  | _ => false
  end.

End Py.
Export Py.

(** ** The world outside the task store *)

(** What the program reads from its environment while it runs.  The clock
    ([time.time()]) is passed to each operation as a number of its own. *)
Record env : Type := {
  (** [datetime.now().isoformat()] *)
  now_iso : string;
  (** [datetime.now(PH_TZ).strftime('%Y-%m-%d %H:%M:%S %Z')] *)
  local_time : string;
  (** the identifier [f"{i}_{alarm_index}_{time.time()}_{uuid4().hex[:6]}"]
      given at load to an alarm without one *)
  load_alarm_id : nat → nat → string;
  (** the identifier [f"{task_index}_{target_timestamp_unix}_{uuid4().hex[:6]}"]
      of a new alarm *)
  new_alarm_id : Z → Z → string;
  (** [os.path.exists] on a path, and on an open file descriptor *)
  path_exists : string → bool;
  fd_exists : Z → bool;
  (** how deep [_initialize_subtasks] may recurse when [load_tasks] calls
      it, before Python raises [RecursionError] *)
  recursion_limit : nat;
}.

(** [os.path.exists(v)]: a path, or an integer taken as a file descriptor;
    anything else is a [TypeError]. *)
Definition os_path_exists (E : env) (v : value) : result bool :=
  match v with
  | VStr p => Ok (path_exists E p)
  | VNum n => Ok (fd_exists E n)
  | VBool b => Ok (fd_exists E (if b then 1 else 0))
  | _ => Raise TypeError
  end.

(** ** Loading: [load_tasks] and [_initialize_subtasks] *)

Module Load.

(** The twelve [subtask.setdefault] calls of [_initialize_subtasks]. *)
Definition subtask_defaults (E : env) (d : pydict) : pydict :=
  let d := dict_setdefault "timer_running" (VBool false) d in
  let d := dict_setdefault "completed" (VBool false) d in
  let d := dict_setdefault "annotations" (VList []) d in
  let d := dict_setdefault "alarms" (VList []) d in
  let d := dict_setdefault "timer" (VNum 0) d in
  let d := dict_setdefault "start_time_unix" VNone d in
  let d := dict_setdefault "due_date" VNone d in
  let d := dict_setdefault "icon" VNone d in
  let d := dict_setdefault "localTime" (VStr (local_time E)) d in
  let d := dict_setdefault "createdAt" (VStr (now_iso E)) d in
  let d := dict_setdefault "titleHistory" (VList []) d in
  dict_setdefault "subtasks" (VList []) d.

(** The [task.setdefault] calls of [load_tasks]: the same twelve, then
    [subtasks_visible]. *)
Definition task_defaults (E : env) (d : pydict) : pydict :=
  dict_setdefault "subtasks_visible" (VBool true) (subtask_defaults E d).

(** [_initialize_subtasks(task)].  [depth] is the number of nested calls
    Python still allows, past which it raises [RecursionError]; the loop
    body mutates each subtask in place, so the loop is a map over the
    list.  Iterating a dictionary or a string yields strings, on which
    [setdefault] does not exist. *)
Fixpoint initialize_subtasks (E : env) (depth : nat) (task : pydict)
  : result pydict :=
  match depth with
  | O => Raise RecursionError
  | S depth' =>
      let task :=
        if negb (dict_has "subtasks" task)
        then dict_set "subtasks" (VList []) task else task in
      match dict_get "subtasks" task with
      | VList subs =>
          subs' ← (fix each (subs : list value) : result (list value) :=
                     match subs with
                     | [] => Ok []
                     | VDict sub :: rest =>
                         sub' ← initialize_subtasks E depth'
                                  (subtask_defaults E sub);
                         rest' ← each rest;
                         Ok (VDict sub' :: rest')
                     | _ :: _ => Raise AttributeError
                     end) subs;
          Ok (dict_set "subtasks" (VList subs') task)
      | VDict [] | VStr "" => Ok task
      | VDict (_ :: _) | VStr _ => Raise AttributeError
      | VNone | VBool _ | VNum _ => Raise TypeError
      end
  end.

(** The title promoted from the history at line 737: the [title] of the
    last entry of a non-empty [titleHistory] list, when it is truthy. *)
Definition promoted_title (d : pydict) : result (option value) :=
  match dict_lookup "titleHistory" d with
  | Some (VList h) =>
      match last h with
      | Some e =>
          t ← value_get "title" e;
          if truthy t then t' ← value_item "title" e; Ok (Some t')
          else Ok None
      | None => Ok None
      end
  | _ => Ok None
  end.

(** Lines 736-738: a missing or blank title is replaced. *)
Definition fix_title (i : nat) (d : pydict) : result pydict :=
  if negb (dict_has "task" d) || str_strip_empty (dict_get "task" d) then
    p ← promoted_title d;
    match p with
    | Some t => Ok (dict_set "task" t d)
    | None => Ok (dict_set "task" (VStr ("Untitled Task " +:+ pretty (i + 1)%nat)) d)
    end
  else Ok d.

(** [if not isinstance(task.get(k), ...): task[k] = dflt] *)
Definition coerce (k : string) (ok : value → bool) (dflt : value)
    (d : pydict) : pydict :=
  if ok (dict_get k d) then d else dict_set k dflt d.

(** Lines 742-749. *)
Definition coerce_fields (d : pydict) : pydict :=
  let d := coerce "timer" is_number (VNum 0) d in
  let d := coerce "start_time_unix" is_number_or_none VNone d in
  let d := coerce "annotations" is_list (VList []) d in
  let d := coerce "alarms" is_list (VList []) d in
  let d := coerce "due_date" is_str_or_none VNone d in
  let d := coerce "icon" is_str_or_none VNone d in
  let d := coerce "completed" is_bool (VBool false) d in
  coerce "titleHistory" is_list (VList []) d.

(** Lines 752-756: the alarm entries that are dictionaries get their
    defaults; those with a truthy target and sound file are kept. *)
Fixpoint valid_alarms (E : env) (i alarm_index : nat) (alarms : list value)
  : list value :=
  match alarms with
  | [] => []
  | VDict a :: rest =>
      let a := dict_setdefault "target_timestamp_unix" VNone a in
      let a := dict_setdefault "sound_file" VNone a in
      let a := dict_setdefault "enabled" (VBool false) a in
      let a := dict_setdefault "id" (VStr (load_alarm_id E i alarm_index)) a in
      if truthy (dict_get "target_timestamp_unix" a)
         && truthy (dict_get "sound_file" a)
      then VDict a :: valid_alarms E i (S alarm_index) rest
      else valid_alarms E i (S alarm_index) rest
  | _ :: rest => valid_alarms E i (S alarm_index) rest
  end.

(** Lines 750-757. *)
Definition filter_alarms (E : env) (i : nat) (d : pydict) : pydict :=
  match dict_get "alarms" d with
  | VList alarms => dict_set "alarms" (VList (valid_alarms E i 0 alarms)) d
  | _ => dict_set "alarms" (VList []) d
  end.

(** Line 758: the current title is appended to the history unless the last
    entry already carries it. *)
Definition append_current_title (E : env) (d : pydict) : result pydict :=
  h ← dict_item "titleHistory" d;
  title ← dict_item "task" d;
  match h with
  | VList h =>
      differs ← match last h with
                | None => Ok true
                | Some e => t ← value_get "title" e; Ok (py_ne t title)
                end;
      if differs : bool then
        let entry := VDict [("title", title);
                            ("timestamp",
                             dict_get_or "createdAt" (VStr (now_iso E)) d)] in
        Ok (dict_set "titleHistory" (VList (h ++ [entry])) d)
      else Ok d
  | _ => Raise TypeError
  end.

(** Line 759: [for entry in task['titleHistory']: entry.setdefault(...)]. *)
Fixpoint stamp_entries (E : env) (h : list value) : result (list value) :=
  match h with
  | [] => Ok []
  | VDict e :: rest =>
      rest' ← stamp_entries E rest;
      Ok (VDict (dict_setdefault "timestamp" (VStr (now_iso E)) e) :: rest')
  | _ :: _ => Raise AttributeError
  end.

Definition stamp_history (E : env) (d : pydict) : result pydict :=
  match dict_get "titleHistory" d with
  | VList h => h' ← stamp_entries E h; Ok (dict_set "titleHistory" (VList h') d)
  | _ => Raise TypeError
  end.

(** Lines 760-762: the legacy [start_time] field. *)
Definition migrate_start_time (d : pydict) : pydict :=
  if dict_has "start_time" d && is_number (dict_get "start_time" d) then
    let d :=
      match dict_get "start_time_unix" d with
      | VNone => dict_set "start_time_unix" (dict_get "start_time" d) d
      | _ => d
      end in
    dict_pop "start_time" d
  else d.

(** The body of the loop of [load_tasks] for the entry at position [i]
    (lines 736-762).  An entry that is not a dictionary raises at its first
    statement. *)
Definition load_task (E : env) (i : nat) (task : value) : result pydict :=
  match task with
  | VDict d =>
      d ← fix_title i d;
      let d := task_defaults E d in
      d ← initialize_subtasks E (recursion_limit E) d;
      let d := coerce_fields d in
      let d := filter_alarms E i d in
      d ← append_current_title E d;
      d ← stamp_history E d;
      Ok (migrate_start_time d)
  | _ => Raise TypeError
  end.

(** [for i, task in enumerate(tasks_data)]: an entry whose processing
    raises is logged and skipped. *)
Fixpoint load_entries (E : env) (i : nat) (entries : list value)
  : list pydict :=
  match entries with
  | [] => []
  | task :: rest =>
      match load_task E i task with
      | Ok d => d :: load_entries E (S i) rest
      | Raise _ => load_entries E (S i) rest
      end
  end.

(** [tuple(v)] succeeds on the iterable values. *)
Definition tuple_ok (v : value) : bool :=
  match v with
  | VList _ | VStr _ | VDict _ => true
  | _ => false
  end.

(** Lines 722-729: reading the colours.  [tuple] raises on a value that is
    not iterable, and the three [DictProperty] attributes accept only a
    dictionary; a key that is absent takes its default. *)
Definition meta_accepted (meta : pydict) : bool :=
  let color k := match dict_lookup k meta with
                 | Some v => tuple_ok v | None => true end in
  let colors k := match dict_lookup k meta with
                  | Some v => is_dict v | None => true end in
  color "calendar_text_color" && color "calendar_date_number_color"
  && color "timer_label_color" && colors "timer_colors"
  && colors "stop_timer_colors" && colors "date_colors".

(** [load_tasks()], given the content of [TASKS_FILE]: [None] when the file
    is missing or is not JSON.  Every failure yields the empty list.  A
    [tasks] value that is not a list either cannot be enumerated or yields
    only entries that are skipped. *)
Definition load_tasks (E : env) (file : option value) : list pydict :=
  match file with
  | None => []
  | Some data =>
      match data with
      | VList tasks_data => load_entries E 0 tasks_data
      | VDict meta =>
          if meta_accepted meta then
            match dict_get_or "tasks" (VList []) meta with
            | VList tasks_data => load_entries E 0 tasks_data
            | _ => []
            end
          else []
      | _ => []
      end
  end.

End Load.

(** ** The application state *)

(** A key of the [scheduled_alarms] dictionary: the hashable values. *)
Inductive key : Type :=
| KNone
| KNum (n : Z)
| KStr (s : string).

#[export] Instance key_eq_dec : EqDecision key.
Proof. solve_decision. Defined.

#[export] Instance key_countable : Countable key.
Proof.
  refine (inj_countable'
            (λ k, match k with
                  | KNone => inl ()
                  | KNum n => inr (inl n)
                  | KStr s => inr (inr s)
                  end)
            (λ x, match x with
                  | inl _ => KNone
                  | inr (inl n) => KNum n
                  | inr (inr s) => KStr s
                  end) _).
  by intros [].
Defined.

(** [hash(v)]: numbers hash by value, lists and dictionaries do not hash. *)
Definition key_of (v : value) : result key :=
  match v with
  | VNone => Ok KNone
  | VBool b => Ok (KNum (if b then 1 else 0))
  | VNum n => Ok (KNum n)
  | VStr s => Ok (KStr s)
  | VList _ | VDict _ => Raise TypeError
  end.

(** The handle [Clock.schedule_once] returns for
    [lambda dt: self._trigger_alarm_action(task_index, alarm_id)] and a
    delay. *)
Record clock_event : Type := {
  ev_task : Z;
  ev_alarm : value;
  ev_delay : Z;
}.

(** The attributes of [ProductivityApp] the modelled operations use, the
    content of [TASKS_FILE], and the handles on which [cancel()] was called.
    [self.tasks] is taken as [load_tasks] builds it, a list of
    dictionaries.  Widgets, popups and logging are left out. *)
Record app : Type := {
  tasks : list pydict;
  selected_index : option Z;
  tasks_changed : bool;
  scheduled_alarms : gmap key clock_event;
  cancelled : list clock_event;
  tasks_file : option value;
}.

Definition with_tasks (ts : list pydict) (s : app) : app :=
  {| tasks := ts; selected_index := selected_index s;
     tasks_changed := tasks_changed s;
     scheduled_alarms := scheduled_alarms s; cancelled := cancelled s;
     tasks_file := tasks_file s |}.

Definition with_selected (sel : option Z) (s : app) : app :=
  {| tasks := tasks s; selected_index := sel;
     tasks_changed := tasks_changed s;
     scheduled_alarms := scheduled_alarms s; cancelled := cancelled s;
     tasks_file := tasks_file s |}.

Definition with_changed (c : bool) (s : app) : app :=
  {| tasks := tasks s; selected_index := selected_index s;
     tasks_changed := c;
     scheduled_alarms := scheduled_alarms s; cancelled := cancelled s;
     tasks_file := tasks_file s |}.

Definition with_scheduled (m : gmap key clock_event) (s : app) : app :=
  {| tasks := tasks s; selected_index := selected_index s;
     tasks_changed := tasks_changed s;
     scheduled_alarms := m; cancelled := cancelled s;
     tasks_file := tasks_file s |}.

Definition with_cancelled (c : list clock_event) (s : app) : app :=
  {| tasks := tasks s; selected_index := selected_index s;
     tasks_changed := tasks_changed s;
     scheduled_alarms := scheduled_alarms s; cancelled := c;
     tasks_file := tasks_file s |}.

Definition with_file (f : option value) (s : app) : app :=
  {| tasks := tasks s; selected_index := selected_index s;
     tasks_changed := tasks_changed s;
     scheduled_alarms := scheduled_alarms s; cancelled := cancelled s;
     tasks_file := f |}.

(** [mark_tasks_changed] *)
Definition mark_tasks_changed (s : app) : app :=
  if negb (tasks_changed s) then with_changed true s else s.

(** [0 <= index < len(self.tasks)] *)
Definition valid_index (s : app) (index : Z) : bool :=
  ((0 <=? index) && (index <? Z.of_nat (length (tasks s))))%Z.

(** [self.tasks[index]] for an index already checked. *)
Definition task_at (s : app) (index : Z) : option pydict :=
  tasks s !! Z.to_nat index.

(** The task at [index] is mutated in place. *)
Definition set_task (index : Z) (task : pydict) (s : app) : app :=
  with_tasks (<[Z.to_nat index := task]> (tasks s)) s.

(** The state [build] starts from: nothing selected, nothing scheduled. *)
Definition initial (file : option value) : app :=
  {| tasks := []; selected_index := None; tasks_changed := false;
     scheduled_alarms := ∅; cancelled := []; tasks_file := file |}.

(** ** Timers *)

Module Timer.

(** [start_timer(index)] at clock reading [now]. *)
Definition start_timer (now : Z) (index : Z) (s : app) : app :=
  if negb (valid_index s index) then s else
  match task_at s index with
  | None => s
  | Some task =>
      if truthy (dict_get "timer_running" task)
         || truthy (dict_get_or "completed" (VBool false) task)
      then s
      else
        let task := dict_set "timer_running" (VBool true) task in
        let task := dict_set "start_time_unix" (VNum now) task in
        mark_tasks_changed (set_task index task s)
  end.

(** The [try] block of [stop_timer]: [elapsed] is bound only when the start
    time is a number, and [final_time += elapsed] needs a number. *)
Definition stop_timer_body (now : Z) (index : Z) (task : pydict) (s : app)
  : result app :=
  let final_time := dict_get_or "timer" (VNum 0) task in
  let start_time := dict_get "start_time_unix" task in
  elapsed ← match num_val start_time with
            | Some t => Ok (now - t)%Z
            | None => Raise UnboundLocalError
            end;
  final_time ← (if (elapsed >? 0)%Z then
                  match num_val final_time with
                  | Some f => Ok (VNum (f + elapsed))
                  | None => Raise TypeError
                  end
                else Ok final_time);
  let task := dict_set "timer" final_time task in
  let task := dict_set "timer_running" (VBool false) task in
  let task := dict_set "start_time_unix" VNone task in
  Ok (mark_tasks_changed (set_task index task s)).

(** [stop_timer(index)] at clock reading [now]. *)
Definition stop_timer (now : Z) (index : Z) (s : app) : app :=
  if negb (valid_index s index) then s else
  match task_at s index with
  | None => s
  | Some task =>
      if negb (truthy (dict_get "timer_running" task)) then s
      else try_except (stop_timer_body now index task s) (λ _, s)
  end.

(** [reset_timer(index)] *)
Definition reset_timer (index : Z) (s : app) : app :=
  if negb (valid_index s index) then s else
  match task_at s index with
  | None => s
  | Some task =>
      if truthy (dict_get_or "completed" (VBool false) task) then s
      else
        let task := dict_set "timer" (VNum 0) task in
        let task := dict_set "timer_running" (VBool false) task in
        let task := dict_set "start_time_unix" VNone task in
        mark_tasks_changed (set_task index task s)
  end.

(** The body of the loop of [check_and_resume_timers] (lines 1136-1141):
    the task after the iteration, and whether [needs_save] was set. *)
Definition resume_task (now_unix : Z) (task : pydict)
  : result (pydict * bool) :=
  if truthy (dict_get "timer_running" task) then
    match num_val (dict_get "start_time_unix" task) with
    | Some start =>
        let elapsed_since_save := (now_unix - start)%Z in
        if (elapsed_since_save >? 0)%Z then
          match num_val (dict_get_or "timer" (VNum 0) task) with
          | Some t =>
              let task := dict_set "timer" (VNum (t + elapsed_since_save)) task in
              Ok (dict_set "start_time_unix" (VNum now_unix) task, true)
          | None => Raise TypeError
          end
        else Ok (dict_set "start_time_unix" (VNum now_unix) task, true)
    | None =>
        let task := dict_set "timer_running" (VBool false) task in
        Ok (dict_set "start_time_unix" VNone task, true)
    end
  else Ok (task, false).

Fixpoint resume_tasks (now_unix : Z) (ts : list pydict)
  : result (list pydict * bool) :=
  match ts with
  | [] => Ok ([], false)
  | task :: rest =>
      '(task', saved) ← resume_task now_unix task;
      '(rest', needs_save) ← resume_tasks now_unix rest;
      Ok (task' :: rest', saved || needs_save)
  end.

(** [check_and_resume_timers()] with [time.time()] reading [now_unix]. *)
Definition check_and_resume_timers (now_unix : Z) (s : app) : result app :=
  '(ts, needs_save) ← resume_tasks now_unix (tasks s);
  let s := with_tasks ts s in
  Ok (if needs_save : bool then mark_tasks_changed s else s).

End Timer.

(** ** Structural operations on the task list *)

Module Store.

(** [l.pop(i)] for [0 <= i < len(l)]: the list without its element [i]. *)
Definition list_pop {A} (i : nat) (l : list A) : list A :=
  take i l ++ drop (S i) l.

(** [l.insert(i, x)] for [0 <= i]: beyond the end it appends. *)
Definition list_insert_at {A} (i : nat) (x : A) (l : list A) : list A :=
  take i l ++ x :: drop i l.

(** The position [_insert_task_at_position] inserts at: [to_position]
    clamped to [0, len], less one when the removed task was before it. *)
Definition clamp_position (len to_position : Z) : Z :=
  Z.max 0 (Z.min len to_position).

Definition insert_position (len from_idx to_position : Z) : Z :=
  let to_position := clamp_position len to_position in
  if (from_idx <? to_position)%Z then (to_position - 1)%Z else to_position.

(** The selection after the move (lines 2332-2338). *)
Definition follow_selection (from_idx to_position : Z) (sel : option Z)
  : option Z :=
  match sel with
  | None => None
  | Some sel =>
      if (sel =? from_idx)%Z then Some to_position
      else if (from_idx <? sel)%Z && (sel <=? to_position)%Z
           then Some (sel - 1)%Z
      else if (to_position <=? sel)%Z && (sel <? from_idx)%Z
           then Some (sel + 1)%Z
      else Some sel
  end.

(** [_insert_task_at_position(from_idx, to_position)] *)
Definition insert_task_at_position (from_idx to_position : Z) (s : app)
  : app :=
  if negb (valid_index s from_idx) then s else
  let to_position :=
    clamp_position (Z.of_nat (length (tasks s))) to_position in
  if (from_idx =? to_position)%Z || (from_idx + 1 =? to_position)%Z then s
  else
    match task_at s from_idx with
    | None => s
    | Some task =>
        let popped := list_pop (Z.to_nat from_idx) (tasks s) in
        let to_position :=
          if (from_idx <? to_position)%Z then (to_position - 1)%Z
          else to_position in
        let inserted := list_insert_at (Z.to_nat to_position) task popped in
        let sel := follow_selection from_idx to_position (selected_index s) in
        mark_tasks_changed (with_selected sel (with_tasks inserted s))
    end.

(** What a [for] loop iterates over: the elements of a list, the keys of a
    dictionary, the characters of a string; other values do not iterate. *)
Definition iterate (v : value) : result (list value) :=
  match v with
  | VList l => Ok l
  | VDict d => Ok ((λ kv, VStr (fst kv)) <$> d)
  | VStr s => Ok ((λ c, VStr (String c EmptyString)) <$> list_ascii_of_string s)
  | _ => Raise TypeError
  end.

(** The loop of [delete_task] over the alarms of the task (lines
    1256-1259).  [event] is the local variable of that name: [None] while
    it is unbound, [Some None] when bound to [None].  It is assigned only
    under [if alarm_id], and read by [if event] in every iteration. *)
Fixpoint cancel_task_alarms (alarms : list value)
    (event : option (option clock_event)) (s : app) : result app :=
  match alarms with
  | [] => Ok s
  | alarm :: rest =>
      alarm_id ← value_get "id" alarm;
      '(event, s) ←
        (if truthy alarm_id then
           k ← key_of alarm_id;
           Ok (Some (scheduled_alarms s !! k),
               with_scheduled (delete k (scheduled_alarms s)) s)
         else Ok (event, s));
      match event with
      | None => Raise UnboundLocalError
      | Some None => cancel_task_alarms rest event s
      | Some (Some ev) =>
          cancel_task_alarms rest event (with_cancelled (ev :: cancelled s) s)
      end
  end.

(** The selection after the task at [index] is gone (lines 1262-1263). *)
Definition selection_after_delete (index : Z) (sel : option Z) : option Z :=
  match sel with
  | None => None
  | Some sel =>
      if (sel =? index)%Z then None
      else if (sel >? index)%Z then Some (sel - 1)%Z
      else Some sel
  end.

(** [delete_task(index)].  The loop over the alarms is outside the [try]
    block; inside it, reading the title of a task that has none raises
    before the task is removed, and the handler only reports. *)
Definition delete_task (index : Z) (s : app) : result app :=
  if negb (valid_index s index) then Ok s else
  match task_at s index with
  | None => Ok s
  | Some task_to_delete =>
      alarms ← iterate (dict_get_or "alarms" (VList []) task_to_delete);
      s ← cancel_task_alarms alarms None s;
      Ok (try_except
            (_ ← dict_item "task" task_to_delete;
             let s := with_tasks (list_pop (Z.to_nat index) (tasks s)) s in
             let s := mark_tasks_changed s in
             Ok (with_selected
                   (selection_after_delete index (selected_index s)) s))
            (λ _, s))
  end.

(** [now_iso] as [save_title_action] has it. *)
Definition rename_timestamp : string := "2025-04-18T16:35:40+08:00".

(** [not h or h[-1]['title'] != title] *)
Definition last_title_differs (h : list value) (title : value)
  : result bool :=
  match last h with
  | None => Ok true
  | Some e => t ← value_item "title" e; Ok (py_ne t title)
  end.

(** [save_title_action] of [change_task_title_gui] on the selected [task],
    with [text] in the input field.  [current_title] is the title the task
    had when the popup was built. *)
Definition save_title_action (text : string) (task : pydict)
  : result (pydict * bool) :=
  let current_title := dict_get_or "task" (VStr "") task in
  let new_title := strip text in
  if new_title =? "" then Ok (task, false)
  else if py_eq (VStr new_title) current_title then Ok (task, false)
  else
    let task :=
      if negb (dict_has "titleHistory" task)
         || negb (is_list (dict_get "titleHistory" task))
      then dict_set "titleHistory" (VList []) task else task in
    match dict_get "titleHistory" task with
    | VList h =>
        differs ← last_title_differs h current_title;
        let h := if differs : bool
                 then h ++ [VDict [("title", current_title);
                                   ("timestamp", VStr rename_timestamp)]]
                 else h in
        let task := dict_set "task" (VStr new_title) task in
        differs ← last_title_differs h (VStr new_title);
        let h := if differs : bool
                 then h ++ [VDict [("title", VStr new_title);
                                   ("timestamp", VStr rename_timestamp)]]
                 else h in
        let h := if (10 <? length h)%nat then drop (length h - 10) h else h in
        Ok (dict_set "titleHistory" (VList h) task, true)
    | _ => Raise TypeError
    end.

(** [change_task_title_gui] followed by its save button: the rename of the
    selected task. *)
Definition change_task_title (text : string) (s : app) : result app :=
  match selected_index s with
  | None => Ok s
  | Some index =>
      if negb (valid_index s index) then Ok s else
      match task_at s index with
      | None => Ok s
      | Some task =>
          '(task, changed) ← save_title_action text task;
          if changed : bool then Ok (mark_tasks_changed (set_task index task s))
          else Ok s
      end
  end.

End Store.

(** ** Alarms *)

Module Alarm.

(** [alarm_entry['enabled'] = False; self.mark_tasks_changed()] *)
Definition disable (alarm : pydict) : pydict :=
  dict_set "enabled" (VBool false) alarm.

(** [_schedule_alarm(task_index, alarm_entry)] with [time.time()] reading
    [now].  The entry is an object of the task's alarm list and is mutated
    in place: the entry after the call is returned with the state and the
    boolean result, and the caller puts it back.  The error popup of the
    missing sound file formats [os.path.basename(sound_file)], which needs a
    path.  [Clock.schedule_once] is taken to succeed. *)
Definition schedule_alarm (E : env) (now : Z) (task_index : Z)
    (alarm_entry : pydict) (s : app) : result (pydict * bool * app) :=
  let target_timestamp := dict_get "target_timestamp_unix" alarm_entry in
  let alarm_id := dict_get "id" alarm_entry in
  let sound_file := dict_get "sound_file" alarm_entry in
  let is_enabled := dict_get_or "enabled" (VBool false) alarm_entry in
  if negb (truthy target_timestamp && truthy alarm_id && truthy sound_file)
  then Ok (alarm_entry, false, s)
  else if negb (truthy is_enabled) then Ok (alarm_entry, false, s)
  else
    found ← os_path_exists E sound_file;
    if negb found then
      match sound_file with
      | VStr _ => Ok (disable alarm_entry, false, mark_tasks_changed s)
      | _ => Raise TypeError
      end
    else
      match num_val target_timestamp with
      | None => Raise TypeError
      | Some target =>
          let delay_seconds := (target - now)%Z in
          if (delay_seconds <=? 0)%Z then
            if truthy (dict_get "enabled" alarm_entry)
            then Ok (disable alarm_entry, false, mark_tasks_changed s)
            else Ok (alarm_entry, false, s)
          else
            k ← key_of alarm_id;
            let s :=
              match scheduled_alarms s !! k with
              | Some existing_event =>
                  with_cancelled (existing_event :: cancelled s)
                    (with_scheduled (delete k (scheduled_alarms s)) s)
              | None => s
              end in
            let clock_event :=
              {| ev_task := task_index; ev_alarm := alarm_id;
                 ev_delay := delay_seconds |} in
            Ok (alarm_entry, true,
                with_scheduled (<[k := clock_event]> (scheduled_alarms s)) s)
      end.

(** [all([target_time, alarm_id, sound_file])] *)
Definition has_alarm_data (alarm_entry : pydict) : bool :=
  truthy (dict_get "target_timestamp_unix" alarm_entry)
  && truthy (dict_get "id" alarm_entry)
  && truthy (dict_get "sound_file" alarm_entry).

(** One iteration of the inner loop of [_reschedule_pending_alarms] (lines
    2662-2672) on a dictionary entry: the entry after it, whether
    [task_updated] was set, and the state.  [now_ts] is the reading taken
    before the loops, [later] the one [_schedule_alarm] takes. *)
Definition reschedule_entry (E : env) (now_ts later : Z) (task_index : Z)
    (alarm_entry : pydict) (s : app) : result (pydict * bool * app) :=
  if truthy (dict_get "enabled" alarm_entry) then
    if negb (has_alarm_data alarm_entry)
    then Ok (disable alarm_entry, true, s)
    else
      found ← os_path_exists E (dict_get "sound_file" alarm_entry);
      if negb found then Ok (disable alarm_entry, true, s)
      else
        match num_val (dict_get "target_timestamp_unix" alarm_entry) with
        | None => Raise TypeError
        | Some target_time =>
            if (target_time <=? now_ts)%Z
            then Ok (disable alarm_entry, true, s)
            else
              '(alarm_entry, scheduled, s) ←
                schedule_alarm E later task_index alarm_entry s;
              if scheduled : bool then Ok (alarm_entry, false, s)
              else Ok (disable alarm_entry, true, s)
        end
  else Ok (alarm_entry, false, s).

(** The inner loop: [alarm_index] counts the entries, [later] gives the
    clock reading of the [_schedule_alarm] call made for each position.  An
    entry that is not a dictionary has no [get]. *)
Fixpoint reschedule_entries (E : env) (now_ts : Z) (later : nat → Z)
    (task_index : Z) (alarm_index : nat) (alarms : list value) (s : app)
  : result (list value * bool * app) :=
  match alarms with
  | [] => Ok ([], false, s)
  | VDict alarm_entry :: rest =>
      '(alarm_entry, updated, s) ←
        reschedule_entry E now_ts (later alarm_index) task_index alarm_entry s;
      '(rest, task_updated, s) ←
        reschedule_entries E now_ts later task_index (S alarm_index) rest s;
      Ok (VDict alarm_entry :: rest, updated || task_updated, s)
  | _ :: _ => Raise AttributeError
  end.

(** The body of the outer loop for one task.  The entries are mutated in
    place, and [alarms_to_keep] holds every entry in order, so a list value
    shows the same entries whether or not line 2673 replaces it. *)
Definition reschedule_task (E : env) (now_ts : Z) (later : nat → Z)
    (task_index : Z) (task : pydict) (s : app)
  : result (pydict * bool * app) :=
  let alarms := dict_get_or "alarms" (VList []) task in
  entries ← Store.iterate alarms;
  '(alarms_to_keep, task_updated, s) ←
    reschedule_entries E now_ts later task_index 0 entries s;
  let task :=
    if task_updated || is_list alarms && dict_has "alarms" task
    then dict_set "alarms" (VList alarms_to_keep) task else task in
  Ok (task, task_updated, s).

Fixpoint reschedule_tasks (E : env) (now_ts : Z) (later : nat → nat → Z)
    (task_index : nat) (ts : list pydict) (s : app)
  : result (list pydict * bool * app) :=
  match ts with
  | [] => Ok ([], false, s)
  | task :: rest =>
      '(task, updated, s) ←
        reschedule_task E now_ts (later task_index) (Z.of_nat task_index)
          task s;
      '(rest, tasks_need_saving, s) ←
        reschedule_tasks E now_ts later (S task_index) rest s;
      Ok (task :: rest, updated || tasks_need_saving, s)
  end.

(** [_reschedule_pending_alarms()] *)
Definition reschedule_pending_alarms (E : env) (now_ts : Z)
    (later : nat → nat → Z) (s : app) : result app :=
  '(ts, tasks_need_saving, s) ←
    reschedule_tasks E now_ts later 0 (tasks s) s;
  let s := with_tasks ts s in
  Ok (if tasks_need_saving : bool then mark_tasks_changed s else s).

(** What the popup of [set_alarm_gui] holds when its save button is
    pressed: the spinner texts, the numeric ones read by [int]. *)
Record alarm_form : Type := {
  form_year : Z;
  form_month : string;
  form_day : Z;
  form_hour : Z;
  form_minute : Z;
  form_second : Z;
  form_ampm : string;
  form_sound : string;
}.

(** [calendar.month_name] *)
Definition month_name : list string :=
  [""; "January"; "February"; "March"; "April"; "May"; "June"; "July";
   "August"; "September"; "October"; "November"; "December"].

(** [l.index(x) if x in l else 0] *)
Fixpoint index_or_zero (x : string) (l : list string) : nat :=
  match l with
  | [] => 0
  | y :: l' =>
      if y =? x then 0
      else if existsb (String.eqb x) l' then S (index_or_zero x l') else 0
  end.

(** Lines 2610-2612. *)
Definition hour_24 (hour : Z) (ampm : string) : Z :=
  if (ampm =? "PM") && negb (hour =? 12)%Z then (hour + 12)%Z
  else if (ampm =? "AM") && (hour =? 12)%Z then 0%Z
  else hour.

(** The two functions of the platform [_save_alarm] relies on:
    [os.path.join(ALARM_FOLDER, name)], and
    [datetime(y, m, d, H, M, S).timestamp()], which raises [ValueError] on
    a date that does not exist. *)
Record platform : Type := {
  alarm_path : string → string;
  timestamp_of : Z → Z → Z → Z → Z → Z → result Z;
}.

(** The target the form describes (lines 2604-2613):
    [target_dt.timestamp()]. *)
Definition form_target (P : platform) (f : alarm_form) : result Z :=
  timestamp_of P (form_year f)
    (Z.of_nat (index_or_zero (form_month f) month_name)) (form_day f)
    (hour_24 (form_hour f) (form_ampm f)) (form_minute f) (form_second f).

(** The entry of line 2615. *)
Definition new_alarm_entry (alarm_id : string) (target_timestamp_unix : Z)
    (sound_file_full : string) : pydict :=
  [("id", VStr alarm_id);
   ("target_timestamp_unix", VNum target_timestamp_unix);
   ("sound_file", VStr sound_file_full);
   ("enabled", VBool true)].

Definition newline : string := String "010"%char EmptyString.

(** [_save_alarm]; [now] is the reading compared with the target, [later]
    the one [_schedule_alarm] takes.  Both handlers report the exception in
    a popup and return: the result tells which exception, if any, was
    reported, and the state comes back as the statements before the
    exception left it. *)
Definition save_alarm (E : env) (P : platform) (now later : Z)
    (task_index : Z) (f : alarm_form) (s : app) : app * result unit :=
  let month := index_or_zero (form_month f) month_name in
  if (month =? 0)%nat then (s, Raise (ValueError "Invalid month selected."))
  else if form_sound f =? "(None)"
  then (s, Raise (ValueError "Please select an alarm sound."))
  else
    let sound_file_full := alarm_path P (form_sound f) in
    if negb (path_exists E sound_file_full)
    then (s, Raise (ValueError
                      ("Sound file not found:" +:+ newline +:+ form_sound f)))
    else
      match form_target P f with
      | Raise e => (s, Raise e)
      | Ok target_timestamp_unix =>
          if (target_timestamp_unix <=? now)%Z
          then (s, Raise (ValueError "Alarm time must be in the future."))
          else
            let alarm_id := new_alarm_id E task_index target_timestamp_unix in
            let alarm_entry :=
              new_alarm_entry alarm_id target_timestamp_unix sound_file_full in
            if negb (valid_index s task_index) then (s, Raise IndexError)
            else
              match task_at s task_index with
              | None => (s, Raise IndexError)
              | Some task =>
                  match dict_lookup "alarms" task with
                  | None => (s, Raise KeyError)
                  | Some (VList alarms) =>
                      (* the entry is in the list from here on, and what
                         [_schedule_alarm] does to it shows there *)
                      let appended entry :=
                        set_task task_index
                          (dict_set "alarms" (VList (alarms ++ [VDict entry]))
                             task) in
                      let s := mark_tasks_changed (appended alarm_entry s) in
                      match schedule_alarm E later task_index alarm_entry s with
                      | Raise e => (s, Raise e)
                      | Ok (alarm_entry, _, s) =>
                          (appended alarm_entry s, Ok ())
                      end
                  | Some _ => (s, Raise AttributeError)
                  end
              end
      end.

End Alarm.

(** ** Saving: [save_tasks] *)

Module Save.

(** [len(v)] is defined: lists, strings and dictionaries have a length. *)
Definition has_len (v : value) : bool :=
  match v with
  | VList _ | VStr _ | VDict _ => true
  | _ => false
  end.

(** The debug line of the loop (line 1005) takes the [len] of three fields
    of the copy, each an empty list when absent; the string is built
    whatever the logging level is. *)
Definition debug_line (task : pydict) : result unit :=
  if has_len (dict_get_or "titleHistory" (VList []) task)
     && has_len (dict_get_or "annotations" (VList []) task)
     && has_len (dict_get_or "alarms" (VList []) task)
  then Ok ()
  else Raise TypeError.

(** The copy of a task that is written (lines 1006-1014): the coercions
    are those of [load_tasks]. *)
Definition task_to_save (task : pydict) : value :=
  VDict (Load.coerce_fields task).

(** The loop of lines 1002-1014, which is outside the [try] block. *)
Fixpoint tasks_to_save (ts : list pydict) : result (list value) :=
  match ts with
  | [] => Ok []
  | task :: rest =>
      _ ← debug_line task;
      rest' ← tasks_to_save rest;
      Ok (task_to_save task :: rest')
  end.

(** The [meta] dictionary read back from [TASKS_FILE] (lines 1018-1024):
    empty when the file is missing, is not JSON, or holds a list. *)
Definition read_meta (file : option value) : value :=
  match file with
  | None => VDict []
  | Some (VList _) => VDict []
  | Some meta => meta
  end.

(** [save_tasks(force)].  [meta.keys()] and [meta['tasks'] = ...] need a
    dictionary; the handler of the [try] block reports and leaves the file
    as it was. *)
Definition save_tasks (force : bool) (s : app) : result app :=
  if negb (tasks_changed s) && negb force then Ok s else
  tasks_to_save ← tasks_to_save (tasks s);
  match read_meta (tasks_file s) with
  | VDict meta =>
      let meta := dict_set "tasks" (VList tasks_to_save) meta in
      Ok (with_changed false (with_file (Some (VDict meta)) s))
  | _ => Ok s
  end.

(** The start of [build]: [self.tasks = self.load_tasks()]. *)
Definition load (E : env) (s : app) : app :=
  with_tasks (Load.load_tasks E (tasks_file s)) s.

End Save.

(** ** Predicates of the statements *)





(** The title history of a task, as a list of entries. *)
Definition history_of (task : pydict) : list value :=
  match dict_get "titleHistory" task with
  | VList h => h
  | _ => []
  end.

(** No entry of the history is equal to the one after it. *)
Definition no_consecutive_identical (h : list value) : Prop :=
  ∀ i a b, h !! i = Some a → h !! S i = Some b → py_eq a b = false.

(** The last entry of the history, when there is one, can be asked its
    title: it is a dictionary with a [title] key. *)
Definition last_entry_titled (task : pydict) : Prop :=
  ∀ e, last (history_of task) = Some e → ∃ t, value_item "title" e = Ok t.

(** The entry [save_title_action] appends for a title. *)
Definition rename_entry (title : value) : value :=
  VDict [("title", title); ("timestamp", VStr Store.rename_timestamp)].

(** A document whose task has a history that already repeats an entry. *)
Definition repeated_history_doc : value :=
  VList [VDict [("task", VStr "A");
                ("titleHistory",
                 VList [VDict [("title", VStr "A"); ("timestamp", VStr "t0")];
                        VDict [("title", VStr "A"); ("timestamp", VStr "t0")]])]].







(** An alarm entry with an identifier that is truthy and hashable, as the
    identifiers the program generates are. *)
Definition alarm_has_id (alarm : value) : bool :=
  match alarm with
  | VDict a =>
      truthy (dict_get "id" a)
      && match key_of (dict_get "id" a) with Ok _ => true | Raise _ => false end
  | _ => false
  end.


(** A document that gives its tasks no title history; the second has no
    title either. *)
Definition bare_doc : value :=
  VDict [("user_display_name", VStr "Ana");
         ("tasks", VList [VDict [("task", VStr "Write report")];
                          VDict [("timer", VNum 5)]]);
         ("theme", VStr "dark")].

(** ** Scenarios *)

(** A concrete environment for the scenarios: one sound file exists. *)
Definition sample_env : env :=
  {| now_iso := "2025-04-18T16:35:40";
     local_time := "2025-04-18 16:35:40 PST";
     load_alarm_id := λ i j, pretty i +:+ "_" +:+ pretty j +:+ "_0_abcdef";
     new_alarm_id := λ i t, pretty i +:+ "_" +:+ pretty t +:+ "_abcdef";
     path_exists := λ p, p =? "alarm/bell.wav";
     fd_exists := λ _, false;
     recursion_limit := 1000 |}.


(** A document whose task was saved stopped, with a start time left in. *)
Definition stale_start_doc : value :=
  VList [VDict [("task", VStr "Write report");
                ("timer_running", VBool false);
                ("start_time_unix", VNum 1000);
                ("timer", VNum 10)]].

(** A task as [add_task] creates it, but for its time stamps. *)
Definition plain_task (title : string) : pydict :=
  [("task", VStr title); ("timer", VNum 0); ("timer_running", VBool false);
   ("start_time_unix", VNone); ("completed", VBool false);
   ("alarms", VList []);
   ("titleHistory",
    VList [VDict [("title", VStr title); ("timestamp", VStr "")]]);
   ("subtasks", VList [])].

(** Five tasks, the first one selected. *)
Definition five_tasks : app :=
  with_selected (Some 0%Z)
    (with_tasks [plain_task "a"; plain_task "b"; plain_task "c";
                 plain_task "d"; plain_task "e"] (initial None)).

(** A document saved with an alarm armed for 1000 and one for 5000. *)
Definition armed_doc : value :=
  VDict [("tasks",
          VList [VDict [("task", VStr "Call back");
                        ("alarms",
                         VList [VDict [("id", VStr "0_1000_aaaaaa");
                                       ("target_timestamp_unix", VNum 1000);
                                       ("sound_file", VStr "alarm/bell.wav");
                                       ("enabled", VBool true)];
                                VDict [("id", VStr "0_5000_bbbbbb");
                                       ("target_timestamp_unix", VNum 5000);
                                       ("sound_file", VStr "alarm/bell.wav");
                                       ("enabled", VBool true)]])]])].

(** The two alarms of [armed_doc], and a store holding a task with them. *)
Definition alarm_1000 : pydict :=
  [("id", VStr "0_1000_aaaaaa"); ("target_timestamp_unix", VNum 1000);
   ("sound_file", VStr "alarm/bell.wav"); ("enabled", VBool true)].

Definition alarm_5000 : pydict :=
  [("id", VStr "0_5000_bbbbbb"); ("target_timestamp_unix", VNum 5000);
   ("sound_file", VStr "alarm/bell.wav"); ("enabled", VBool true)].

Definition armed_task : pydict :=
  [("task", VStr "Call back");
   ("alarms", VList [VDict alarm_1000; VDict alarm_5000])].

Definition armed_store : app := with_tasks [armed_task] (initial None).

(** [armed_store] after a startup at 500: both alarms are scheduled. *)
Definition scheduled_store : app :=
  match Alarm.reschedule_pending_alarms sample_env 500 (λ _ _, 501%Z)
          armed_store with
  | Ok s => s
  | Raise _ => armed_store
  end.


(** A document with a task saved stopped with a start time left in, one
    saved running since 1000, and one saved running with a start time that
    is not a number. *)
Definition mixed_timers_doc : value :=
  VDict [("tasks",
          VList [VDict [("task", VStr "Write report");
                        ("timer_running", VBool false);
                        ("start_time_unix", VNum 1000);
                        ("timer", VNum 10)];
                 VDict [("task", VStr "Call back");
                        ("timer_running", VBool true);
                        ("start_time_unix", VNum 1000);
                        ("timer", VNum 10)];
                 VDict [("task", VStr "Pay rent");
                        ("timer_running", VBool true);
                        ("start_time_unix", VStr "yesterday");
                        ("timer", VNum 10)]])].


(** A document whose task has one alarm, saved with an empty
    identifier. *)
Definition empty_id_doc : value :=
  VDict [("tasks",
          VList [VDict [("task", VStr "a");
                        ("alarms",
                         VList [VDict [("id", VStr "");
                                       ("target_timestamp_unix", VNum 5000);
                                       ("sound_file", VStr "alarm/bell.wav");
                                       ("enabled", VBool true)]])]])].

(** A concrete platform for the scenarios: alarm sounds are in [alarm/],
    and a date is turned into seconds with months of 31 days; a day beyond
    31 does not exist. *)
Definition sample_platform : Alarm.platform :=
  {| Alarm.alarm_path := λ name, "alarm/" +:+ name;
     Alarm.timestamp_of := λ y m d H M S,
       if (31 <? d)%Z then Raise (ValueError "day is out of range for month")
       else Ok ((((((y - 1970) * 12 + (m - 1)) * 31 + (d - 1)) * 24 + H) * 60
                 + M) * 60 + S)%Z |}.

(** One task, and the form filled in for 1 January 1970, 12:16:40 AM,
    which [sample_platform] turns into 1000. *)
Definition one_task : app := with_tasks [plain_task "a"] (initial None).

Definition alarm_at_1000 (sound : string) : Alarm.alarm_form :=
  {| Alarm.form_year := 1970; Alarm.form_month := "January";
     Alarm.form_day := 1; Alarm.form_hour := 12; Alarm.form_minute := 16;
     Alarm.form_second := 40; Alarm.form_ampm := "AM";
     Alarm.form_sound := sound |}.

(** ** The timer display *)

Module Display.

(** [f"{n:02}"] for an integer [n] that is not negative. *)
Definition pad2 (n : Z) : string :=
  if (n <? 10)%Z then "0" +:+ pretty n else pretty n.

(** [format_timedelta(seconds)].  The comparison with 0 needs a number. *)
Definition format_timedelta (seconds : value) : result string :=
  match num_val seconds with
  | None => Raise TypeError
  | Some n =>
      let seconds := if (n <? 0)%Z then 0%Z else n in
      let hours := (seconds / 3600)%Z in
      let remainder := (seconds mod 3600)%Z in
      let minutes := (remainder / 60)%Z in
      let secs := (remainder mod 60)%Z in
      Ok (pad2 hours +:+ ":" +:+ pad2 minutes +:+ ":" +:+ pad2 secs)
  end.

(** The total [update_timer_label(index)] computes at clock reading [now]
    when it is not given one (lines 1766-1774). *)
Definition current_total_time (now : Z) (index : Z) (s : app)
  : result value :=
  if valid_index s index then
    match task_at s index with
    | None => Ok (VNum 0)
    | Some task =>
        if truthy (dict_get "timer_running" task)
           && is_number (dict_get "start_time_unix" task)
        then
          match num_val (dict_get_or "timer" (VNum 0) task),
                num_val (dict_get "start_time_unix" task) with
          | Some t, Some start => Ok (VNum (t + (now - start)))
          | _, _ => Raise TypeError
          end
        else Ok (dict_get_or "timer" (VNum 0) task)
    end
  else Ok (VNum 0).

(** The text [update_timer_label(index)] gives the label of the task. *)
Definition timer_label_text (now : Z) (index : Z) (s : app)
  : result string :=
  total ← current_total_time now index s;
  text ← format_timedelta total;
  Ok ("Timer: " +:+ text).

End Display.

(** ** Completing a task *)

Module Complete.

(** [mark_as_completed_gui] at clock reading [now]: the selected task
    changes status, and a task that becomes completed has its running
    timer stopped. *)
Definition mark_as_completed_gui (now : Z) (s : app) : app :=
  match selected_index s with
  | None => s
  | Some task_index =>
      if negb (valid_index s task_index) then s else
      match task_at s task_index with
      | None => s
      | Some task =>
          let current_status :=
            dict_get_or "completed" (VBool false) task in
          let new_status := negb (truthy current_status) in
          let task := dict_set "completed" (VBool new_status) task in
          let s := mark_tasks_changed (set_task task_index task s) in
          if new_status then
            if truthy (dict_get "timer_running" task)
            then Timer.stop_timer now task_index s
            else s
          else s
      end
  end.

End Complete.

(** ** Predicates and scenarios of the timer properties *)

(** The two timer fields agree: a task that is running holds the reading
    at which it was started, a task that is not holds no start time. *)
Definition timer_state_ok (task : pydict) : Prop :=
  if truthy (dict_get "timer_running" task)
  then is_number (dict_get "start_time_unix" task) = true
  else dict_get "start_time_unix" task = VNone.

(** The task a [stop_timer] that goes through leaves: [final] is the time
    it has counted. *)
Definition stopped (final : value) (task : pydict) : pydict :=
  dict_set "start_time_unix" VNone
    (dict_set "timer_running" (VBool false) (dict_set "timer" final task)).

(** The task of the restart scenario, running since 1000 with 10 seconds
    counted, and a store that holds it, selected. *)
Definition running_task : pydict :=
  [("task", VStr "Write report"); ("timer_running", VBool true);
   ("start_time_unix", VNum 1000); ("timer", VNum 10)].

Definition running_store : app :=
  with_selected (Some 0%Z) (with_tasks [running_task] (initial None)).

(** ** Adding and moving tasks *)

Module Tasks.

(** [select_task(index)]: the selection it leaves.  The click times, which
    only decide whether the annotation popup opens, are left out. *)
Definition select_task (index : Z) (s : app) : app :=
  if negb (valid_index s index) then s else with_selected (Some index) s.

(** The dictionary [add_task] and [add_subtask] build for a name. *)
Definition new_task (E : env) (task_name : string) : pydict :=
  [("task", VStr (strip task_name)); ("timer", VNum 0);
   ("localTime", VStr (local_time E)); ("createdAt", VStr (now_iso E));
   ("timer_running", VBool false); ("start_time_unix", VNone);
   ("completed", VBool false); ("due_date", VNone); ("icon", VNone);
   ("alarms", VList []); ("annotations", VList []);
   ("titleHistory",
    VList [VDict [("title", VStr (strip task_name));
                  ("timestamp", VStr (now_iso E))]]);
   ("subtasks", VList [])].

(** [not task_name or not task_name.strip()] *)
Definition blank (task_name : string) : bool :=
  (task_name =? "") || (strip task_name =? "").

(** [add_task(task_name)] for a main task: the new task goes first and is
    selected.  The statements on the widgets are taken to raise nothing. *)
Definition add_task (E : env) (task_name : string) (s : app) : app :=
  if blank task_name then s else
  let s := with_tasks (new_task E task_name :: tasks s) s in
  let s := select_task 0 s in
  mark_tasks_changed s.

(** [add_task(task_name, parent_task)]: the new task goes first in the
    subtasks of the parent, which is mutated in place; [insert] needs a
    list, and the handler leaves the parent as the statements before the
    exception made it. *)
Definition add_task_to_parent (E : env) (task_name : string)
    (parent_task : pydict) (s : app) : pydict * app :=
  if blank task_name then (parent_task, s) else
  let parent_task :=
    if negb (dict_has "subtasks" parent_task)
    then dict_set "subtasks" (VList []) parent_task else parent_task in
  match dict_get "subtasks" parent_task with
  | VList subs =>
      (dict_set "subtasks" (VList (VDict (new_task E task_name) :: subs))
         parent_task,
       mark_tasks_changed s)
  | _ => (parent_task, s)
  end.

(** The dictionary [add_task_with_due_date] builds: it has no [subtasks]
    key. *)
Definition new_task_with_due_date (E : env) (task_name due_date_str : string)
  : pydict :=
  [("task", VStr (strip task_name)); ("timer", VNum 0);
   ("localTime", VStr (local_time E)); ("createdAt", VStr (now_iso E));
   ("timer_running", VBool false); ("start_time_unix", VNone);
   ("completed", VBool false); ("due_date", VStr due_date_str);
   ("icon", VNone); ("alarms", VList []); ("annotations", VList []);
   ("titleHistory",
    VList [VDict [("title", VStr (strip task_name));
                  ("timestamp", VStr (now_iso E))]])].

(** [add_task_with_due_date(task_name, due_date_str)]: the new task goes
    last and is selected. *)
Definition add_task_with_due_date (E : env) (task_name due_date_str : string)
    (s : app) : app :=
  if blank task_name then s else
  let s :=
    with_tasks (tasks s ++ [new_task_with_due_date E task_name due_date_str])
      s in
  let s := mark_tasks_changed s in
  select_task (Z.of_nat (length (tasks s)) - 1) s.

(** [move_task(index, direction)]: the state it leaves.  The log line reads
    the title of the moved task before the selection is set, and the
    handler of the [try] block only reports.  The index the method returns
    is read by no caller and is left out. *)
Definition move_task (index direction : Z) (s : app) : app :=
  if negb (valid_index s index) then s else
  let new_index := (index + direction)%Z in
  if negb (valid_index s new_index) then s else
  match task_at s index with
  | None => s
  | Some task_to_move =>
      let popped := Store.list_pop (Z.to_nat index) (tasks s) in
      let s :=
        with_tasks
          (Store.list_insert_at (Z.to_nat new_index) task_to_move popped) s in
      let s := mark_tasks_changed s in
      try_except
        (_ ← dict_item "task" task_to_move;
         Ok (with_selected (Some new_index) s))
        (λ _, s)
  end.

End Tasks.

(** ** Firing and deleting an alarm *)

Module Ring.

(** How a call of [_trigger_alarm_action] ends. *)
Inductive outcome : Type :=
| NoTask
| NotFound
| NotEnabled
| SoundMissing
| SoundFailed
| Ringing (sound_file : value).

(** [next((a for a in alarms if a.get('id') == alarm_id), None)], with the
    position of the entry found.  The generator stops at the first match,
    and an entry before it that is not a dictionary has no [get]. *)
Fixpoint find_alarm (alarm_id : value) (alarms : list value)
  : result (option (nat * pydict)) :=
  match alarms with
  | [] => Ok None
  | VDict a :: rest =>
      if py_eq (dict_get "id" a) alarm_id then Ok (Some (0%nat, a))
      else
        found ← find_alarm alarm_id rest;
        Ok (match found with
            | Some (j, a') => Some (S j, a')
            | None => None
            end)
  | _ :: _ => Raise AttributeError
  end.

(** The entry at position [j] of the alarms of the task at [task_index] is
    disabled in place, and the store marked changed. *)
Definition disable_entry (task_index : Z) (task : pydict)
    (alarms : list value) (j : nat) (alarm_entry : pydict) (s : app) : app :=
  mark_tasks_changed
    (set_task task_index
       (dict_set "alarms"
          (VList (<[j := VDict (Alarm.disable alarm_entry)]> alarms)) task) s).

(** [_trigger_alarm_action(task_index, alarm_id)].  [plays] tells whether
    [pygame] loads and plays the sound; both handlers of the [try] block
    disable the entry.  The statements before the [try] block are not
    guarded: the error popup of the missing sound file formats
    [os.path.basename(sound_file)], which needs a path. *)
Definition trigger_alarm_action (E : env) (plays : value → bool)
    (task_index : Z) (alarm_id : value) (s : app)
  : result (app * outcome) :=
  k ← key_of alarm_id;
  let s := with_scheduled (delete k (scheduled_alarms s)) s in
  if negb (valid_index s task_index) then Ok (s, NoTask) else
  match task_at s task_index with
  | None => Ok (s, NoTask)
  | Some task =>
      alarms ← Store.iterate (dict_get_or "alarms" (VList []) task);
      found ← find_alarm alarm_id alarms;
      match found with
      | None => Ok (s, NotFound)
      | Some (j, alarm_entry) =>
          if negb (truthy (VDict alarm_entry)) then Ok (s, NotFound)
          else if negb (truthy (dict_get "enabled" alarm_entry))
          then Ok (s, NotEnabled)
          else
            let sound_file := dict_get "sound_file" alarm_entry in
            missing ← (if negb (truthy sound_file) then Ok true
                       else found ← os_path_exists E sound_file;
                            Ok (negb found));
            if missing : bool then
              match sound_file with
              | VStr _ =>
                  Ok (disable_entry task_index task alarms j alarm_entry s,
                      SoundMissing)
              | _ => Raise TypeError
              end
            else if plays sound_file then Ok (s, Ringing sound_file)
            else Ok (disable_entry task_index task alarms j alarm_entry s,
                     SoundFailed)
      end
  end.

(** [[a for a in alarms if a.get('id') != alarm_id]] *)
Fixpoint without_id (alarm_id : value) (alarms : list value)
  : result (list value) :=
  match alarms with
  | [] => Ok []
  | VDict a :: rest =>
      rest' ← without_id alarm_id rest;
      Ok (if py_ne (dict_get "id" a) alarm_id then VDict a :: rest'
          else rest')
  | _ :: _ => Raise AttributeError
  end.

(** [_delete_alarm(task_index, alarm_id)]: the state and the boolean it
    returns.  The alarm list is rebuilt whether or not an entry goes. *)
Definition delete_alarm (task_index : Z) (alarm_id : value) (s : app)
  : result (app * bool) :=
  if negb (valid_index s task_index) then Ok (s, false) else
  match task_at s task_index with
  | None => Ok (s, false)
  | Some task =>
      alarms ← Store.iterate (dict_get_or "alarms" (VList []) task);
      let original_length := length alarms in
      kept ← without_id alarm_id alarms;
      let s := set_task task_index (dict_set "alarms" (VList kept) task) s in
      if (length kept <? original_length)%nat then
        k ← key_of alarm_id;
        let s :=
          match scheduled_alarms s !! k with
          | Some event =>
              with_cancelled (event :: cancelled s)
                (with_scheduled (delete k (scheduled_alarms s)) s)
          | None => s
          end in
        Ok (mark_tasks_changed s, true)
      else Ok (s, false)
  end.

End Ring.

(** ** Subtasks *)

Module Subtask.

(** [add_subtask(parent_task, subtask_name)]: the parent after the call,
    and the state.  The parent is an object of the task tree and is
    mutated in place; [append] needs a list, and the handler of the [try]
    block only reports. *)
Definition add_subtask (E : env) (subtask_name : string)
    (parent_task : pydict) (s : app) : pydict * app :=
  if Tasks.blank subtask_name then (parent_task, s) else
  let parent_task :=
    if negb (dict_has "subtasks" parent_task)
    then dict_set "subtasks" (VList []) parent_task else parent_task in
  match dict_get "subtasks" parent_task with
  | VList subs =>
      (dict_set "subtasks"
         (VList (subs ++ [VDict (Tasks.new_task E subtask_name)]))
         parent_task,
       mark_tasks_changed s)
  | _ => (parent_task, s)
  end.

(** The loop of [delete_subtask] over the alarms of the subtask (lines
    840-846): the state it leaves, and the exception that ended it, if
    any. *)
Fixpoint cancel_subtask_alarms (alarms : list value) (s : app)
  : app * result unit :=
  match alarms with
  | [] => (s, Ok ())
  | VDict alarm :: rest =>
      let alarm_id := dict_get "id" alarm in
      if truthy alarm_id then
        match key_of alarm_id with
        | Raise e => (s, Raise e)
        | Ok k =>
            match scheduled_alarms s !! k with
            | Some event =>
                cancel_subtask_alarms rest
                  (with_cancelled (event :: cancelled s)
                     (with_scheduled (delete k (scheduled_alarms s)) s))
            | None => cancel_subtask_alarms rest s
            end
        end
      else cancel_subtask_alarms rest s
  | _ :: _ => (s, Raise AttributeError)
  end.

(** [delete_subtask(parent_task, subtask_index)].  The whole body is in a
    [try] block whose handler only reports: a [subtasks] value that is not
    a list, or a subtask that is not a dictionary, ends there. *)
Definition delete_subtask (subtask_index : Z) (parent_task : pydict)
    (s : app) : pydict * app :=
  match dict_lookup "subtasks" parent_task with
  | Some (VList subs) =>
      if negb ((0 <=? subtask_index)
               && (subtask_index <? Z.of_nat (length subs)))%Z
      then (parent_task, s)
      else
        match subs !! Z.to_nat subtask_index with
        | Some (VDict subtask_to_delete) =>
            match Store.iterate
                    (dict_get_or "alarms" (VList []) subtask_to_delete) with
            | Raise _ => (parent_task, s)
            | Ok alarms =>
                match cancel_subtask_alarms alarms s with
                | (s, Raise _) => (parent_task, s)
                | (s, Ok _) =>
                    (dict_set "subtasks"
                       (VList (Store.list_pop (Z.to_nat subtask_index) subs))
                       parent_task,
                     mark_tasks_changed s)
                end
            end
        | _ => (parent_task, s)
        end
  | _ => (parent_task, s)
  end.

(** [toggle_subtask_completion(subtask)]: the subtask after the call. *)
Definition toggle_subtask_completion (subtask : pydict) (s : app)
  : pydict * app :=
  (dict_set "completed"
     (VBool (negb (truthy (dict_get_or "completed" (VBool false) subtask))))
     subtask,
   mark_tasks_changed s).

(** [sum(1 for subtask in subtasks if subtask.get('completed', False))] *)
Fixpoint count_completed (subtasks : list value) : result nat :=
  match subtasks with
  | [] => Ok 0%nat
  | VDict subtask :: rest =>
      n ← count_completed rest;
      Ok (if truthy (dict_get_or "completed" (VBool false) subtask)
          then S n else n)
  | _ :: _ => Raise AttributeError
  end.

(** [get_subtask_completion_stats(task)]: the pair [(completed, total)]. *)
Definition get_subtask_completion_stats (task : pydict)
  : result (nat * nat) :=
  if negb (dict_has "subtasks" task)
     || negb (truthy (dict_get "subtasks" task))
  then Ok (0%nat, 0%nat)
  else
    match dict_get "subtasks" task with
    | VList subtasks =>
        completed ← count_completed subtasks;
        Ok (completed, length subtasks)
    | VStr _ | VDict _ => Raise AttributeError
    | _ => Raise TypeError
    end.

End Subtask.

(** ** Annotations *)

Module Note.

(** [_save_new_annotation(task_index, ...)] with [text] in the input
    field.  [timestamp] is [datetime.now().isoformat()]. *)
Definition save_new_annotation (E : env) (task_index : Z) (text : string)
    (s : app) : app :=
  let new_text := strip text in
  if new_text =? "" then s
  else if negb (valid_index s task_index) then s
  else
    match task_at s task_index with
    | None => s
    | Some task =>
        let annotation_entry :=
          VDict [("text", VStr new_text); ("timestamp", VStr (now_iso E))] in
        let task :=
          if negb (dict_has "annotations" task)
             || negb (is_list (dict_get "annotations" task))
          then dict_set "annotations" (VList []) task else task in
        match dict_get "annotations" task with
        | VList annotations =>
            let task :=
              dict_set "annotations"
                (VList (annotations ++ [annotation_entry])) task in
            mark_tasks_changed (set_task task_index task s)
        | _ => s
        end
    end.

(** [_delete_annotation(task_index, annotation_index)]: the state and the
    boolean it returns.  The log line of the [try] block reads the text
    of the annotation that was removed, which needs a dictionary holding a
    string; the handler returns [False] with the annotation gone. *)
Definition delete_annotation (task_index annotation_index : Z) (s : app)
  : app * bool :=
  if negb (valid_index s task_index) then (s, false) else
  match task_at s task_index with
  | None => (s, false)
  | Some task =>
      match dict_lookup "annotations" task with
      | Some (VList annotations) =>
          if negb ((0 <=? annotation_index)
                   && (annotation_index <? Z.of_nat (length annotations)))%Z
          then (s, false)
          else
            match annotations !! Z.to_nat annotation_index with
            | None => (s, false)
            | Some deleted_annotation =>
                let task :=
                  dict_set "annotations"
                    (VList (Store.list_pop (Z.to_nat annotation_index)
                              annotations)) task in
                let s := mark_tasks_changed (set_task task_index task s) in
                match deleted_annotation with
                | VDict d =>
                    match dict_get_or "text" (VStr "") d with
                    | VStr _ | VList _ => (s, true)
                    | _ => (s, false)
                    end
                | _ => (s, false)
                end
            end
      | _ => (s, false)
      end
  end.

End Note.

(** ** Predicates of the alarm properties *)

(** An alarm entry that [_delete_alarm(alarm_id)] keeps. *)
Definition other_id (alarm_id : value) (alarm : value) : bool :=
  match alarm with
  | VDict a => py_ne (dict_get "id" a) alarm_id
  | _ => false
  end.

(** The alarms of the task can be searched, and none of them has the
    identifier [alarm_id]. *)
Definition lacks_alarm (alarm_id : value) (task : pydict) : Prop :=
  ∃ alarms,
    Store.iterate (dict_get_or "alarms" (VList []) task) = Ok alarms
    ∧ Ring.find_alarm alarm_id alarms = Ok None.

(** A sound player for the scenarios: every sound plays. *)
Definition every_sound : value → bool := λ _, true.


(** ** Scenarios of the subtask properties *)

(** A parent with two subtasks, the first one completed. *)
Definition parent_of_two : pydict :=
  [("task", VStr "Move house");
   ("subtasks",
    VList [VDict [("task", VStr "Pack"); ("completed", VBool true)];
           VDict [("task", VStr "Clean"); ("completed", VBool false)]])].

(** A store with one task, as [add_task] leaves it. *)
Definition fresh_store : app :=
  Tasks.add_task sample_env "Write report" (initial None).

(** ** Predicates of the persistence properties *)

(** The loop of [_initialize_subtasks] over the subtasks, given what is
    done to each of them. *)
Fixpoint initialize_each (init : pydict → result pydict)
    (subs : list value) : result (list value) :=
  match subs with
  | [] => Ok []
  | VDict sub :: rest =>
      sub' ← init sub;
      rest' ← initialize_each init rest;
      Ok (VDict sub' :: rest')
  | _ :: _ => Raise AttributeError
  end.





(** The keys [_initialize_subtasks] gives every subtask. *)
Definition subtask_keys : list string :=
  ["timer_running"; "completed"; "annotations"; "alarms"; "timer";
   "start_time_unix"; "due_date"; "icon"; "localTime"; "createdAt";
   "titleHistory"; "subtasks"].

(** The keys [load_tasks] gives every task. *)
Definition task_keys : list string :=
  ["task"; "timer_running"; "completed"; "annotations"; "alarms"; "timer";
   "start_time_unix"; "due_date"; "icon"; "localTime"; "createdAt";
   "titleHistory"; "subtasks"; "subtasks_visible"].

(** The keys [load_tasks] and [save_tasks] may rewrite. *)
Definition normalised_keys : list string :=
  ["task"; "subtasks"; "timer"; "start_time_unix"; "annotations"; "alarms";
   "due_date"; "icon"; "completed"; "titleHistory"; "start_time"].

(** An alarm entry as [load_tasks] leaves it. *)
Definition alarm_loaded (alarm : value) : bool :=
  match alarm with
  | VDict a =>
      dict_has "target_timestamp_unix" a && dict_has "sound_file" a
      && dict_has "enabled" a && dict_has "id" a
      && truthy (dict_get "target_timestamp_unix" a)
      && truthy (dict_get "sound_file" a)
  | _ => false
  end.

(** An entry of the title history as [load_tasks] leaves it. *)
Definition entry_stamped (entry : value) : bool :=
  match entry with
  | VDict e => dict_has "timestamp" e
  | _ => false
  end.

(** The eight fields lines 742-749 look at hold what they check for. *)
Definition fields_ok (d : pydict) : Prop :=
  is_number (dict_get "timer" d) = true
  ∧ is_number_or_none (dict_get "start_time_unix" d) = true
  ∧ is_list (dict_get "annotations" d) = true
  ∧ is_list (dict_get "alarms" d) = true
  ∧ is_str_or_none (dict_get "due_date" d) = true
  ∧ is_str_or_none (dict_get "icon" d) = true
  ∧ is_bool (dict_get "completed" d) = true
  ∧ is_list (dict_get "titleHistory" d) = true.

(** The fields of a task are typed as the data model has them. *)
Definition task_typed (task : pydict) : Prop :=
  Forall (λ k, dict_has k task = true) task_keys
  ∧ is_number (dict_get "timer" task) = true
  ∧ is_number_or_none (dict_get "start_time_unix" task) = true
  ∧ is_list (dict_get "annotations" task) = true
  ∧ is_str_or_none (dict_get "due_date" task) = true
  ∧ is_str_or_none (dict_get "icon" task) = true
  ∧ is_bool (dict_get "completed" task) = true
  ∧ (∃ alarms, dict_lookup "alarms" task = Some (VList alarms)
               ∧ forallb alarm_loaded alarms = true)
  ∧ (∃ h, dict_lookup "titleHistory" task = Some (VList h)
          ∧ forallb entry_stamped h = true).


(** A task entry marked for the Todoist export, with a key the program
    does not know. *)
Definition todone_entry : pydict :=
  [("task", VStr "Pay rent"); ("todone", VBool true);
   ("colour", VStr "red"); ("due_date", VStr "01-May-2025")].

(** * Properties *)

(** ** Dictionaries *)

Section dict_facts.
Implicit Types (k q : string) (v : value) (d : pydict).

Lemma dict_lookup_set k q v d :
  dict_lookup q (dict_set k v d) =
  if k =? q then Some v else dict_lookup q d.
Proof.
  induction d as [|[k0 v0] d IH]; simpl; [done|].
  destruct (k0 =? k) eqn:Hk; simpl.
  - apply String.eqb_eq in Hk as ->.
    by destruct (k =? q).
  - rewrite IH. destruct (k0 =? q) eqn:Hq; [|done].
    apply String.eqb_eq in Hq as ->. by rewrite String.eqb_sym, Hk.
Qed.

Lemma dict_lookup_set_eq k v d : dict_lookup k (dict_set k v d) = Some v.
Proof. by rewrite dict_lookup_set, String.eqb_refl. Qed.

Lemma dict_lookup_set_ne k q v d :
  k ≠ q → dict_lookup q (dict_set k v d) = dict_lookup q d.
Proof.
  intros Hne. rewrite dict_lookup_set.
  by apply String.eqb_neq in Hne as ->.
Qed.

Lemma dict_get_set k q v d :
  dict_get q (dict_set k v d) = if k =? q then v else dict_get q d.
Proof. unfold dict_get. rewrite dict_lookup_set. by destruct (k =? q). Qed.

Lemma dict_get_or_set k q v dflt d :
  dict_get_or q dflt (dict_set k v d) =
  if k =? q then v else dict_get_or q dflt d.
Proof. unfold dict_get_or. rewrite dict_lookup_set. by destruct (k =? q). Qed.

Lemma dict_has_set k q v d :
  dict_has q (dict_set k v d) = (k =? q) || dict_has q d.
Proof. unfold dict_has. rewrite dict_lookup_set. by destruct (k =? q). Qed.

Lemma dict_lookup_setdefault k q v d :
  dict_lookup q (dict_setdefault k v d) =
  match dict_lookup q d with
  | Some x => Some x
  | None => if k =? q then Some v else None
  end.
Proof.
  unfold dict_setdefault, dict_has.
  destruct (dict_lookup k d) as [x|] eqn:Hk.
  - destruct (dict_lookup q d) eqn:Hq; [done|].
    destruct (k =? q) eqn:Hkq; [|done].
    apply String.eqb_eq in Hkq as ->. congruence.
  - rewrite dict_lookup_set. destruct (k =? q) eqn:Hkq.
    + apply String.eqb_eq in Hkq as ->. by rewrite Hk.
    + by destruct (dict_lookup q d).
Qed.


Lemma dict_lookup_pop_ne k q d :
  k ≠ q → dict_lookup q (dict_pop k d) = dict_lookup q d.
Proof.
  intros Hne. induction d as [|[k0 v0] d IH]; simpl; [done|].
  destruct (k0 =? k) eqn:Hk; simpl.
  - apply String.eqb_eq in Hk as ->.
    by apply String.eqb_neq in Hne as ->.
  - by rewrite IH.
Qed.

Lemma dict_get_lookup k d v : dict_lookup k d = Some v → dict_get k d = v.
Proof. unfold dict_get. by intros ->. Qed.

Lemma dict_get_or_lookup k dflt d v :
  dict_lookup k d = Some v → dict_get_or k dflt d = v.
Proof. unfold dict_get_or. by intros ->. Qed.



Lemma py_eq_str_r v s : py_eq v (VStr s) = true → v = VStr s.
Proof.
  destruct v; simpl; try done.
  by intros ->%String.eqb_eq.
Qed.

Lemma py_eq_str_l v s : py_eq (VStr s) v = true → v = VStr s.
Proof.
  destruct v; simpl; try done.
  by intros ->%String.eqb_eq.
Qed.
End dict_facts.

(** Reducing a bind whose first computation is known. *)
Ltac result_simpl :=
  cbn [mbind result_mbind result_bind mret result_mret] in *.

(** Rewriting a lookup through the updates of a dictionary, with the keys
    compared by computation. *)
Ltac dict_simpl :=
  repeat first
    [ rewrite dict_lookup_set | rewrite dict_get_set
    | rewrite dict_get_or_set | rewrite dict_has_set ];
  cbn [String.eqb Ascii.eqb Bool.eqb orb andb negb].

(** ** Timers *)

Section timer_facts.
Import Timer.
Local Open Scope Z_scope.




Lemma check_and_resume_timers_tasks now s s' :
  check_and_resume_timers now s = Ok s' →
  ∃ b, resume_tasks now (tasks s) = Ok (tasks s', b).
Proof.
  unfold check_and_resume_timers.
  destruct (resume_tasks now (tasks s)) as [[ts b]|]; simpl; [|done].
  intros [= <-]. exists b. f_equal. f_equal.
  destruct b; [|done]. unfold mark_tasks_changed. simpl.
  by destruct (tasks_changed s).
Qed.

End timer_facts.

(** ** Loading *)

Section load_facts.
Import Load.
Context (E : env).
Implicit Types (k q : string) (v : value) (d : pydict).

Lemma coerce_lookup_ne k q ok dflt d :
  k ≠ q → dict_lookup q (coerce k ok dflt d) = dict_lookup q d.
Proof.
  intros Hne. unfold coerce. destruct (ok _); [done|].
  by apply dict_lookup_set_ne.
Qed.

Lemma coerce_get_ok k ok dflt d :
  ok dflt = true → ok (dict_get k (coerce k ok dflt d)) = true.
Proof.
  intros Hd. unfold coerce. destruct (ok (dict_get k d)) eqn:Hk; [done|].
  by rewrite dict_get_set, String.eqb_refl.
Qed.

Lemma dict_get_ext k d d' :
  dict_lookup k d' = dict_lookup k d → dict_get k d' = dict_get k d.
Proof. unfold dict_get. by intros ->. Qed.




Lemma filter_alarms_lookup_ne q i d :
  "alarms" ≠ q → dict_lookup q (filter_alarms E i d) = dict_lookup q d.
Proof.
  intros Hne. unfold filter_alarms.
  destruct (dict_get "alarms" d); by apply dict_lookup_set_ne.
Qed.

Lemma append_current_title_lookup_ne q d d' :
  append_current_title E d = Ok d' →
  "titleHistory" ≠ q → dict_lookup q d' = dict_lookup q d.
Proof.
  unfold append_current_title. intros Hd Hne.
  destruct (dict_item "titleHistory" d) as [h|]; simpl in Hd; [|done].
  destruct (dict_item "task" d) as [title|]; simpl in Hd; [|done].
  destruct h as [| | | |h|]; try done.
  destruct (match last h with
            | Some e => _
            | None => _
            end) as [[]|]; simpl in Hd; simplify_eq; [|done].
  by apply dict_lookup_set_ne.
Qed.

Lemma stamp_history_lookup_ne q d d' :
  stamp_history E d = Ok d' →
  "titleHistory" ≠ q → dict_lookup q d' = dict_lookup q d.
Proof.
  unfold stamp_history. intros Hd Hne.
  destruct (dict_get "titleHistory" d) as [| | | |h|]; try done.
  destruct (stamp_entries E h); simpl in Hd; simplify_eq.
  by apply dict_lookup_set_ne.
Qed.

Lemma migrate_start_time_lookup_ne q d :
  "start_time_unix" ≠ q → "start_time" ≠ q →
  dict_lookup q (migrate_start_time d) = dict_lookup q d.
Proof.
  intros Hu Hs. unfold migrate_start_time.
  destruct (_ && _); [|done].
  rewrite dict_lookup_pop_ne by done.
  destruct (dict_get "start_time_unix" d); try done.
  by apply dict_lookup_set_ne.
Qed.



Lemma load_entries_Forall (P : pydict → Prop) i entries :
  (∀ j v d, load_task E j v = Ok d → P d) →
  Forall P (load_entries E i entries).
Proof.
  intros HP. revert i. induction entries as [|v entries IH]; intros i; simpl.
  - constructor.
  - destruct (load_task E i v) eqn:Hv; [constructor|]; eauto.
Qed.

Lemma load_tasks_Forall (P : pydict → Prop) file :
  (∀ j v d, load_task E j v = Ok d → P d) →
  Forall P (load_tasks E file).
Proof.
  intros HP. unfold load_tasks.
  destruct file as [[]|]; try constructor; [by apply load_entries_Forall|].
  destruct (meta_accepted _); [|constructor].
  destruct (dict_get_or _ _ _); try constructor.
  by apply load_entries_Forall.
Qed.

End load_facts.

(** ** Reconciling the timers after a load *)

Section reconcile.
Import Timer.
Local Open Scope Z_scope.


End reconcile.






(** What the three tasks hold afterwards: the first is as it was saved,
    the second runs on from 1100 with the 100 seconds counted, the third
    is stopped. *)
Example reconcile_mixed_timers :
  match Timer.check_and_resume_timers 1100
          (Save.load sample_env (initial (Some mixed_timers_doc))) with
  | Ok s' =>
      (λ task, (dict_get "timer_running" task,
                dict_get "start_time_unix" task,
                dict_get "timer" task)) <$> tasks s'
      = [(VBool false, VNum 1000, VNum 10);
         (VBool true, VNum 1100, VNum 110);
         (VBool false, VNone, VNum 10)]
      ∧ tasks_changed s' = true
  | Raise _ => False
  end.
Proof. by vm_compute. Qed.


(** ** Starting and stopping a timer *)

Section timer_idempotence.
Import Timer.

Lemma valid_index_lt s index :
  valid_index s index = true →
  (Z.to_nat index < length (tasks s))%nat.
Proof. unfold valid_index. lia. Qed.

Lemma mark_tasks_changed_tasks s : tasks (mark_tasks_changed s) = tasks s.
Proof. unfold mark_tasks_changed. by destruct (tasks_changed s). Qed.

Lemma mark_tasks_changed_selected s :
  selected_index (mark_tasks_changed s) = selected_index s.
Proof. unfold mark_tasks_changed. by destruct (tasks_changed s). Qed.

Lemma mark_tasks_changed_scheduled s :
  scheduled_alarms (mark_tasks_changed s) = scheduled_alarms s.
Proof. unfold mark_tasks_changed. by destruct (tasks_changed s). Qed.

Lemma mark_tasks_changed_file s :
  tasks_file (mark_tasks_changed s) = tasks_file s.
Proof. unfold mark_tasks_changed. by destruct (tasks_changed s). Qed.

Lemma valid_index_mark_set s index task :
  valid_index (mark_tasks_changed (set_task index task s)) index
  = valid_index s index.
Proof.
  unfold valid_index. rewrite mark_tasks_changed_tasks. simpl.
  by rewrite length_insert.
Qed.

Lemma task_at_mark_set s index task :
  valid_index s index = true →
  task_at (mark_tasks_changed (set_task index task s)) index = Some task.
Proof.
  intros Hv%valid_index_lt. unfold task_at.
  rewrite mark_tasks_changed_tasks. simpl.
  by apply list_lookup_insert_eq.
Qed.

Lemma start_timer_twice now1 now2 index s :
  start_timer now2 index (start_timer now1 index s)
  = start_timer now1 index s.
Proof.
  unfold start_timer at 2.
  destruct (valid_index s index) eqn:Hv; simpl.
  - destruct (task_at s index) as [task|] eqn:Ht.
    + destruct (truthy (dict_get "timer_running" task)
                || truthy (dict_get_or "completed" (VBool false) task))
        eqn:Hbusy.
      * unfold start_timer. by rewrite Hv, Ht, Hbusy.
      * unfold start_timer.
        rewrite valid_index_mark_set, Hv, task_at_mark_set by done.
        dict_simpl. cbn [truthy orb]. by rewrite Ht, Hbusy.
    + unfold start_timer. by rewrite Hv, Ht.
  - unfold start_timer. by rewrite Hv.
Qed.
End timer_idempotence.

(** C8.  Stopping the timer of a task that is not running changes nothing
    in the state, and a second [start_timer] in a row changes nothing: the
    start time stays the one the first call recorded. *)
Theorem stop_start_idempotent :
  (∀ (now index : Z) (s : app) (task : pydict),
     valid_index s index = true →
     task_at s index = Some task →
     truthy (dict_get "timer_running" task) = false →
     Timer.stop_timer now index s = s)
  ∧ (∀ (now1 now2 index : Z) (s : app),
       Timer.start_timer now2 index (Timer.start_timer now1 index s)
       = Timer.start_timer now1 index s).
Proof.
  split.
  - intros now index s task Hv Ht Hrun. unfold Timer.stop_timer.
    by rewrite Hv, Ht, Hrun.
  - apply start_timer_twice.
Qed.

Lemma stop_start_idempotent_scenario :
  let s := Save.load sample_env (initial (Some stale_start_doc)) in
  Timer.stop_timer 50 0 s = s
  ∧ Timer.start_timer 70 0 (Timer.start_timer 60 0 s)
    = Timer.start_timer 60 0 s.
Proof.
  intros s. split.
  - eapply (proj1 stop_start_idempotent 50%Z 0%Z s).
    + reflexivity.
    + vm_compute. reflexivity.
    + reflexivity.
  - apply (proj2 stop_start_idempotent).
Defined.

(** After two starts in a row the recorded start time is the first one. *)
Example start_timer_twice_start_time :
  ∃ task,
    task_at (Timer.start_timer 70 0
               (Timer.start_timer 60 0
                  (Save.load sample_env (initial (Some stale_start_doc))))) 0
    = Some task
    ∧ dict_get "timer_running" task = VBool true
    ∧ dict_get "start_time_unix" task = VNum 60.
Proof. eexists. split; [vm_compute; reflexivity|]. by vm_compute. Qed.

(** ** Moving a task to a position *)

Section move.
Import Store.
Context {A : Type}.
Implicit Types (l : list A) (f p j : nat) (x y : A).

Lemma list_pop_length l f :
  (f < length l)%nat → length (list_pop f l) = (length l - 1)%nat.
Proof.
  intros Hf. unfold list_pop.
  rewrite length_app, length_take, length_drop. lia.
Qed.

Lemma list_pop_lookup l f j :
  (f < length l)%nat →
  list_pop f l !! j = if decide (j < f)%nat then l !! j else l !! S j.
Proof.
  intros Hf. unfold list_pop. case_decide as Hj.
  - rewrite lookup_app_l by (rewrite length_take; lia).
    by apply lookup_take_lt.
  - rewrite lookup_app_r by (rewrite length_take; lia).
    rewrite length_take, lookup_drop. f_equal. lia.
Qed.

Lemma list_insert_at_length l p x :
  length (list_insert_at p x l) = S (length l).
Proof.
  unfold list_insert_at.
  rewrite length_app, length_take. simpl. rewrite length_drop. lia.
Qed.

Lemma list_insert_at_lookup l p x j :
  (p ≤ length l)%nat →
  list_insert_at p x l !! j =
  if decide (j < p)%nat then l !! j
  else if decide (j = p) then Some x else l !! (j - 1)%nat.
Proof.
  intros Hp. unfold list_insert_at. repeat case_decide.
  - rewrite lookup_app_l by (rewrite length_take; lia).
    by apply lookup_take_lt.
  - subst j. apply list_lookup_middle. rewrite length_take. lia.
  - rewrite lookup_app_r by (rewrite length_take; lia).
    rewrite length_take.
    replace (j - p `min` length l)%nat with (S (j - p - 1)) by lia.
    simpl. rewrite lookup_drop. f_equal. lia.
Qed.

Lemma list_pop_insert_permutation l f p x :
  l !! f = Some x → list_insert_at p x (list_pop f l) ≡ₚ l.
Proof.
  intros Hf. unfold list_insert_at.
  rewrite <- Permutation_middle, take_drop.
  unfold list_pop. rewrite Permutation_middle.
  by rewrite take_drop_middle.
Qed.

(** Where the element at [j] is after the element at [f] was moved to
    [p], in the terms of lines 2332-2338. *)
Lemma list_move_lookup l f p j x y :
  l !! f = Some x → l !! j = Some y → (p < length l)%nat →
  list_insert_at p x (list_pop f l)
    !! (if decide (j = f) then p
        else if decide (f < j ≤ p)%nat then (j - 1)%nat
        else if decide (p ≤ j < f)%nat then (j + 1)%nat
        else j)
  = Some y.
Proof.
  intros Hf Hj Hp.
  pose proof (lookup_lt_Some _ _ _ Hf) as Hflt.
  pose proof (lookup_lt_Some _ _ _ Hj) as Hjlt.
  rewrite list_insert_at_lookup by (rewrite list_pop_length; lia).
  rewrite !list_pop_lookup by done.
  repeat case_decide; simplify_eq; try lia; try done.
  - by replace (S (j - 1)) with j by lia.
  - by replace (j + 1 - 1)%nat with j by lia.
  - by replace (S (j - 1)) with j by lia.
Qed.
End move.

Section move_task.
Import Store.
Local Open Scope Z_scope.

Lemma clamp_position_range len to_position :
  0 ≤ len → 0 ≤ clamp_position len to_position ≤ len.
Proof. unfold clamp_position. lia. Qed.

(** The selection the code computes, as a position in the list. *)
Lemma follow_selection_nat from_idx p sel :
  0 ≤ from_idx → 0 ≤ p → 0 ≤ sel →
  ∃ sel',
    follow_selection from_idx p (Some sel) = Some sel'
    ∧ 0 ≤ sel'
    ∧ Z.to_nat sel' =
      let f := Z.to_nat from_idx in
      let j := Z.to_nat sel in
      if decide (j = f) then Z.to_nat p
      else if decide (f < j ≤ Z.to_nat p)%nat then (j - 1)%nat
      else if decide (Z.to_nat p ≤ j < f)%nat then (j + 1)%nat
      else j.
Proof.
  intros Hf Hp Hs. unfold follow_selection. cbv zeta.
  destruct (Z.eqb_spec sel from_idx), (Z.ltb_spec from_idx sel),
    (Z.leb_spec sel p), (Z.leb_spec p sel), (Z.ltb_spec sel from_idx);
    cbn [andb]; eexists; (split; [reflexivity|]);
    repeat case_decide; lia.
Qed.

(** The moved task and the selected task are found again at the
    positions the code computes. *)
Lemma insert_task_at_position_lookup s from_idx to_position task :
  valid_index s from_idx = true →
  task_at s from_idx = Some task →
  let len := Z.of_nat (length (tasks s)) in
  let pos := insert_position len from_idx to_position in
  let s' := insert_task_at_position from_idx to_position s in
  0 ≤ pos < len
  ∧ tasks s' ≡ₚ tasks s
  ∧ ∀ sel t,
      valid_index s sel = true → task_at s sel = Some t →
      ∃ sel',
        follow_selection from_idx pos (Some sel) = Some sel'
        ∧ 0 ≤ sel'
        ∧ task_at s' sel' = Some t
        ∧ (selected_index s = Some sel → selected_index s' = Some sel').
Proof.
  intros Hv Ht len pos s'.
  assert (0 ≤ from_idx < len) as Hfrom by (unfold valid_index in Hv; lia).
  pose proof (clamp_position_range len to_position ltac:(lia)) as Hc.
  subst pos s'. unfold insert_task_at_position, insert_position.
  rewrite Hv. cbn [negb]. fold len.
  set (c := clamp_position len to_position) in *.
  destruct ((from_idx =? c) || (from_idx + 1 =? c)) eqn:Hsame.
  - (* nothing moves: the position computed is [from_idx] itself *)
    assert ((if from_idx <? c then c - 1 else c) = from_idx) as ->
      by (destruct (Z.ltb_spec from_idx c); lia).
    split; [lia|]. split; [done|].
    intros sel t Hsel Hselt. exists sel.
    assert (0 ≤ sel < len) by (unfold valid_index in Hsel; lia).
    split; [|split; [lia|by split]]. unfold follow_selection.
    destruct (Z.eqb_spec sel from_idx); [by subst|].
    destruct (Z.ltb_spec from_idx sel), (Z.leb_spec sel from_idx),
      (Z.leb_spec from_idx sel), (Z.ltb_spec sel from_idx);
      simpl; try done; lia.
  - rewrite Ht.
    set (p := if from_idx <? c then c - 1 else c).
    assert (0 ≤ p < len) as Hp
      by (subst p; destruct (Z.ltb_spec from_idx c); lia).
    split; [done|]. split.
    { rewrite mark_tasks_changed_tasks. simpl.
      by apply list_pop_insert_permutation. }
    intros sel t Hsel Hselt.
    assert (0 ≤ sel < len) by (unfold valid_index in Hsel; lia).
    destruct (follow_selection_nat from_idx p sel)
      as (sel' & Hsel' & Hpos & Hnat); [lia..|].
    pose proof (list_move_lookup (tasks s) (Z.to_nat from_idx)
                  (Z.to_nat p) (Z.to_nat sel) task t Ht Hselt
                  ltac:(lia)) as Hmove.
    cbv zeta in Hnat. rewrite <- Hnat in Hmove.
    exists sel'. split; [done|]. split; [done|]. split.
    + unfold task_at. by rewrite mark_tasks_changed_tasks.
    + intros Hs. rewrite mark_tasks_changed_selected. simpl.
      by rewrite Hs.
Qed.
End move_task.

(** C9.  [_insert_task_at_position] clamps the target to [0, len] and
    lowers it by one when the task came from before it; the moved task is
    then found at that position, the list holds the same tasks, and a
    selection follows the task it pointed at: in particular a selection on
    the moved task ends on its new position. *)
Theorem insert_task_at_position_moves (s : app) (from_idx to_position : Z)
    (task : pydict) :
  valid_index s from_idx = true →
  task_at s from_idx = Some task →
  let len := Z.of_nat (length (tasks s)) in
  let pos := Store.insert_position len from_idx to_position in
  let s' := Store.insert_task_at_position from_idx to_position s in
  (0 ≤ Store.clamp_position len to_position ≤ len)%Z
  ∧ pos = (if (from_idx <? Store.clamp_position len to_position)%Z
           then Store.clamp_position len to_position - 1
           else Store.clamp_position len to_position)%Z
  ∧ task_at s' pos = Some task
  ∧ valid_index s' pos = true
  ∧ tasks s' ≡ₚ tasks s
  ∧ (selected_index s = Some from_idx → selected_index s' = Some pos)
  ∧ (∀ sel t,
       selected_index s = Some sel → valid_index s sel = true →
       task_at s sel = Some t →
       ∃ sel', selected_index s' = Some sel' ∧ task_at s' sel' = Some t).
Proof.
  intros Hv Ht len pos s'.
  destruct (insert_task_at_position_lookup s from_idx to_position task Hv Ht)
    as (Hpos & Hperm & Hsel).
  fold len pos s' in Hpos, Hperm, Hsel.
  destruct (Hsel from_idx task Hv Ht) as (sel' & Hfollow & _ & Hat & Hs).
  assert (sel' = pos) as ->.
  { unfold Store.follow_selection in Hfollow.
    rewrite Z.eqb_refl in Hfollow. congruence. }
  split; [apply clamp_position_range; lia|].
  split; [done|]. split; [done|]. split.
  { unfold valid_index. rewrite (Permutation_length Hperm). fold len. lia. }
  split; [done|]. split; [done|].
  intros sel t Hsome Hvalid Hselt.
  destruct (Hsel sel t Hvalid Hselt) as (sel'' & _ & _ & Hat' & Hs').
  exists sel''. auto.
Qed.

(** The scenario of the specification: the first of five tasks, selected,
    is dropped on position 3. *)
Lemma insert_task_at_position_scenario :
  let s' := Store.insert_task_at_position 0 3 five_tasks in
  Store.insert_position 5 0 3 = 2%Z
  ∧ task_at s' 2 = Some (plain_task "a")
  ∧ selected_index s' = Some 2%Z.
Proof.
  intros s'.
  destruct (insert_task_at_position_moves five_tasks 0 3 (plain_task "a")
              eq_refl eq_refl) as (_ & Hpos & Hat & _ & _ & Hsel & _).
  split; [reflexivity|]. split; [exact Hat|]. exact (Hsel eq_refl).
Defined.

Example insert_first_at_three :
  tasks (Store.insert_task_at_position 0 3 five_tasks)
  = [plain_task "b"; plain_task "c"; plain_task "a"; plain_task "d";
     plain_task "e"]
  ∧ selected_index (Store.insert_task_at_position 0 3 five_tasks) = Some 2%Z.
Proof. by vm_compute. Qed.

(** A target beyond the end is clamped to the length. *)
Example insert_first_beyond_end :
  tasks (Store.insert_task_at_position 0 99 five_tasks)
  = [plain_task "b"; plain_task "c"; plain_task "d"; plain_task "e";
     plain_task "a"].
Proof. by vm_compute. Qed.

(** ** The title history after a load *)

Section load_history.
Import Load.
Context (E : env).
Implicit Types (k q : string) (v : value) (d : pydict).


Lemma dict_lookup_setdefault_Some k q v d x :
  dict_lookup q d = Some x → dict_lookup q (dict_setdefault k v d) = Some x.
Proof. intros Hq. by rewrite dict_lookup_setdefault, Hq. Qed.

Lemma task_defaults_lookup_Some q d x :
  dict_lookup q d = Some x → dict_lookup q (task_defaults E d) = Some x.
Proof.
  intros Hq. unfold task_defaults, subtask_defaults.
  by repeat apply dict_lookup_setdefault_Some.
Qed.

Lemma initialize_subtasks_lookup_ne depth d d' q :
  initialize_subtasks E depth d = Ok d' →
  "subtasks" ≠ q → dict_lookup q d' = dict_lookup q d.
Proof.
  intros Hd Hne. destruct depth as [|depth]; [done|].
  cbn [initialize_subtasks] in Hd.
  set (task := if negb (dict_has "subtasks" d)
               then dict_set "subtasks" (VList []) d else d) in Hd.
  assert (dict_lookup q task = dict_lookup q d) as <-.
  { subst task. destruct (negb _); [|done]. by apply dict_lookup_set_ne. }
  destruct (dict_get "subtasks" task) as [| | |[]|subs|[]];
    simplify_eq; try done.
  match type of Hd with
  | (?m ≫= _) = _ => destruct m as [subs'|]
  end; result_simpl; simplify_eq.
  by apply dict_lookup_set_ne.
Qed.

Lemma fix_title_has_task i d d' :
  fix_title i d = Ok d' → ∃ title, dict_lookup "task" d' = Some title.
Proof.
  unfold fix_title. destruct (negb (dict_has "task" d) || _) eqn:Hfix.
  - destruct (promoted_title d) as [[t|]|]; result_simpl; intros [= <-];
      rewrite dict_lookup_set_eq; eauto.
  - intros [= <-]. apply orb_false_elim in Hfix as [Hhas _].
    unfold dict_has in Hhas. destruct (dict_lookup "task" d); [eauto|done].
Qed.


Lemma stamp_entries_cons e h :
  stamp_entries E (VDict e :: h) =
  (rest ← stamp_entries E h;
   Ok (VDict (dict_setdefault "timestamp" (VStr (now_iso E)) e) :: rest)).
Proof. done. Qed.

End load_history.

Section load_title.
Import Load.
Context (E : env).



End load_title.



(** A document without any history: both tasks are loaded, the second
    under its fallback title, each with a one-entry history. *)
Example load_bare_doc :
  (λ task, (dict_get "task" task, dict_get "titleHistory" task))
    <$> Load.load_tasks sample_env (Some bare_doc)
  = [(VStr "Write report",
      VList [VDict [("title", VStr "Write report");
                    ("timestamp", VStr "2025-04-18T16:35:40")]]);
     (VStr "Untitled Task 2",
      VList [VDict [("title", VStr "Untitled Task 2");
                    ("timestamp", VStr "2025-04-18T16:35:40")]])].
Proof. by vm_compute. Qed.

(** ** Saving after a load *)

Section save_facts.
Import Save Load.
Context (E : env).





Lemma tasks_to_save_total ts :
  Forall (λ task, debug_line task = Ok ()) ts →
  tasks_to_save ts = Ok (task_to_save <$> ts).
Proof.
  induction 1 as [|task ts Htask _ IH]; [done|].
  cbn [tasks_to_save]. rewrite Htask, IH. done.
Qed.


(** What a forced save writes. *)
Lemma save_tasks_writes_tasks s meta :
  Forall (λ task, debug_line task = Ok ()) (tasks s) →
  tasks_file s = Some (VDict meta) →
  save_tasks true s
  = Ok (with_changed false
          (with_file
             (Some (VDict (dict_set "tasks"
                             (VList (task_to_save <$> tasks s)) meta))) s)).
Proof.
  intros Hsized Hfile. unfold save_tasks.
  rewrite andb_false_r, (tasks_to_save_total _ Hsized). result_simpl.
  by rewrite Hfile.
Qed.
End save_facts.



(** The document written for [bare_doc]: the display name and the unknown
    key [theme] are where they were, around the normalised tasks. *)
Example save_bare_doc_keys :
  match Save.save_tasks true
          (Save.load sample_env (initial (Some bare_doc))) with
  | Ok s' =>
      match tasks_file s' with
      | Some (VDict meta) =>
          fst <$> meta = ["user_display_name"; "tasks"; "theme"]
          ∧ dict_lookup "user_display_name" meta = Some (VStr "Ana")
          ∧ dict_lookup "theme" meta = Some (VStr "dark")
      | _ => False
      end
  | Raise _ => False
  end.
Proof. by vm_compute. Qed.

(** ** Renaming a task *)

Section rename.
Import Store.

Lemma py_eq_str_sym v s : py_eq v (VStr s) = py_eq (VStr s) v.
Proof. destruct v; simpl; try done. apply String.eqb_sym. Qed.

(** An entry whose title differs from [title] is not equal to the entry
    appended for [title]. *)
Lemma py_eq_rename_entry e t title :
  value_item "title" e = Ok t →
  py_eq t title = false →
  py_eq e (rename_entry title) = false.
Proof.
  destruct e as [| | | | |d]; try done. unfold value_item, dict_item.
  destruct (dict_lookup "title" d) as [t'|] eqn:Hd; [|done].
  intros [= ->] Hne. unfold rename_entry. cbn [py_eq].
  apply andb_false_intro2. clear -Hd Hne.
  induction d as [|[k x] d IH]; [done|].
  cbn [dict_lookup] in Hd. destruct (k =? "title") eqn:Hk.
  - apply String.eqb_eq in Hk as ->. injection Hd as ->.
    cbn [dict_lookup String.eqb Ascii.eqb Bool.eqb]. by rewrite Hne.
  - rewrite IH by done. apply andb_false_r.
Qed.

Lemma no_consecutive_identical_snoc h x :
  no_consecutive_identical h →
  (∀ e, last h = Some e → py_eq e x = false) →
  no_consecutive_identical (h ++ [x]).
Proof.
  intros Hh Hx i a b Ha Hb.
  destruct (decide (S i < length h)) as [Hlt|Hge].
  - rewrite lookup_app_l in Ha, Hb by lia. by eapply Hh.
  - apply lookup_lt_Some in Hb as Hb'. rewrite length_app in Hb'.
    simpl in Hb'. assert (S i = length h) as Hi by lia.
    rewrite lookup_app_l in Ha by lia.
    rewrite lookup_app_r, Hi, Nat.sub_diag in Hb by lia.
    injection Hb as <-. apply Hx.
    rewrite last_lookup. by replace (pred (length h)) with i by lia.
Qed.

Lemma no_consecutive_identical_drop n h :
  no_consecutive_identical h → no_consecutive_identical (drop n h).
Proof.
  intros Hh i a b. rewrite !lookup_drop.
  replace (n + S i) with (S (n + i)) by lia. apply Hh.
Qed.

Lemma last_title_differs_snoc h title title' :
  last_title_differs (h ++ [rename_entry title]) title'
  = Ok (py_ne title title').
Proof. unfold last_title_differs. by rewrite last_snoc. Qed.
End rename.

Section rename_task.
Import Store.

Lemma last_drop_lt {A} (n : nat) (l : list A) :
  (n < length l)%nat → last (drop n l) = last l.
Proof.
  intros Hn. rewrite !last_lookup, length_drop, lookup_drop.
  f_equal. lia.
Qed.

Lemma last_title_differs_titled h title :
  (∀ e, last h = Some e → ∃ t, value_item "title" e = Ok t) →
  ∃ differs,
    last_title_differs h title = Ok differs
    ∧ (differs = false →
       ∃ e t, last h = Some e ∧ value_item "title" e = Ok t
              ∧ py_eq t title = true)
    ∧ (differs = true →
       ∀ e, last h = Some e →
            ∃ t, value_item "title" e = Ok t ∧ py_eq t title = false).
Proof.
  intros Htitled. unfold last_title_differs.
  destruct (last h) as [e|]; [|by exists true].
  destruct (Htitled e eq_refl) as [t Ht]. rewrite Ht. result_simpl.
  exists (py_ne t title). split; [done|]. unfold py_ne. split.
  - intros Heq%negb_false_iff. by exists e, t.
  - intros Hneq%negb_true_iff e' [= <-]. by exists t.
Qed.

(** What the history is after a rename that goes through: the old
    history, the current title when the last entry did not already give
    it, the new title, cut to the last ten entries. *)
Lemma save_title_action_history text task :
  strip text ≠ "" →
  py_eq (VStr (strip text)) (dict_get_or "task" (VStr "") task) = false →
  last_entry_titled task →
  ∃ task' mid,
    save_title_action text task = Ok (task', true)
    ∧ dict_lookup "task" task' = Some (VStr (strip text))
    ∧ history_of task' =
      (let h := history_of task ++ mid ++ [rename_entry (VStr (strip text))] in
       if (10 <? length h)%nat then drop (length h - 10) h else h)
    ∧ (mid = [] ∨ mid = [rename_entry (dict_get_or "task" (VStr "") task)])
    ∧ (∀ e, last (history_of task) = Some e → mid ≠ [] →
            py_eq e (rename_entry (dict_get_or "task" (VStr "") task))
            = false)
    ∧ (∀ e, last (history_of task ++ mid) = Some e →
            py_eq e (rename_entry (VStr (strip text))) = false).
Proof.
  intros Hnew Hne Htitled. unfold save_title_action.
  set (current_title := dict_get_or "task" (VStr "") task) in *.
  set (new_title := strip text) in *.
  apply String.eqb_neq in Hnew as ->. rewrite Hne.
  set (task1 := if negb (dict_has "titleHistory" task)
                   || negb (is_list (dict_get "titleHistory" task))
                then dict_set "titleHistory" (VList []) task else task).
  assert (dict_get "titleHistory" task1 = VList (history_of task)) as ->.
  { subst task1. unfold history_of, dict_has, dict_get.
    destruct (dict_lookup "titleHistory" task) as [[]|] eqn:Hh;
      simpl; rewrite ?dict_lookup_set_eq, ?Hh; done. }
  set (h := history_of task) in *.
  assert (py_eq current_title (VStr new_title) = false) as Hne'
    by by rewrite py_eq_str_sym.
  assert (∀ task0 h3,
            history_of (dict_set "titleHistory" (VList h3) task0) = h3)
    as Hhist.
  { intros. unfold history_of. by rewrite dict_get_set, String.eqb_refl. }
  destruct (last_title_differs_titled h current_title Htitled)
    as (differs & Hd & Hsame & Hdiff).
  rewrite Hd. result_simpl. destruct differs.
  - (* the current title is appended, then the new one *)
    change (VDict [("title", current_title);
                   ("timestamp", VStr rename_timestamp)])
      with (rename_entry current_title).
    rewrite last_title_differs_snoc. result_simpl.
    unfold py_ne. rewrite Hne'. cbn [negb].
    eexists _, [rename_entry current_title]. split; [done|].
    rewrite dict_lookup_set_ne, dict_lookup_set_eq, Hhist by done.
    split; [done|]. split; [by rewrite <- app_assoc|].
    split; [by right|]. split.
    + intros e He _. destruct (Hdiff eq_refl e He) as (t & Ht & Hneq).
      by eapply py_eq_rename_entry.
    + intros e. rewrite last_snoc. intros [= <-].
      by eapply py_eq_rename_entry.
  - (* the last entry already gives the current title *)
    destruct (Hsame eq_refl) as (e & t & Hlast & Ht & Heq).
    assert (py_eq t (VStr new_title) = false) as Hnew.
    { destruct (py_eq t (VStr new_title)) eqn:Hn; [|done].
      apply py_eq_str_r in Hn as ->. congruence. }
    unfold last_title_differs. rewrite Hlast, Ht. result_simpl.
    unfold py_ne. rewrite Hnew. cbn [negb].
    eexists _, []. split; [done|].
    rewrite dict_lookup_set_ne, dict_lookup_set_eq, Hhist by done.
    split; [done|]. split; [done|]. split; [by left|].
    split; [done|]. rewrite app_nil_r. intros e' He'.
    rewrite Hlast in He'. injection He' as <-.
    by eapply py_eq_rename_entry.
Qed.
End rename_task.

(** C7, as the code has it.  A rename to a new title of a task whose last
    history entry carries a title goes through; the history it leaves has
    at most ten entries, being the end of the old history followed by the
    appended titles, and its last entry gives the new title.  The rename
    adds no repetition: a history without two consecutive identical
    entries stays without. *)
Theorem rename_history_bounded (text : string) (task : pydict) :
  strip text ≠ "" →
  py_eq (VStr (strip text)) (dict_get_or "task" (VStr "") task) = false →
  last_entry_titled task →
  ∃ task',
    Store.save_title_action text task = Ok (task', true)
    ∧ dict_lookup "task" task' = Some (VStr (strip text))
    ∧ (length (history_of task') ≤ 10)%nat
    ∧ last (history_of task') = Some (rename_entry (VStr (strip text)))
    ∧ (∃ n added, history_of task' = drop n (history_of task ++ added))
    ∧ (no_consecutive_identical (history_of task) →
       no_consecutive_identical (history_of task')).
Proof.
  intros Hnew Hne Htitled.
  destruct (save_title_action_history text task Hnew Hne Htitled)
    as (task' & mid & Hrun & Htask & Hhist & Hmid & Hcur & Hlast).
  exists task'. split; [done|]. split; [done|]. cbv zeta in Hhist.
  set (new_entry := rename_entry (VStr (strip text))) in *.
  set (h := history_of task) in *.
  assert (no_consecutive_identical h →
          no_consecutive_identical (h ++ mid ++ [new_entry])) as Hclean.
  { intros Hh. rewrite app_assoc.
    apply no_consecutive_identical_snoc; [|done].
    destruct Hmid as [->| ->]; [by rewrite app_nil_r|].
    apply no_consecutive_identical_snoc; [done|].
    intros e He. by apply Hcur. }
  assert (last (h ++ mid ++ [new_entry]) = Some new_entry) as Hend
    by by rewrite app_assoc, last_snoc.
  assert (0 < length (h ++ mid ++ [new_entry]))%nat as Hlen
    by (rewrite !length_app; simpl; lia).
  rewrite Hhist. destruct (10 <? _)%nat eqn:Hcut.
  - apply Nat.ltb_lt in Hcut. split; [rewrite length_drop; lia|].
    split; [rewrite last_drop_lt by lia; done|].
    split; [by eexists _, _|].
    intros Hh. by apply no_consecutive_identical_drop, Hclean.
  - apply Nat.ltb_ge in Hcut. split; [done|]. split; [done|].
    split; [by exists 0, (mid ++ [new_entry])|]. done.
Qed.

(** A rename of a task that [add_task] created. *)
Lemma rename_history_bounded_scenario :
  ∃ task',
    Store.save_title_action " b " (plain_task "a") = Ok (task', true)
    ∧ dict_lookup "task" task' = Some (VStr "b")
    ∧ (length (history_of task') ≤ 10)%nat
    ∧ last (history_of task') = Some (rename_entry (VStr "b"))
    ∧ (∃ n added,
         history_of task' = drop n (history_of (plain_task "a") ++ added))
    ∧ (no_consecutive_identical (history_of (plain_task "a")) →
       no_consecutive_identical (history_of task')).
Proof.
  apply (rename_history_bounded " b " (plain_task "a")).
  - discriminate.
  - reflexivity.
  - intros e [= <-]. by eexists.
Defined.

(** C7, as the specification states it, fails, even on loaded tasks:
    [load_tasks] keeps a history as the document has it, and the rename
    compares only with the last entry, so a repetition already in the
    history is still there after it. *)
Lemma rename_keeps_repeated_entries :
  ¬ (∀ (E : env) (file : option value) (text : string)
       (task task' : pydict),
       task ∈ Load.load_tasks E file →
       Store.save_title_action text task = Ok (task', true) →
       no_consecutive_identical (history_of task')).
Proof.
  intros H.
  assert (∃ task task',
            Load.load_tasks sample_env (Some repeated_history_doc) = [task]
            ∧ Store.save_title_action "B" task = Ok (task', true)
            ∧ history_of task' =
              [VDict [("title", VStr "A"); ("timestamp", VStr "t0")];
               VDict [("title", VStr "A"); ("timestamp", VStr "t0")];
               rename_entry (VStr "B")])
    as (task & task' & Hload & Hrun & Hhist).
  { eexists _, _. split; [vm_compute; reflexivity|].
    split; [vm_compute; reflexivity|]. by vm_compute. }
  specialize (H sample_env (Some repeated_history_doc) "B" task task').
  rewrite Hload in H. specialize (H ltac:(apply elem_of_cons; by left) Hrun).
  rewrite Hhist in H. clear -H.
  specialize (H 0%nat (VDict [("title", VStr "A"); ("timestamp", VStr "t0")])
                (VDict [("title", VStr "A"); ("timestamp", VStr "t0")])
                eq_refl eq_refl).
  discriminate H.
Qed.

(** Ten renames in a row: the history is cut to its last ten entries. *)
Example rename_eleven_times :
  let rename text task :=
    match Store.save_title_action text task with
    | Ok (task', _) => task'
    | Raise _ => task
    end in
  let task :=
    foldl (λ task text, rename text task) (plain_task "t0")
      ["t1"; "t2"; "t3"; "t4"; "t5"; "t6"; "t7"; "t8"; "t9"; "t10"; "t11"] in
  (λ e, value_item "title" e) <$> history_of task
  = (λ t, Ok (VStr t))
    <$> ["t2"; "t3"; "t4"; "t5"; "t6"; "t7"; "t8"; "t9"; "t10"; "t11"].
Proof. by vm_compute. Qed.

(** ** Creating an alarm *)

Section create_alarm.
Import Alarm.
Local Open Scope Z_scope.

(** Arming the entry [_save_alarm] has just built never raises, leaves the
    tasks alone, and either keeps the entry or disables it; it keeps it
    enabled and registers its callback when the target is still ahead. *)
Lemma schedule_new_alarm E later task_index alarm_id target path s :
  path_exists E path = true →
  ∃ entry scheduled s',
    schedule_alarm E later task_index (new_alarm_entry alarm_id target path) s
    = Ok (entry, scheduled, s')
    ∧ tasks s' = tasks s
    ∧ (entry = new_alarm_entry alarm_id target path
       ∨ entry = disable (new_alarm_entry alarm_id target path))
    ∧ (later < target → target ≠ 0 → alarm_id ≠ "" → path ≠ "" →
       entry = new_alarm_entry alarm_id target path
       ∧ scheduled_alarms s' !! KStr alarm_id
         = Some {| ev_task := task_index; ev_alarm := VStr alarm_id;
                   ev_delay := target - later |}).
Proof.
  intros Hpath. unfold schedule_alarm.
  set (created := new_alarm_entry alarm_id target path).
  assert (dict_get "target_timestamp_unix" created = VNum target) as -> by done.
  assert (dict_get "id" created = VStr alarm_id) as -> by done.
  assert (dict_get "sound_file" created = VStr path) as -> by done.
  assert (dict_get_or "enabled" (VBool false) created = VBool true) as ->
    by done.
  assert (dict_get "enabled" created = VBool true) as -> by done.
  cbn [truthy os_path_exists num_val key_of].
  destruct (target =? 0) eqn:Ht; cbn [negb andb].
  { apply Z.eqb_eq in Ht. eexists _, _, _. split; [done|]. split; [done|].
    split; [by left|]. intros; congruence. }
  destruct (alarm_id =? "")%string eqn:Hid; cbn [negb andb].
  { apply String.eqb_eq in Hid. eexists _, _, _. split; [done|].
    split; [done|]. split; [by left|]. intros; congruence. }
  destruct (path =? "")%string eqn:Hp; cbn [negb andb].
  { apply String.eqb_eq in Hp. eexists _, _, _. split; [done|].
    split; [done|]. split; [by left|]. intros; congruence. }
  rewrite Hpath. result_simpl. cbn [negb].
  destruct (target - later <=? 0) eqn:Hdelay.
  - apply Z.leb_le in Hdelay. eexists _, _, _.
    split; [done|]. rewrite mark_tasks_changed_tasks.
    split; [done|]. split; [by right|]. lia.
  - eexists _, _, _. split; [done|]. split.
    { by destruct (scheduled_alarms s !! KStr alarm_id). }
    split; [by left|]. intros _ _ _ _. split; [done|].
    cbn [scheduled_alarms with_scheduled]. apply lookup_insert_eq.
Qed.
End create_alarm.

(** C6.  [_save_alarm] reports an error and appends nothing when the target
    is not after the clock, and when the sound file does not exist; every
    report leaves the state as it was.  An alarm is appended only when the
    sound file exists and the target is in the future: the entry is built
    with [enabled] true, put last in the alarms of the task, and armed at
    once, which keeps it enabled when the target is still ahead. *)
Theorem save_alarm_validates (E : env) (P : Alarm.platform) (now later : Z)
    (task_index : Z) (f : Alarm.alarm_form) (s : app) :
  let out := Alarm.save_alarm E P now later task_index f s in
  let sound_file := Alarm.alarm_path P (Alarm.form_sound f) in
  (∀ target, Alarm.form_target P f = Ok target → (target ≤ now)%Z →
     out.2 ≠ Ok () ∧ out.1 = s)
  ∧ (path_exists E sound_file = false → out.2 ≠ Ok () ∧ out.1 = s)
  ∧ (out.2 ≠ Ok () → out.1 = s)
  ∧ (out.2 = Ok () →
     ∃ target task alarms entry,
       Alarm.form_target P f = Ok target
       ∧ (now < target)%Z
       ∧ path_exists E sound_file = true
       ∧ task_at s task_index = Some task
       ∧ dict_lookup "alarms" task = Some (VList alarms)
       ∧ task_at out.1 task_index
         = Some (dict_set "alarms" (VList (alarms ++ [VDict entry])) task)
       ∧ let created :=
           Alarm.new_alarm_entry (new_alarm_id E task_index target) target
             sound_file in
         (entry = created ∨ entry = Alarm.disable created)
         ∧ ((later < target)%Z → target ≠ 0%Z →
            new_alarm_id E task_index target ≠ "" → sound_file ≠ "" →
            entry = created
            ∧ scheduled_alarms out.1 !! KStr (new_alarm_id E task_index target)
              = Some {| ev_task := task_index;
                        ev_alarm := VStr (new_alarm_id E task_index target);
                        ev_delay := target - later |})).
Proof.
  intros out sound_file. subst out. unfold Alarm.save_alarm. fold sound_file.
  destruct (_ =? 0)%nat; [by repeat split; intros; simplify_eq|].
  destruct (Alarm.form_sound f =? "(None)");
    [by repeat split; intros; simplify_eq|].
  destruct (path_exists E sound_file) eqn:Hpath; cbn [negb];
    [|by repeat split; intros; simplify_eq].
  destruct (Alarm.form_target P f) as [target|e];
    [|by repeat split; intros; simplify_eq].
  destruct (target <=? now)%Z eqn:Hnow;
    [by repeat split; intros; simplify_eq|].
  apply Z.leb_gt in Hnow.
  destruct (valid_index s task_index) eqn:Hv; cbn [negb];
    [|repeat split; intros; simplify_eq; done || lia].
  destruct (task_at s task_index) as [task|] eqn:Htask;
    [|repeat split; intros; simplify_eq; done || lia].
  destruct (dict_lookup "alarms" task) as [[| | | |alarms|]|] eqn:Halarms;
    try (repeat split; intros; simplify_eq; done || lia).
  set (s1 := mark_tasks_changed _).
  destruct (schedule_new_alarm E later task_index
              (new_alarm_id E task_index target) target sound_file s1 Hpath)
    as (entry & scheduled & s2 & -> & Htasks & Hentry & Harmed).
  cbn [fst snd]. split; [intros; simplify_eq; lia|].
  split; [done|]. split; [done|]. intros _.
  exists target, task, alarms, entry. repeat (split; [done|]).
  split.
  { unfold task_at, set_task. cbn [tasks with_tasks].
    apply list_lookup_insert_eq. rewrite Htasks. subst s1.
    rewrite mark_tasks_changed_tasks. cbn [tasks set_task with_tasks].
    rewrite length_insert. by apply valid_index_lt. }
  split; [done|]. intros H1 H2 H3 H4.
  destruct (Harmed H1 H2 H3 H4) as [-> Hsched]. split; [done|].
  exact Hsched.
Qed.

(** The three ways [_save_alarm] ends: a target already reached, a sound
    file that is gone, and an alarm set for later. *)
Lemma save_alarm_validates_scenario :
  let past :=
    Alarm.save_alarm sample_env sample_platform 2000 2000 0
      (alarm_at_1000 "bell.wav") one_task in
  let missing :=
    Alarm.save_alarm sample_env sample_platform 500 501 0
      (alarm_at_1000 "gone.wav") one_task in
  (past.2 ≠ Ok () ∧ past.1 = one_task)
  ∧ (missing.2 ≠ Ok () ∧ missing.1 = one_task)
  ∧ (∃ target,
       Alarm.form_target sample_platform (alarm_at_1000 "bell.wav")
       = Ok target
       ∧ (500 < target)%Z
       ∧ path_exists sample_env "alarm/bell.wav" = true).
Proof.
  intros past missing. split; [|split].
  - apply (proj1 (save_alarm_validates sample_env sample_platform 2000 2000 0
                    (alarm_at_1000 "bell.wav") one_task) 1000%Z eq_refl).
    lia.
  - apply (proj1 (proj2 (save_alarm_validates sample_env sample_platform
                           500 501 0 (alarm_at_1000 "gone.wav") one_task))).
    reflexivity.
  - destruct (proj2 (proj2 (proj2
                (save_alarm_validates sample_env sample_platform 500 501 0
                   (alarm_at_1000 "bell.wav") one_task))) eq_refl)
      as (target & _ & _ & _ & Htarget & Hnow & Hpath & _).
    by exists target.
Defined.

Example save_alarm_past :
  (Alarm.save_alarm sample_env sample_platform 1000 1000 0
     (alarm_at_1000 "bell.wav") one_task).2
  = Raise (ValueError "Alarm time must be in the future.").
Proof. by vm_compute. Qed.

Example save_alarm_missing_sound :
  (Alarm.save_alarm sample_env sample_platform 500 501 0
     (alarm_at_1000 "gone.wav") one_task).2
  = Raise (ValueError ("Sound file not found:" +:+ Alarm.newline +:+ "gone.wav")).
Proof. by vm_compute. Qed.

Example save_alarm_future :
  let out := Alarm.save_alarm sample_env sample_platform 500 501 0
               (alarm_at_1000 "bell.wav") one_task in
  out.2 = Ok ()
  ∧ (dict_get "alarms" <$> tasks out.1)
    = [VList [VDict (Alarm.new_alarm_entry "0_1000_abcdef" 1000
                       "alarm/bell.wav")]]
  ∧ scheduled_alarms out.1 !! KStr "0_1000_abcdef"
    = Some {| ev_task := 0; ev_alarm := VStr "0_1000_abcdef";
              ev_delay := 499 |}.
Proof. by vm_compute. Qed.

(** ** Re-arming the alarms at startup *)

Section rearm.
Import Alarm.
Local Open Scope Z_scope.
Context (E : env) (now_ts : Z).
Implicit Types (a : pydict) (s : app) (ev : clock_event).











End rearm.



Example reschedule_armed_doc :
  match Alarm.reschedule_pending_alarms sample_env 1001 (λ _ _, 1002%Z)
          (Save.load sample_env (initial (Some armed_doc))) with
  | Ok s' =>
      (λ task, match dict_get "alarms" task with
               | VList alarms =>
                   (λ alarm, (value_get "id" alarm, value_get "enabled" alarm))
                   <$> alarms
               | _ => []
               end) <$> tasks s'
      = [[(Ok (VStr "0_1000_aaaaaa"), Ok (VBool false));
          (Ok (VStr "0_5000_bbbbbb"), Ok (VBool true))]]
      ∧ scheduled_alarms s' !! KStr "0_1000_aaaaaa" = None
      ∧ scheduled_alarms s' !! KStr "0_5000_bbbbbb"
        = Some {| ev_task := 0; ev_alarm := VStr "0_5000_bbbbbb";
                  ev_delay := 3998 |}
  | Raise _ => False
  end.
Proof. by vm_compute. Qed.


(** ** Deleting a task *)

(** C1.  The loop of [delete_task] reads [event] in every iteration but
    assigns it only under [if alarm_id]: when the first alarm of the task
    has a falsy identifier, the call raises [UnboundLocalError] in the
    loop, which is outside the [try] block, so the task is not removed
    and no callback is cancelled. *)
Theorem delete_task_unbound_event (s : app) (index : Z) (task a : pydict)
    (rest : list value) :
  valid_index s index = true →
  task_at s index = Some task →
  dict_lookup "alarms" task = Some (VList (VDict a :: rest)) →
  truthy (dict_get "id" a) = false →
  Store.delete_task index s = Raise UnboundLocalError.
Proof.
  intros Hv Htask Halarms Hid. unfold Store.delete_task.
  rewrite Hv, Htask. cbn [negb].
  rewrite (dict_get_or_lookup _ _ _ _ Halarms). cbn [Store.iterate].
  result_simpl. cbn [Store.cancel_task_alarms value_get]. result_simpl.
  rewrite Hid. by result_simpl.
Qed.

(** The task of [empty_id_doc] is loaded with its alarm, whose identifier
    is the empty string of the document; deleting it raises. *)
Lemma delete_task_unbound_event_scenario :
  Store.delete_task 0 (Save.load sample_env (initial (Some empty_id_doc)))
  = Raise UnboundLocalError.
Proof.
  assert (∃ task a rest,
            valid_index (Save.load sample_env (initial (Some empty_id_doc))) 0
            = true
            ∧ task_at (Save.load sample_env (initial (Some empty_id_doc))) 0
              = Some task
            ∧ dict_lookup "alarms" task = Some (VList (VDict a :: rest))
            ∧ truthy (dict_get "id" a) = false)
    as (task & a & rest & Hv & Htask & Halarms & Hid).
  { eexists _, _, _.
    repeat (split; [vm_compute; reflexivity|]). vm_compute. reflexivity. }
  exact (delete_task_unbound_event _ 0 task a rest Hv Htask Halarms Hid).
Defined.

(** ** Stopping, resetting and completing *)

Section dict_more.
Implicit Types (k q : string) (v : value) (d : pydict).

Lemma dict_set_same k v d : dict_lookup k d = Some v → dict_set k v d = d.
Proof.
  induction d as [|[k0 v0] d IH]; cbn [dict_lookup dict_set]; [done|].
  destruct (k0 =? k) eqn:Hk.
  - apply String.eqb_eq in Hk as ->. by intros [= ->].
  - intros Hd. by rewrite IH.
Qed.

Lemma mark_tasks_changed_twice s :
  mark_tasks_changed (mark_tasks_changed s) = mark_tasks_changed s.
Proof. unfold mark_tasks_changed. by destruct (tasks_changed s) eqn:Hc; cbn; rewrite ?Hc. Qed.

Lemma mark_tasks_changed_changed s : tasks_changed (mark_tasks_changed s) = true.
Proof. unfold mark_tasks_changed. by destruct (tasks_changed s) eqn:Hc. Qed.

Lemma mark_tasks_changed_cancelled s :
  cancelled (mark_tasks_changed s) = cancelled s.
Proof. unfold mark_tasks_changed. by destruct (tasks_changed s). Qed.
End dict_more.

Section stop_facts.
Import Timer.
Local Open Scope Z_scope.
Implicit Types (s : app) (task : pydict).



End stop_facts.





Section reset_facts.
Import Timer.
Implicit Types (s : app) (task : pydict).

Lemma with_tasks_same s : with_tasks (tasks s) s = s.
Proof. by destruct s. Qed.

Lemma set_task_same s index task :
  task_at s index = Some task → set_task index task s = s.
Proof.
  unfold task_at, set_task. intros Ht.
  rewrite list_insert_id by done. apply with_tasks_same.
Qed.

Lemma reset_timer_twice index s :
  reset_timer index (reset_timer index s) = reset_timer index s.
Proof.
  unfold reset_timer at 2.
  destruct (valid_index s index) eqn:Hv; cbn [negb].
  2:{ unfold reset_timer. by rewrite Hv. }
  destruct (task_at s index) as [task|] eqn:Ht.
  2:{ unfold reset_timer. by rewrite Hv, Ht. }
  destruct (truthy (dict_get_or "completed" (VBool false) task)) eqn:Hdone.
  { unfold reset_timer. by rewrite Hv, Ht, Hdone. }
  set (cleared := dict_set "start_time_unix" VNone
                    (dict_set "timer_running" (VBool false)
                       (dict_set "timer" (VNum 0) task))).
  set (s1 := mark_tasks_changed (set_task index cleared s)).
  assert (task_at s1 index = Some cleared) as Ht1
    by by apply task_at_mark_set.
  unfold reset_timer. subst s1.
  rewrite valid_index_mark_set, Hv, Ht1. cbn [negb].
  assert (truthy (dict_get_or "completed" (VBool false) cleared) = false)
    as -> by (subst cleared; by dict_simpl).
  assert (dict_set "timer" (VNum 0) cleared = cleared) as ->
    by (apply dict_set_same; subst cleared; by dict_simpl).
  assert (dict_set "timer_running" (VBool false) cleared = cleared) as ->
    by (apply dict_set_same; subst cleared; by dict_simpl).
  assert (dict_set "start_time_unix" VNone cleared = cleared) as ->
    by (apply dict_set_same; subst cleared; by dict_simpl).
  rewrite set_task_same by done. rewrite Ht, Hdone.
  apply mark_tasks_changed_twice.
Qed.
End reset_facts.

(** X3.  [reset_timer] on a task that is not completed leaves it stopped
    with no time counted and no start time, whether or not it was running,
    and touches no other field; on a completed task it changes nothing;
    and a second reset in a row changes nothing. *)
Theorem reset_timer_clears (index : Z) (s : app) :
  (∀ task,
     valid_index s index = true →
     task_at s index = Some task →
     truthy (dict_get_or "completed" (VBool false) task) = false →
     ∃ task',
       task_at (Timer.reset_timer index s) index = Some task'
       ∧ dict_get "timer" task' = VNum 0
       ∧ dict_get "timer_running" task' = VBool false
       ∧ dict_get "start_time_unix" task' = VNone
       ∧ (∀ k, k ≠ "timer" → k ≠ "timer_running" → k ≠ "start_time_unix" →
               dict_lookup k task' = dict_lookup k task)
       ∧ tasks_changed (Timer.reset_timer index s) = true)
  ∧ (∀ task,
       task_at s index = Some task →
       truthy (dict_get_or "completed" (VBool false) task) = true →
       Timer.reset_timer index s = s)
  ∧ Timer.reset_timer index (Timer.reset_timer index s)
    = Timer.reset_timer index s.
Proof.
  split; [|split].
  - intros task Hv Ht Hdone. unfold Timer.reset_timer.
    rewrite Hv, Ht, Hdone. cbn [negb]. eexists.
    split; [by apply task_at_mark_set|].
    split; [by dict_simpl|]. split; [by dict_simpl|].
    split; [by dict_simpl|]. split.
    + intros k H1 H2 H3. by rewrite !dict_lookup_set_ne.
    + apply mark_tasks_changed_changed.
  - intros task Ht Hdone. unfold Timer.reset_timer.
    destruct (valid_index s index); [|done]. by rewrite Ht, Hdone.
  - apply reset_timer_twice.
Qed.

(** The running task of the restart scenario, reset. *)
Lemma reset_timer_clears_scenario :
  ∃ task',
    task_at (Timer.reset_timer 0 running_store) 0 = Some task'
    ∧ dict_get "timer" task' = VNum 0
    ∧ dict_get "timer_running" task' = VBool false
    ∧ dict_get "start_time_unix" task' = VNone.
Proof.
  destruct (proj1 (reset_timer_clears 0 running_store) running_task
              eq_refl eq_refl eq_refl)
    as (task' & Hat & Htimer & Hrun & Hstart & _).
  by exists task'.
Defined.

(** ** The two timer fields agree *)

Section timer_state.
Import Timer.
Local Open Scope Z_scope.
Implicit Types (s : app) (task : pydict).

Lemma timer_state_ok_ext task task' :
  dict_lookup "timer_running" task' = dict_lookup "timer_running" task →
  dict_lookup "start_time_unix" task' = dict_lookup "start_time_unix" task →
  timer_state_ok task → timer_state_ok task'.
Proof. unfold timer_state_ok, dict_get. by intros -> ->. Qed.

Lemma timer_state_ok_stopped final task : timer_state_ok (stopped final task).
Proof. unfold timer_state_ok, stopped. by dict_simpl. Qed.

Lemma timer_state_ok_set_task s index task :
  Forall timer_state_ok (tasks s) → timer_state_ok task →
  Forall timer_state_ok (tasks (mark_tasks_changed (set_task index task s))).
Proof.
  intros Hs Ht. rewrite mark_tasks_changed_tasks.
  cbn [tasks set_task with_tasks]. by apply Forall_insert.
Qed.

Lemma start_timer_state_ok now index s :
  Forall timer_state_ok (tasks s) →
  Forall timer_state_ok (tasks (start_timer now index s)).
Proof.
  intros Hs. unfold start_timer.
  destruct (valid_index s index); [|done]. cbn [negb].
  destruct (task_at s index) as [task|]; [|done].
  destruct (_ || _); [done|].
  apply timer_state_ok_set_task; [done|].
  unfold timer_state_ok. by dict_simpl.
Qed.

Lemma stop_timer_state_ok now index s :
  Forall timer_state_ok (tasks s) →
  Forall timer_state_ok (tasks (stop_timer now index s)).
Proof.
  intros Hs. unfold stop_timer.
  destruct (valid_index s index); [|done]. cbn [negb].
  destruct (task_at s index) as [task|]; [|done].
  destruct (truthy (dict_get "timer_running" task)); [|done]. cbn [negb].
  unfold stop_timer_body.
  destruct (num_val (dict_get "start_time_unix" task)) as [T|];
    result_simpl; [|done].
  destruct (now - T >? 0).
  - destruct (num_val (dict_get_or "timer" (VNum 0) task)) as [S|];
      result_simpl; [|done].
    cbn [try_except]. apply timer_state_ok_set_task; [done|].
    apply (timer_state_ok_stopped (VNum (S + (now - T)))).
  - result_simpl. cbn [try_except]. apply timer_state_ok_set_task; [done|].
    apply (timer_state_ok_stopped (dict_get_or "timer" (VNum 0) task)).
Qed.

Lemma reset_timer_state_ok index s :
  Forall timer_state_ok (tasks s) →
  Forall timer_state_ok (tasks (reset_timer index s)).
Proof.
  intros Hs. unfold reset_timer.
  destruct (valid_index s index); [|done]. cbn [negb].
  destruct (task_at s index) as [task|]; [|done].
  destruct (truthy _); [done|].
  apply timer_state_ok_set_task; [done|].
  apply (timer_state_ok_stopped (VNum 0)).
Qed.

Lemma mark_as_completed_state_ok now s :
  Forall timer_state_ok (tasks s) →
  Forall timer_state_ok (tasks (Complete.mark_as_completed_gui now s)).
Proof.
  intros Hs. unfold Complete.mark_as_completed_gui.
  destruct (selected_index s) as [task_index|]; [|done].
  destruct (valid_index s task_index); [|done]. cbn [negb].
  destruct (task_at s task_index) as [task|] eqn:Ht; [|done].
  set (b := negb (truthy (dict_get_or "completed" (VBool false) task))).
  assert (Forall timer_state_ok
            (tasks (mark_tasks_changed
                      (set_task task_index
                         (dict_set "completed" (VBool b) task) s)))) as Hs1.
  { apply timer_state_ok_set_task; [done|].
    apply (timer_state_ok_ext task); [by apply dict_lookup_set_ne..|].
    rewrite Forall_lookup in Hs. by eapply Hs. }
  destruct b; [|done].
  destruct (truthy _); [|done]. by apply stop_timer_state_ok.
Qed.

Lemma resume_task_state_ok now task task' saved :
  resume_task now task = Ok (task', saved) →
  timer_state_ok task → timer_state_ok task'.
Proof.
  unfold resume_task.
  destruct (truthy (dict_get "timer_running" task)) eqn:Hrun.
  - destruct (num_val (dict_get "start_time_unix" task)) as [start|].
    + assert (∀ t, timer_state_ok (dict_set "start_time_unix" (VNum now) t)
                   ↔ truthy (dict_get "timer_running" t) = true
                     ∨ False) as Hset.
      { intros t. unfold timer_state_ok. dict_simpl.
        destruct (truthy (dict_get "timer_running" t)); cbn [is_number];
          intuition discriminate. }
      destruct (now - start >? 0).
      * destruct (num_val _); intros [= <- <-] _; apply Hset; left;
          by dict_simpl.
      * intros [= <- <-] _. apply Hset. by left.
    + intros [= <- <-] _. unfold timer_state_ok. by dict_simpl.
  - by intros [= <- <-].
Qed.

Lemma resume_tasks_state_ok now ts ts' b :
  resume_tasks now ts = Ok (ts', b) →
  Forall timer_state_ok ts → Forall timer_state_ok ts'.
Proof.
  revert ts' b. induction ts as [|t ts IH]; intros ts' b.
  - by intros [= <- <-].
  - cbn [resume_tasks].
    destruct (resume_task now t) as [[t' saved]|] eqn:Ht; result_simpl;
      [|done].
    destruct (resume_tasks now ts) as [[rest needs]|] eqn:Hr; result_simpl;
      [|done].
    intros [= <- <-] [Hok Hrest]%Forall_cons_1. constructor.
    + by eapply resume_task_state_ok.
    + by eapply IH.
Qed.
End timer_state.

(** X4.  The timer operations keep the two timer fields of every task in
    agreement: when every task that is running holds a numeric start time
    and every task that is not holds none, the same is true after
    [start_timer], [stop_timer], [reset_timer], [mark_as_completed_gui] and
    [check_and_resume_timers], whatever the index and the clock. *)
Theorem timer_operations_keep_state (now index : Z) (s : app) :
  Forall timer_state_ok (tasks s) →
  Forall timer_state_ok (tasks (Timer.start_timer now index s))
  ∧ Forall timer_state_ok (tasks (Timer.stop_timer now index s))
  ∧ Forall timer_state_ok (tasks (Timer.reset_timer index s))
  ∧ Forall timer_state_ok (tasks (Complete.mark_as_completed_gui now s))
  ∧ (∀ s', Timer.check_and_resume_timers now s = Ok s' →
           Forall timer_state_ok (tasks s')).
Proof.
  intros Hs.
  split; [by apply start_timer_state_ok|].
  split; [by apply stop_timer_state_ok|].
  split; [by apply reset_timer_state_ok|].
  split; [by apply mark_as_completed_state_ok|].
  intros s' [b Hb]%check_and_resume_timers_tasks.
  by eapply resume_tasks_state_ok.
Qed.

Lemma timer_operations_keep_state_scenario :
  Forall timer_state_ok (tasks (Timer.start_timer 60 0 one_task))
  ∧ Forall timer_state_ok (tasks (Timer.stop_timer 60 0 one_task))
  ∧ Forall timer_state_ok (tasks (Timer.reset_timer 0 one_task))
  ∧ Forall timer_state_ok (tasks (Complete.mark_as_completed_gui 60 one_task))
  ∧ (∀ s', Timer.check_and_resume_timers 60 one_task = Ok s' →
           Forall timer_state_ok (tasks s')).
Proof.
  apply (timer_operations_keep_state 60 0 one_task).
  constructor; [reflexivity|constructor].
Defined.

(** ** What the timer label shows *)

Section label_facts.
Import Timer Display.
Local Open Scope Z_scope.


End label_facts.



Example timer_label_running :
  Display.timer_label_text 1100 0 running_store = Ok "Timer: 00:01:50"
  ∧ Display.format_timedelta (VNum 3725) = Ok "01:02:05"
  ∧ Display.format_timedelta (VNum 360000) = Ok "100:00:00"
  ∧ Display.format_timedelta (VNum (-5)) = Ok "00:00:00"
  ∧ Display.format_timedelta VNone = Raise TypeError.
Proof. by vm_compute. Qed.

(** ** The format of a duration *)

Section format_facts.
Import Display.
Local Open Scope Z_scope.

Lemma string_length_app (s t : string) :
  String.length (s +:+ t) = (String.length s + String.length t)%nat.
Proof. induction s as [|c s IH]; simpl; [done|]. by f_equal. Qed.

Lemma string_app_inj_length (s1 s2 t1 t2 : string) :
  String.length s1 = String.length s2 →
  s1 +:+ t1 = s2 +:+ t2 → s1 = s2 ∧ t1 = t2.
Proof.
  revert s2. induction s1 as [|c s1 IH]; intros [|c2 s2]; cbn; try done.
  intros [= Hlen] [= -> Happ]. destruct (IH s2 Hlen Happ) as [-> ->]. done.
Qed.

(** The decimal notation of a positive number starts with a digit that is
    not 0. *)
Lemma pretty_N_go_head (x : N) (s : string) :
  (0 < x)%N →
  ∃ c t, pretty_N_go x s = String c t ∧ c ≠ "0"%char.
Proof.
  revert s. induction (N.lt_wf_0 x) as [x _ IH]. intros s Hx.
  rewrite pretty_N_go_step by done.
  destruct (decide (x < 10)%N) as [Hsmall|Hbig].
  - rewrite N.div_small, pretty_N_go_0, N.mod_small by done.
    eexists _, _. split; [done|].
    assert (x = 1 ∨ x = 2 ∨ x = 3 ∨ x = 4 ∨ x = 5 ∨ x = 6
            ∨ x = 7 ∨ x = 8 ∨ x = 9)%N as Hcases by lia.
    by repeat (destruct Hcases as [->|Hcases]; [done|]); subst.
  - apply IH.
    + apply N.div_lt; lia.
    + apply N.div_str_pos. lia.
Qed.

Lemma pretty_Z_head (n : Z) :
  0 < n → ∃ c t, pretty n = String c t ∧ c ≠ "0"%char.
Proof.
  destruct n as [|p|p]; try lia. intros _.
  unfold pretty, pretty_Z, pretty, pretty_positive, pretty, pretty_N.
  rewrite decide_False by done. by apply pretty_N_go_head.
Qed.

Lemma pad2_inj (a b : Z) : 0 ≤ a → 0 ≤ b → pad2 a = pad2 b → a = b.
Proof.
  intros Ha Hb. unfold pad2.
  destruct (Z.ltb_spec a 10), (Z.ltb_spec b 10).
  - intros [= Heq]. by apply (inj pretty).
  - destruct (pretty_Z_head b) as (c & t & -> & Hc); [lia|].
    intros [= <- _]. done.
  - destruct (pretty_Z_head a) as (c & t & -> & Hc); [lia|].
    intros [= -> _]. done.
  - apply (inj pretty).
Qed.

(** Minutes and seconds take two characters. *)
Lemma pad2_length (m : Z) : 0 ≤ m < 60 → String.length (pad2 m) = 2%nat.
Proof.
  intros Hm.
  assert (forallb (λ n, String.length (pad2 (Z.of_nat n)) =? 2)%nat
            (seq 0 60) = true) as Hall by (vm_compute; reflexivity).
  rewrite forallb_forall in Hall.
  specialize (Hall (Z.to_nat m)). rewrite Z2Nat.id in Hall by lia.
  apply Nat.eqb_eq, Hall, in_seq. lia.
Qed.

Lemma format_timedelta_clamped (n : Z) :
  format_timedelta (VNum n) = format_timedelta (VNum (Z.max 0 n)).
Proof.
  unfold format_timedelta. cbn [num_val].
  destruct (Z.ltb_spec n 0), (Z.ltb_spec (Z.max 0 n) 0); try lia.
  - by replace (Z.max 0 n) with 0 by lia.
  - by replace (Z.max 0 n) with n by lia.
Qed.

Lemma format_timedelta_inj_nonneg (a b : Z) :
  0 ≤ a → 0 ≤ b →
  format_timedelta (VNum a) = format_timedelta (VNum b) → a = b.
Proof.
  intros Ha Hb. unfold format_timedelta. cbn [num_val].
  destruct (Z.ltb_spec a 0), (Z.ltb_spec b 0); try lia.
  cbv zeta. intros [= Heq].
  pose proof (Z.mod_pos_bound a 3600 ltac:(lia)) as Hra.
  pose proof (Z.mod_pos_bound b 3600 ltac:(lia)) as Hrb.
  assert (0 ≤ a mod 3600 / 60 < 60) as Hma
    by (split; [apply Z.div_pos; lia|apply Z.div_lt_upper_bound; lia]).
  assert (0 ≤ b mod 3600 / 60 < 60) as Hmb
    by (split; [apply Z.div_pos; lia|apply Z.div_lt_upper_bound; lia]).
  pose proof (Z.mod_pos_bound (a mod 3600) 60 ltac:(lia)) as Hsa.
  pose proof (Z.mod_pos_bound (b mod 3600) 60 ltac:(lia)) as Hsb.
  assert (String.length (pad2 (a / 3600)) = String.length (pad2 (b / 3600)))
    as Hlen.
  { apply (f_equal String.length) in Heq.
    rewrite !string_length_app in Heq.
    rewrite (pad2_length _ Hma), (pad2_length _ Hmb), (pad2_length _ Hsa),
      (pad2_length _ Hsb) in Heq.
    lia. }
  destruct (string_app_inj_length _ _ _ _ Hlen Heq) as [Hh Hrest].
  injection Hrest as Hrest.
  assert (String.length (pad2 (a mod 3600 / 60))
          = String.length (pad2 (b mod 3600 / 60))) as Hlen'
    by by rewrite (pad2_length _ Hma), (pad2_length _ Hmb).
  destruct (string_app_inj_length _ _ _ _ Hlen' Hrest) as [Hm Hs].
  injection Hs as Hs.
  apply pad2_inj in Hh; [|apply Z.div_pos; lia..].
  apply pad2_inj in Hm; [|lia..].
  apply pad2_inj in Hs; [|lia..].
  rewrite (Z.div_mod a 3600), (Z.div_mod b 3600) by lia.
  rewrite (Z.div_mod (a mod 3600) 60), (Z.div_mod (b mod 3600) 60) by lia.
  by rewrite Hh, Hm, Hs.
Qed.
End format_facts.

(** X6.  [format_timedelta] shows a negative duration as zero and loses
    nothing else: two durations are written the same way exactly when they
    are the same number of seconds once negative ones are taken as 0. *)
Theorem format_timedelta_injective (a b : Z) :
  Display.format_timedelta (VNum a) = Display.format_timedelta (VNum b)
  ↔ Z.max 0 a = Z.max 0 b.
Proof.
  rewrite (format_timedelta_clamped a), (format_timedelta_clamped b). split.
  - apply format_timedelta_inj_nonneg; lia.
  - by intros ->.
Qed.

(** ** Completing a task whose timer is running *)



(** ** Moving a task up or down *)

Section move_facts.
Import Store.
Context {A : Type}.
Implicit Types (l : list A) (f p j : nat) (x : A).

Lemma list_pop_insert_at l p x :
  (p ≤ length l)%nat → list_pop p (list_insert_at p x l) = l.
Proof.
  intros Hp. unfold list_pop, list_insert_at.
  rewrite take_app_length' by (rewrite length_take; lia).
  rewrite drop_app_ge by (rewrite length_take; lia).
  rewrite length_take.
  replace (S p - p `min` length l)%nat with 1%nat by lia. simpl.
  rewrite drop_0. apply take_drop.
Qed.

Lemma list_insert_at_pop l f x :
  l !! f = Some x → list_insert_at f x (list_pop f l) = l.
Proof.
  intros Hf. pose proof (lookup_lt_Some _ _ _ Hf) as Hlt.
  unfold list_pop, list_insert_at.
  rewrite take_app_length' by (rewrite length_take; lia).
  rewrite (drop_app_length' _ _ f) by (rewrite length_take; lia).
  by apply take_drop_middle.
Qed.
End move_facts.

Section move_task_facts.
Import Store Tasks.
Local Open Scope Z_scope.

(** What a [move_task] that goes through leaves. *)
Lemma move_task_moved index direction s task title :
  valid_index s index = true →
  valid_index s (index + direction) = true →
  task_at s index = Some task →
  dict_lookup "task" task = Some title →
  move_task index direction s
  = with_selected (Some (index + direction))
      (mark_tasks_changed
         (with_tasks
            (list_insert_at (Z.to_nat (index + direction)) task
               (list_pop (Z.to_nat index) (tasks s))) s)).
Proof.
  intros Hv Hn Ht Htitle. unfold move_task, dict_item.
  by rewrite Hv, Hn, Ht, Htitle.
Qed.
End move_task_facts.

(** X8.  [move_task] leaves the store alone when the target index is out
    of range.  Otherwise the task is found at [index + direction] and is
    selected, the list holds the same tasks and the store is marked
    changed; for a move by one position the neighbour takes the place of
    the task and every other task stays where it was. *)
Theorem move_task_swaps (index direction : Z) (s : app) :
  (valid_index s (index + direction) = false →
   Tasks.move_task index direction s = s)
  ∧ (∀ task title,
       valid_index s index = true →
       valid_index s (index + direction) = true →
       task_at s index = Some task →
       dict_lookup "task" task = Some title →
       task_at (Tasks.move_task index direction s) (index + direction)
       = Some task
       ∧ selected_index (Tasks.move_task index direction s)
         = Some (index + direction)%Z
       ∧ tasks (Tasks.move_task index direction s) ≡ₚ tasks s
       ∧ tasks_changed (Tasks.move_task index direction s) = true
       ∧ (direction = 1%Z ∨ direction = (-1)%Z →
          task_at (Tasks.move_task index direction s) index
          = task_at s (index + direction)
          ∧ ∀ j, j ≠ Z.to_nat index → j ≠ Z.to_nat (index + direction) →
                 tasks (Tasks.move_task index direction s) !! j
                 = tasks s !! j)).
Proof.
  split.
  - intros Hn. unfold Tasks.move_task.
    destruct (valid_index s index); [|done]. by rewrite Hn.
  - intros task title Hv Hn Ht Htitle.
    rewrite (move_task_moved _ _ _ _ _ Hv Hn Ht Htitle).
    unfold task_at in *. cbn [tasks selected_index tasks_changed with_selected].
    rewrite mark_tasks_changed_tasks, mark_tasks_changed_changed.
    cbn [tasks with_tasks].
    pose proof (valid_index_lt _ _ Hv) as Hlt.
    pose proof (valid_index_lt _ _ Hn) as Hnlt.
    assert (0 ≤ index ∧ 0 ≤ index + direction)%Z as [H0 H1]
      by (unfold valid_index in Hv, Hn; lia).
    split.
    { rewrite list_insert_at_lookup by (rewrite list_pop_length; lia).
      rewrite decide_False by lia. by rewrite decide_True. }
    split; [done|].
    split; [by apply list_pop_insert_permutation|].
    split; [done|].
    intros Hdir. split.
    + rewrite list_insert_at_lookup by (rewrite list_pop_length; lia).
      rewrite list_pop_lookup by done.
      destruct Hdir as [-> | ->]; repeat case_decide; try lia.
      * f_equal. lia.
      * rewrite list_pop_lookup by done. rewrite decide_True by lia.
        f_equal. lia.
    + intros j Hj Hj'.
      rewrite list_insert_at_lookup by (rewrite list_pop_length; lia).
      rewrite !list_pop_lookup by done.
      destruct Hdir as [-> | ->]; repeat case_decide; try lia; try done.
      * f_equal. lia.
      * f_equal. lia.
Qed.

(** The second of five tasks is moved down. *)
Lemma move_task_swaps_scenario :
  task_at (Tasks.move_task 1 1 five_tasks) 2 = Some (plain_task "b")
  ∧ selected_index (Tasks.move_task 1 1 five_tasks) = Some 2%Z
  ∧ task_at (Tasks.move_task 1 1 five_tasks) 1 = Some (plain_task "c").
Proof.
  destruct (proj2 (move_task_swaps 1 1 five_tasks) (plain_task "b") (VStr "b")
              eq_refl eq_refl eq_refl eq_refl)
    as (Hat & Hsel & _ & _ & Hswap).
  destruct (Hswap (or_introl eq_refl)) as [Hneighbour _].
  split; [exact Hat|]. split; [exact Hsel|]. exact Hneighbour.
Defined.

(** X9.  Moving a task and moving it back by the same distance restores
    the order of the list, with the task selected at its old index. *)
Theorem move_task_back (index direction : Z) (s : app) (task : pydict)
    (title : value) :
  valid_index s index = true →
  valid_index s (index + direction) = true →
  task_at s index = Some task →
  dict_lookup "task" task = Some title →
  tasks (Tasks.move_task (index + direction) (- direction)
           (Tasks.move_task index direction s)) = tasks s
  ∧ selected_index (Tasks.move_task (index + direction) (- direction)
                      (Tasks.move_task index direction s)) = Some index.
Proof.
  intros Hv Hn Ht Htitle.
  rewrite (move_task_moved _ _ _ _ _ Hv Hn Ht Htitle).
  pose proof (valid_index_lt _ _ Hv) as Hlt.
  pose proof (valid_index_lt _ _ Hn) as Hnlt.
  set (moved := Store.list_insert_at (Z.to_nat (index + direction)) task
                  (Store.list_pop (Z.to_nat index) (tasks s))).
  set (s1 := with_selected _ _).
  assert (tasks s1 = moved) as Htasks
    by (subst s1; cbn [tasks with_selected];
        by rewrite mark_tasks_changed_tasks).
  assert (length moved = length (tasks s)) as Hlen.
  { subst moved. rewrite list_insert_at_length, list_pop_length by done. lia. }
  assert (moved !! Z.to_nat (index + direction) = Some task) as Hmoved.
  { subst moved.
    rewrite list_insert_at_lookup by (rewrite list_pop_length; lia).
    rewrite decide_False by lia. by rewrite decide_True. }
  assert (index + direction + - direction = index)%Z as Hback by lia.
  rewrite (move_task_moved (index + direction) (- direction) s1 task title).
  - rewrite Hback, Htasks. cbn [tasks selected_index with_selected].
    rewrite mark_tasks_changed_tasks. cbn [tasks with_tasks].
    split; [|done]. subst moved.
    rewrite list_pop_insert_at by (rewrite list_pop_length; lia).
    by apply list_insert_at_pop.
  - unfold valid_index in *. rewrite Htasks, Hlen. done.
  - rewrite Hback. unfold valid_index in *. rewrite Htasks, Hlen. done.
  - unfold task_at. by rewrite Htasks.
  - done.
Qed.

Lemma move_task_back_scenario :
  tasks (Tasks.move_task 2 (-1) (Tasks.move_task 1 1 five_tasks))
  = tasks five_tasks
  ∧ selected_index (Tasks.move_task 2 (-1) (Tasks.move_task 1 1 five_tasks))
    = Some 1%Z.
Proof.
  exact (move_task_back 1 1 five_tasks (plain_task "b") (VStr "b")
           eq_refl eq_refl eq_refl eq_refl).
Defined.

(** ** Deleting and firing an alarm *)

Section ring_facts.
Import Ring.
Implicit Types (s : app) (alarms kept : list value) (alarm_id : value).

Lemma without_id_filter alarm_id alarms :
  forallb is_dict alarms = true →
  without_id alarm_id alarms = Ok (List.filter (other_id alarm_id) alarms).
Proof.
  induction alarms as [|alarm alarms IH]; [done|].
  cbn [forallb]. intros [Hd Hrest]%andb_prop.
  destruct alarm as [| | | | |a]; try done.
  cbn [without_id List.filter other_id]. rewrite IH by done. done.
Qed.

Lemma find_alarm_filter alarm_id alarms :
  find_alarm alarm_id (List.filter (other_id alarm_id) alarms) = Ok None.
Proof.
  induction alarms as [|alarm alarms IH]; [done|].
  cbn [List.filter]. destruct (other_id alarm_id alarm) eqn:Hother; [|done].
  destruct alarm as [| | | | |a]; try done.
  cbn [find_alarm]. unfold other_id, py_ne in Hother.
  apply negb_true_iff in Hother. rewrite Hother, IH. done.
Qed.

Lemma filter_length_le {A} (f : A → bool) (l : list A) :
  (length (List.filter f l) ≤ length l)%nat.
Proof.
  induction l as [|x l IH]; [done|]. cbn [List.filter].
  destruct (f x); cbn [length]; lia.
Qed.

Lemma filter_length_all {A} (f : A → bool) (l : list A) :
  length (List.filter f l) = length l → List.filter f l = l.
Proof.
  induction l as [|x l IH]; [done|]. cbn [List.filter].
  pose proof (filter_length_le f l).
  destruct (f x); cbn [length]; [|lia].
  intros [= Hlen]. by rewrite IH.
Qed.

Lemma filter_length_lt {A} (f : A → bool) (l : list A) :
  (length (List.filter f l) < length l)%nat ↔ ∃ x, x ∈ l ∧ f x = false.
Proof.
  induction l as [|x l IH]; cbn [List.filter length].
  - split; [lia|]. intros (x & Hx & _). by apply elem_of_nil in Hx.
  - pose proof (filter_length_le f l).
    destruct (f x) eqn:Hx; cbn [length].
    + rewrite <- Nat.succ_lt_mono, IH. split.
      * intros (y & Hy & Hf). exists y. split; [|done].
        apply elem_of_cons. by right.
      * intros (y & [->|Hy]%elem_of_cons & Hf); [congruence|eauto].
    + split; [|lia]. intros _. exists x. split; [|done].
      apply elem_of_cons. by left.
Qed.

Lemma filter_filter_same {A} (f : A → bool) (l : list A) :
  List.filter f (List.filter f l) = List.filter f l.
Proof.
  induction l as [|x l IH]; [done|]. cbn [List.filter].
  destruct (f x) eqn:Hx; [|done]. cbn [List.filter]. by rewrite Hx, IH.
Qed.

Lemma forallb_is_dict_filter (f : value → bool) alarms :
  forallb is_dict alarms = true →
  forallb is_dict (List.filter f alarms) = true.
Proof.
  induction alarms as [|alarm alarms IH]; [done|].
  cbn [forallb List.filter]. intros [Hd Hrest]%andb_prop.
  destruct (f alarm); cbn [forallb]; [rewrite Hd|]; by apply IH.
Qed.

(** What [_delete_alarm] does on a task whose alarms are a list of
    dictionaries. *)
Lemma delete_alarm_run task_index alarm_id s task alarms k :
  valid_index s task_index = true →
  task_at s task_index = Some task →
  dict_lookup "alarms" task = Some (VList alarms) →
  forallb is_dict alarms = true →
  key_of alarm_id = Ok k →
  let kept := List.filter (other_id alarm_id) alarms in
  let s1 := set_task task_index (dict_set "alarms" (VList kept) task) s in
  delete_alarm task_index alarm_id s
  = if (length kept <? length alarms)%nat then
      Ok (mark_tasks_changed
            match scheduled_alarms s !! k with
            | Some event =>
                with_cancelled (event :: cancelled s1)
                  (with_scheduled (delete k (scheduled_alarms s1)) s1)
            | None => s1
            end, true)
    else Ok (s, false).
Proof.
  intros Hv Ht Halarms Hdicts Hk kept s1. unfold delete_alarm.
  rewrite Hv, Ht. cbn [negb].
  rewrite (dict_get_or_lookup _ _ _ _ Halarms). cbn [Store.iterate].
  result_simpl. rewrite without_id_filter by done. result_simpl.
  fold kept. fold s1.
  destruct (length kept <? length alarms)%nat eqn:Hlen.
  - rewrite Hk. result_simpl. done.
  - apply Nat.ltb_ge in Hlen. subst s1 kept.
    pose proof (filter_length_le (other_id alarm_id) alarms).
    rewrite filter_length_all by lia.
    rewrite (dict_set_same _ _ _ Halarms). by rewrite set_task_same.
Qed.
End ring_facts.

(** X10.  [_delete_alarm] on a task whose alarms are a list of
    dictionaries keeps, in order, the entries whose identifier differs
    from [alarm_id].  It returns [True] exactly when an entry had that
    identifier; the identifier is then out of [scheduled_alarms], the
    callback found there is cancelled and the store is marked changed, no
    other callback being touched.  When no entry goes the state is as it
    was, and deleting the same alarm once more removes nothing. *)
Theorem delete_alarm_removes (task_index : Z) (alarm_id : value) (s : app)
    (task : pydict) (alarms : list value) (k : key) :
  valid_index s task_index = true →
  task_at s task_index = Some task →
  dict_lookup "alarms" task = Some (VList alarms) →
  forallb is_dict alarms = true →
  key_of alarm_id = Ok k →
  ∃ s' deleted,
    Ring.delete_alarm task_index alarm_id s = Ok (s', deleted)
    ∧ task_at s' task_index
      = Some (dict_set "alarms"
                (VList (List.filter (other_id alarm_id) alarms)) task)
    ∧ (deleted = true
       ↔ ∃ a, VDict a ∈ alarms ∧ py_eq (dict_get "id" a) alarm_id = true)
    ∧ (deleted = true →
       scheduled_alarms s' !! k = None
       ∧ (∀ ev, scheduled_alarms s !! k = Some ev → ev ∈ cancelled s')
       ∧ tasks_changed s' = true)
    ∧ (deleted = false → s' = s)
    ∧ (∀ k', k' ≠ k → scheduled_alarms s' !! k' = scheduled_alarms s !! k')
    ∧ Ring.delete_alarm task_index alarm_id s' = Ok (s', false).
Proof.
  intros Hv Ht Halarms Hdicts Hk.
  pose proof (delete_alarm_run task_index alarm_id s task alarms k
                Hv Ht Halarms Hdicts Hk) as Hrun.
  cbv zeta in Hrun.
  set (kept := List.filter (other_id alarm_id) alarms) in *.
  set (task' := dict_set "alarms" (VList kept) task) in *.
  set (s1 := set_task task_index task' s) in *.
  assert (length kept < length alarms
          ↔ ∃ a, VDict a ∈ alarms ∧ py_eq (dict_get "id" a) alarm_id = true)%nat
    as Hfound.
  { subst kept. rewrite filter_length_lt. split.
    - intros (x & Hx & Hother).
      assert (is_dict x = true) as Hd.
      { rewrite forallb_forall in Hdicts. by apply Hdicts, list_elem_of_In. }
      destruct x as [| | | | |a]; try done.
      exists a. split; [done|]. unfold other_id, py_ne in Hother.
      by apply negb_false_iff in Hother.
    - intros (a & Ha & Heq). exists (VDict a). split; [done|].
      unfold other_id, py_ne. by rewrite Heq. }
  destruct (length kept <? length alarms)%nat eqn:Hlen.
  - (* an entry goes *)
    apply Nat.ltb_lt in Hlen.
    set (s2 := match scheduled_alarms s !! k with
               | Some event =>
                   with_cancelled (event :: cancelled s1)
                     (with_scheduled (delete k (scheduled_alarms s1)) s1)
               | None => s1
               end) in *.
    assert (tasks s2 = tasks s1) as Htasks
      by (subst s2; by destruct (scheduled_alarms s !! k)).
    assert (scheduled_alarms s2 = delete k (scheduled_alarms s)) as Hsched.
    { subst s2. destruct (scheduled_alarms s !! k) eqn:Hev; [done|].
      cbn [scheduled_alarms s1 set_task with_tasks].
      symmetry. by apply delete_id. }
    assert (task_at (mark_tasks_changed s2) task_index = Some task') as Ht2.
    { unfold task_at. rewrite mark_tasks_changed_tasks, Htasks.
      subst s1. cbn [tasks set_task with_tasks].
      apply list_lookup_insert_eq. by apply valid_index_lt. }
    assert (valid_index (mark_tasks_changed s2) task_index = true) as Hv2.
    { unfold valid_index in *. rewrite mark_tasks_changed_tasks, Htasks.
      subst s1. cbn [tasks set_task with_tasks]. by rewrite length_insert. }
    exists (mark_tasks_changed s2), true. split; [done|]. split; [done|].
    split; [by split; [intros _; apply Hfound|]|].
    split.
    { intros _. rewrite mark_tasks_changed_scheduled, Hsched.
      split; [apply lookup_delete_eq|]. split.
      - intros ev Hev. rewrite mark_tasks_changed_cancelled. subst s2.
        rewrite Hev. apply elem_of_cons. by left.
      - apply mark_tasks_changed_changed. }
    split; [done|]. split.
    { intros k' Hk'. rewrite mark_tasks_changed_scheduled, Hsched.
      by apply lookup_delete_ne. }
    assert (List.filter (other_id alarm_id) kept = kept) as Hkk
      by apply filter_filter_same.
    rewrite (delete_alarm_run task_index alarm_id (mark_tasks_changed s2)
               task' kept k Hv2 Ht2).
    + cbv zeta. by rewrite Hkk, Nat.ltb_irrefl.
    + subst task'. apply dict_lookup_set_eq.
    + by apply forallb_is_dict_filter.
    + done.
  - (* no entry has the identifier *)
    apply Nat.ltb_ge in Hlen.
    assert (kept = alarms) as Hsame.
    { subst kept. apply filter_length_all.
      pose proof (filter_length_le (other_id alarm_id) alarms). lia. }
    exists s, false. split; [done|]. split.
    { rewrite Ht. f_equal. subst task'. rewrite Hsame.
      symmetry. by apply dict_set_same. }
    split.
    { split; [done|]. intros Ha%Hfound. lia. }
    split; [done|]. split; [done|]. split; [done|]. done.
Qed.

(** The alarm for 1000 of the armed task is deleted while it is
    scheduled. *)
Lemma delete_alarm_removes_scenario :
  ∃ s' deleted,
    Ring.delete_alarm 0 (VStr "0_1000_aaaaaa") scheduled_store
    = Ok (s', deleted)
    ∧ task_at s' 0
      = Some (dict_set "alarms" (VList [VDict alarm_5000]) armed_task)
    ∧ deleted = true
    ∧ scheduled_alarms s' !! KStr "0_1000_aaaaaa" = None
    ∧ Ring.delete_alarm 0 (VStr "0_1000_aaaaaa") s' = Ok (s', false).
Proof.
  destruct (delete_alarm_removes 0 (VStr "0_1000_aaaaaa") scheduled_store
              armed_task [VDict alarm_1000; VDict alarm_5000]
              (KStr "0_1000_aaaaaa") eq_refl eq_refl eq_refl eq_refl eq_refl)
    as (s' & deleted & Hrun & Hat & Hdel & Hgone & _ & _ & Hagain).
  assert (deleted = true) as Htrue.
  { apply Hdel. exists alarm_1000. split; [|reflexivity].
    apply elem_of_cons. by left. }
  exists s', deleted. split; [exact Hrun|]. split; [exact Hat|].
  split; [exact Htrue|]. split; [exact (proj1 (Hgone Htrue))|exact Hagain].
Defined.

Section trigger_facts.
Import Ring.
Implicit Types (s : app) (alarms : list value) (alarm_id : value).

(** The entry the search returns is the first one with the identifier. *)
Lemma find_alarm_found alarm_id alarms j a :
  find_alarm alarm_id alarms = Ok (Some (j, a)) →
  alarms !! j = Some (VDict a)
  ∧ py_eq (dict_get "id" a) alarm_id = true
  ∧ ∀ i b, (i < j)%nat → alarms !! i = Some b →
           ∃ d, b = VDict d ∧ py_eq (dict_get "id" d) alarm_id = false.
Proof.
  revert j. induction alarms as [|alarm alarms IH]; intros j; [done|].
  destruct alarm as [| | | | |d]; try done. cbn [find_alarm].
  destruct (py_eq (dict_get "id" d) alarm_id) eqn:Heq.
  - intros [= <- <-]. split; [done|]. split; [done|]. intros; lia.
  - destruct (find_alarm alarm_id alarms) as [[[j' a']|]|] eqn:Hrest;
      result_simpl; try done.
    intros [= <- <-]. destruct (IH j' eq_refl) as (Hj & Ha & Hfirst).
    split; [done|]. split; [done|].
    intros [|i] b Hi Hb; cbn in Hb.
    + injection Hb as <-. by exists d.
    + apply (Hfirst i); [lia|done].
Qed.

Lemma disable_entry_tasks task_index task alarms j a s :
  valid_index s task_index = true →
  task_at (disable_entry task_index task alarms j a s) task_index
  = Some (dict_set "alarms" (VList (<[j := VDict (Alarm.disable a)]> alarms))
            task)
  ∧ tasks_changed (disable_entry task_index task alarms j a s) = true
  ∧ scheduled_alarms (disable_entry task_index task alarms j a s)
    = scheduled_alarms s.
Proof.
  intros Hv. unfold disable_entry.
  split; [by apply task_at_mark_set|].
  split; [apply mark_tasks_changed_changed|].
  by rewrite mark_tasks_changed_scheduled.
Qed.
End trigger_facts.

(** X11.  A call of [_trigger_alarm_action] that raises nothing takes the
    identifier out of [scheduled_alarms].  It rings only for an entry of
    the task at [task_index] that has the identifier, the first such, and
    only if the entry is enabled, its sound file exists and the sound
    plays; the tasks are then left as they were.  When the sound file is
    missing or does not play, that entry is disabled in place and the
    store marked changed.  In every other case the tasks and the change
    flag are untouched: an alarm that was deleted or disabled, or whose
    task index is out of range, is ignored. *)
Theorem trigger_alarm_rings_only_enabled (E : env) (plays : value → bool)
    (task_index : Z) (alarm_id : value) (s s' : app) (out : Ring.outcome) :
  Ring.trigger_alarm_action E plays task_index alarm_id s = Ok (s', out) →
  ∃ k,
    key_of alarm_id = Ok k
    ∧ scheduled_alarms s' = delete k (scheduled_alarms s)
    ∧ match out with
      | Ring.Ringing sound =>
          tasks s' = tasks s
          ∧ tasks_changed s' = tasks_changed s
          ∧ ∃ task alarms j a,
              task_at s task_index = Some task
              ∧ Store.iterate (dict_get_or "alarms" (VList []) task) = Ok alarms
              ∧ Ring.find_alarm alarm_id alarms = Ok (Some (j, a))
              ∧ alarms !! j = Some (VDict a)
              ∧ py_eq (dict_get "id" a) alarm_id = true
              ∧ truthy (dict_get "enabled" a) = true
              ∧ dict_get "sound_file" a = sound
              ∧ os_path_exists E sound = Ok true
              ∧ plays sound = true
      | Ring.SoundMissing | Ring.SoundFailed =>
          ∃ task alarms j a,
            task_at s task_index = Some task
            ∧ Store.iterate (dict_get_or "alarms" (VList []) task) = Ok alarms
            ∧ alarms !! j = Some (VDict a)
            ∧ py_eq (dict_get "id" a) alarm_id = true
            ∧ task_at s' task_index
              = Some (dict_set "alarms"
                        (VList (<[j := VDict (Alarm.disable a)]> alarms)) task)
            ∧ tasks_changed s' = true
      | Ring.NoTask | Ring.NotFound | Ring.NotEnabled =>
          tasks s' = tasks s ∧ tasks_changed s' = tasks_changed s
      end.
Proof.
  unfold Ring.trigger_alarm_action.
  destruct (key_of alarm_id) as [k|] eqn:Hk; result_simpl; [|done].
  set (s0 := with_scheduled (delete k (scheduled_alarms s)) s).
  assert (valid_index s0 task_index = valid_index s task_index) as Hv0 by done.
  assert (task_at s0 task_index = task_at s task_index) as Ht0 by done.
  rewrite Hv0, Ht0.
  destruct (valid_index s task_index) eqn:Hv; cbn [negb].
  2:{ intros [= <- <-]. by exists k. }
  destruct (task_at s task_index) as [task|] eqn:Ht.
  2:{ intros [= <- <-]. by exists k. }
  destruct (Store.iterate _) as [alarms|] eqn:Hiter; result_simpl; [|done].
  destruct (Ring.find_alarm alarm_id alarms) as [[[j a]|]|] eqn:Hfind;
    result_simpl; [| |done].
  2:{ intros [= <- <-]. by exists k. }
  destruct (find_alarm_found _ _ _ _ Hfind) as (Hj & Hid & _).
  destruct (truthy (VDict a)); cbn [negb].
  2:{ intros [= <- <-]. by exists k. }
  destruct (truthy (dict_get "enabled" a)) eqn:Hen; cbn [negb].
  2:{ intros [= <- <-]. by exists k. }
  assert (valid_index s0 task_index = true) as Hv0' by by rewrite Hv0.
  destruct (disable_entry_tasks task_index task alarms j a s0 Hv0')
    as (Hdis & Hch & Hsched).
  destruct (truthy (dict_get "sound_file" a)) eqn:Hsound; cbn [negb].
  - destruct (os_path_exists E (dict_get "sound_file" a)) as [found|] eqn:Hex;
      result_simpl; [|done].
    destruct found; cbn [negb].
    + destruct (plays (dict_get "sound_file" a)) eqn:Hplays;
        intros [= <- <-]; exists k.
      * split; [done|]. split; [done|]. split; [done|]. split; [done|].
        by exists task, alarms, j, a.
      * split; [done|]. split; [by rewrite Hsched|].
        by exists task, alarms, j, a.
    + destruct (dict_get "sound_file" a); try done.
      intros [= <- <-]. exists k. split; [done|].
      split; [by rewrite Hsched|]. by exists task, alarms, j, a.
  - result_simpl. destruct (dict_get "sound_file" a); try done.
    intros [= <- <-]. exists k. split; [done|].
    split; [by rewrite Hsched|]. by exists task, alarms, j, a.
Qed.

(** The alarm for 5000 of the armed task fires: it rings, and its handle
    is gone. *)
Lemma trigger_alarm_rings_only_enabled_scenario :
  ∃ k,
    key_of (VStr "0_5000_bbbbbb") = Ok k
    ∧ scheduled_alarms
        (with_scheduled
           (delete (KStr "0_5000_bbbbbb") (scheduled_alarms scheduled_store))
           scheduled_store)
      = delete k (scheduled_alarms scheduled_store)
    ∧ tasks (with_scheduled
               (delete (KStr "0_5000_bbbbbb")
                  (scheduled_alarms scheduled_store)) scheduled_store)
      = tasks scheduled_store.
Proof.
  destruct (trigger_alarm_rings_only_enabled sample_env every_sound 0
              (VStr "0_5000_bbbbbb") scheduled_store
              (with_scheduled
                 (delete (KStr "0_5000_bbbbbb")
                    (scheduled_alarms scheduled_store)) scheduled_store)
              (Ring.Ringing (VStr "alarm/bell.wav")))
    as (k & Hk & Hsched & Htasks & _).
  - vm_compute. reflexivity.
  - by exists k.
Defined.

Example trigger_alarm_outcomes :
  let out plays task_index alarm_id :=
    match Ring.trigger_alarm_action sample_env plays task_index
            (VStr alarm_id) scheduled_store with
    | Ok (_, out) => Some out
    | Raise _ => None
    end in
  (* the alarm for 5000 rings *)
  out every_sound 0%Z "0_5000_bbbbbb"
  = Some (Ring.Ringing (VStr "alarm/bell.wav"))
  (* a sound that does not play disables the alarm *)
  ∧ out (λ _, false) 0%Z "0_5000_bbbbbb" = Some Ring.SoundFailed
  (* an identifier the task does not have *)
  ∧ out every_sound 0%Z "0_7000_cccccc" = Some Ring.NotFound
  (* an index out of range *)
  ∧ out every_sound 3%Z "0_5000_bbbbbb" = Some Ring.NoTask.
Proof. by vm_compute. Qed.

(** X12.  An alarm that [_delete_alarm] has removed never rings: when the
    callback scheduled for it fires all the same, it finds no entry with
    the identifier and leaves the tasks as they are, whatever the sound
    files and the player do. *)
Theorem deleted_alarm_never_rings (E : env) (plays : value → bool)
    (task_index : Z) (alarm_id : value) (s : app) (task : pydict)
    (alarms : list value) (k : key) :
  valid_index s task_index = true →
  task_at s task_index = Some task →
  dict_lookup "alarms" task = Some (VList alarms) →
  forallb is_dict alarms = true →
  key_of alarm_id = Ok k →
  ∃ s' deleted,
    Ring.delete_alarm task_index alarm_id s = Ok (s', deleted)
    ∧ Ring.trigger_alarm_action E plays task_index alarm_id s'
      = Ok (with_scheduled (delete k (scheduled_alarms s')) s', Ring.NotFound).
Proof.
  intros Hv Ht Halarms Hdicts Hk.
  pose proof (delete_alarm_run task_index alarm_id s task alarms k
                Hv Ht Halarms Hdicts Hk) as Hrun.
  cbv zeta in Hrun.
  set (kept := List.filter (other_id alarm_id) alarms) in *.
  set (task' := dict_set "alarms" (VList kept) task) in *.
  assert (∀ s', valid_index s' task_index = true →
                task_at s' task_index = Some task' →
                Ring.trigger_alarm_action E plays task_index alarm_id s'
                = Ok (with_scheduled (delete k (scheduled_alarms s')) s',
                      Ring.NotFound)) as Hquiet.
  { intros s' Hv' Ht'. unfold Ring.trigger_alarm_action.
    rewrite Hk. result_simpl.
    assert (valid_index (with_scheduled (delete k (scheduled_alarms s')) s')
              task_index = true) as -> by done.
    assert (task_at (with_scheduled (delete k (scheduled_alarms s')) s')
              task_index = Some task') as -> by done.
    cbn [negb]. subst task'. rewrite dict_get_or_set, String.eqb_refl.
    cbn [Store.iterate]. result_simpl. subst kept.
    by rewrite find_alarm_filter. }
  destruct (length kept <? length alarms)%nat eqn:Hlen.
  - eexists _, _. split; [done|]. apply Hquiet.
    + unfold valid_index in *. rewrite mark_tasks_changed_tasks.
      destruct (scheduled_alarms s !! k);
        cbn [tasks set_task with_tasks with_cancelled with_scheduled];
        by rewrite length_insert.
    + unfold task_at. rewrite mark_tasks_changed_tasks.
      destruct (scheduled_alarms s !! k);
        cbn [tasks set_task with_tasks with_cancelled with_scheduled];
        by apply list_lookup_insert_eq, valid_index_lt.
  - exists s, false. split; [done|]. apply Hquiet; [done|].
    rewrite Ht. f_equal. subst task'.
    apply Nat.ltb_ge in Hlen.
    pose proof (filter_length_le (other_id alarm_id) alarms).
    assert (kept = alarms) as ->
      by (subst kept; apply filter_length_all; lia).
    symmetry. by apply dict_set_same.
Qed.

Lemma deleted_alarm_never_rings_scenario :
  ∃ s' deleted,
    Ring.delete_alarm 0 (VStr "0_5000_bbbbbb") scheduled_store
    = Ok (s', deleted)
    ∧ Ring.trigger_alarm_action sample_env every_sound 0
        (VStr "0_5000_bbbbbb") s'
      = Ok (with_scheduled
              (delete (KStr "0_5000_bbbbbb") (scheduled_alarms s')) s',
            Ring.NotFound).
Proof.
  exact (deleted_alarm_never_rings sample_env every_sound 0
           (VStr "0_5000_bbbbbb") scheduled_store armed_task
           [VDict alarm_1000; VDict alarm_5000] (KStr "0_5000_bbbbbb")
           eq_refl eq_refl eq_refl eq_refl eq_refl).
Defined.

(** ** Adding a task while alarms are scheduled *)

Section add_task_facts.
Import Tasks.

Lemma add_task_added E task_name s :
  blank task_name = false →
  add_task E task_name s
  = mark_tasks_changed
      (with_selected (Some 0%Z)
         (with_tasks (new_task E task_name :: tasks s) s)).
Proof. unfold add_task, select_task. by intros ->. Qed.
End add_task_facts.

(** X13.  [add_task] puts the new task first, so every task moves one
    index up while the callbacks that are scheduled keep the index they
    were created with.  When such a callback fires after a task was added,
    it looks at the task that now sits at its index, the former neighbour
    or the new task: unless that one has an alarm with the same
    identifier, nothing rings, the handle is gone from [scheduled_alarms],
    and the alarm entry of the task that was meant is left as it was, one
    index further. *)
Theorem add_task_strands_callback (E : env) (plays : value → bool)
    (task_name : string) (s : app) (index : Z) (alarm_id : string)
    (task : pydict) :
  Tasks.blank task_name = false →
  valid_index s index = true →
  task_at s index = Some task →
  (∀ prev, task_at s (index - 1) = Some prev → (0 < index)%Z →
           lacks_alarm (VStr alarm_id) prev) →
  ∃ s',
    Ring.trigger_alarm_action E plays index (VStr alarm_id)
      (Tasks.add_task E task_name s) = Ok (s', Ring.NotFound)
    ∧ tasks s' = Tasks.new_task E task_name :: tasks s
    ∧ task_at s' (index + 1) = Some task
    ∧ scheduled_alarms s' !! KStr alarm_id = None.
Proof.
  intros Hname Hv Ht Hprev. rewrite add_task_added by done.
  set (s1 := mark_tasks_changed _).
  assert (tasks s1 = Tasks.new_task E task_name :: tasks s) as Htasks
    by (subst s1; by rewrite mark_tasks_changed_tasks).
  assert (0 ≤ index < Z.of_nat (length (tasks s)))%Z as Hrange
    by (unfold valid_index in Hv; lia).
  set (s2 := with_scheduled (delete (KStr alarm_id) (scheduled_alarms s1)) s1).
  assert (tasks s2 = tasks s1) as Htasks2 by done.
  assert (∃ shown,
            task_at s2 index = Some shown
            ∧ lacks_alarm (VStr alarm_id) shown) as (shown & Hshown & Hlacks).
  { unfold task_at. rewrite Htasks2, Htasks.
    destruct (decide (index = 0%Z)) as [->|Hpos].
    - eexists. split; [done|]. exists []. by split.
    - assert (Z.to_nat index = S (Z.to_nat (index - 1))) as -> by lia.
      cbn [lookup list_lookup].
      destruct (tasks s !! Z.to_nat (index - 1)) as [prev|] eqn:Hp.
      + exists prev. split; [done|]. apply Hprev; [done|lia].
      + apply lookup_ge_None in Hp. lia. }
  destruct Hlacks as (alarms & Hiter & Hfind).
  exists s2. split.
  - unfold Ring.trigger_alarm_action. cbn [key_of]. result_simpl. fold s2.
    assert (valid_index s2 index = true) as ->.
    { unfold valid_index. rewrite Htasks2, Htasks. cbn [length].
      apply andb_true_intro. split; [apply Z.leb_le|apply Z.ltb_lt]; lia. }
    rewrite Hshown. cbn [negb]. rewrite Hiter. result_simpl.
    by rewrite Hfind.
  - split; [by rewrite Htasks2|]. split.
    + unfold task_at. rewrite Htasks2, Htasks.
      assert (Z.to_nat (index + 1) = S (Z.to_nat index)) as -> by lia.
      done.
    + apply lookup_delete_eq.
Qed.

(** The armed task with its two alarms scheduled, and a task added: the
    callback of the alarm for 5000 finds the new task at index 0. *)
Lemma add_task_strands_callback_scenario :
  ∃ s',
    Ring.trigger_alarm_action sample_env every_sound 0 (VStr "0_5000_bbbbbb")
      (Tasks.add_task sample_env "Buy milk" scheduled_store)
    = Ok (s', Ring.NotFound)
    ∧ tasks s' = Tasks.new_task sample_env "Buy milk" :: tasks scheduled_store
    ∧ task_at s' (0 + 1) = Some armed_task
    ∧ scheduled_alarms s' !! KStr "0_5000_bbbbbb" = None.
Proof.
  apply (add_task_strands_callback sample_env every_sound "Buy milk"
           scheduled_store 0 "0_5000_bbbbbb" armed_task).
  - reflexivity.
  - reflexivity.
  - reflexivity.
  - intros prev _ Hpos. lia.
Defined.

(** ** Scheduling an alarm *)

Section schedule_facts.
Import Alarm.
Local Open Scope Z_scope.
Implicit Types (a : pydict) (s : app).

End schedule_facts.



Example schedule_alarm_twice :
  match Alarm.schedule_alarm sample_env 600 0 alarm_5000 scheduled_store with
  | Ok (_, scheduled, s') =>
      scheduled = true
      ∧ scheduled_alarms s' !! KStr "0_5000_bbbbbb"
        = Some {| ev_task := 0; ev_alarm := VStr "0_5000_bbbbbb";
                  ev_delay := 4400 |}
      ∧ cancelled s'
        = [{| ev_task := 0; ev_alarm := VStr "0_5000_bbbbbb";
              ev_delay := 4499 |}]
  | Raise _ => False
  end.
Proof. by vm_compute. Qed.

(** ** Alarms that are re-armed at startup *)

Section rearm_pending.
Import Alarm.
Local Open Scope Z_scope.
Context (E : env) (now_ts : Z).
Implicit Types (a : pydict) (s : app) (k : key).







End rearm_pending.



(** ** Subtasks *)

Section subtask_facts.
Import Subtask.
Implicit Types (subs : list value) (sub : pydict) (d : pydict).

Lemma dict_set_overwrite k v v' d :
  dict_set k v (dict_set k v' d) = dict_set k v d.
Proof.
  induction d as [|[k0 v0] d IH]; cbn [dict_set].
  - by rewrite String.eqb_refl.
  - destruct (k0 =? k)%string eqn:Hk; cbn [dict_set].
    + by rewrite String.eqb_refl.
    + by rewrite Hk, IH.
Qed.

(** What a completed subtask adds to the count. *)
Lemma count_completed_dicts subs :
  forallb is_dict subs = true →
  ∃ c, count_completed subs = Ok c ∧ (c ≤ length subs)%nat.
Proof.
  induction subs as [|x subs IH]; [by exists 0%nat|].
  cbn [forallb]. intros [Hx Hrest]%andb_prop.
  destruct x as [| | | | |sub]; try done.
  destruct (IH Hrest) as (c & Hc & Hle). cbn [count_completed].
  rewrite Hc. result_simpl. eexists. split; [done|].
  destruct (truthy _); cbn [length]; lia.
Qed.

Lemma count_completed_insert subs j sub c :
  subs !! j = Some (VDict sub) →
  count_completed subs = Ok c →
  ∃ c0,
    c = (c0 + if truthy (dict_get_or "completed" (VBool false) sub)
              then 1 else 0)%nat
    ∧ ∀ sub',
        count_completed (<[j := VDict sub']> subs)
        = Ok (c0 + if truthy (dict_get_or "completed" (VBool false) sub')
                   then 1 else 0)%nat.
Proof.
  revert j c. induction subs as [|x subs IH]; intros j c; [done|].
  destruct x as [| | | | |sub0]; try done. cbn [count_completed].
  destruct (count_completed subs) as [n|] eqn:Hn; result_simpl; [|done].
  destruct j as [|j]; cbn [lookup list_lookup].
  - intros [= ->] [= <-]. exists n. split.
    + destruct (truthy (dict_get_or "completed" (VBool false) sub)); lia.
    + intros sub'. cbn [insert list_insert count_completed]. rewrite Hn.
      result_simpl. f_equal.
      destruct (truthy (dict_get_or "completed" (VBool false) sub')); lia.
  - intros Hj [= <-]. destruct (IH j n Hj eq_refl) as (c0 & -> & Hins).
    exists (c0 + if truthy (dict_get_or "completed" (VBool false) sub0)
                 then 1 else 0)%nat.
    split.
    + destruct (truthy (dict_get_or "completed" (VBool false) sub0)),
        (truthy (dict_get_or "completed" (VBool false) sub)); lia.
    + intros sub'. cbn [insert list_insert count_completed].
      rewrite Hins. result_simpl. f_equal.
      destruct (truthy (dict_get_or "completed" (VBool false) sub0)),
        (truthy (dict_get_or "completed" (VBool false) sub')); lia.
Qed.

Lemma get_subtask_completion_stats_list task subs :
  dict_lookup "subtasks" task = Some (VList subs) →
  subs ≠ [] →
  get_subtask_completion_stats task
  = (completed ← count_completed subs; Ok (completed, length subs)).
Proof.
  intros Hsubs Hne. unfold get_subtask_completion_stats, dict_has.
  rewrite Hsubs, (dict_get_lookup _ _ _ Hsubs). cbn [truthy negb orb].
  by destruct subs.
Qed.
End subtask_facts.

(** X16.  The progress of a task follows its subtasks: on a task whose
    subtasks are dictionaries, [get_subtask_completion_stats] gives the
    number of completed subtasks, which is at most the total, and the
    length of the list; after [toggle_subtask_completion] on one of them
    the total is the same and the number of completed ones is one less if
    that subtask was completed, one more if it was not. *)
Theorem subtask_stats_follow_toggle (task : pydict) (subs : list value)
    (j : nat) (sub : pydict) (s : app) :
  dict_lookup "subtasks" task = Some (VList subs) →
  forallb is_dict subs = true →
  subs !! j = Some (VDict sub) →
  ∃ completed,
    Subtask.get_subtask_completion_stats task = Ok (completed, length subs)
    ∧ (completed ≤ length subs)%nat
    ∧ (truthy (dict_get_or "completed" (VBool false) sub) = true →
       (0 < completed)%nat)
    ∧ Subtask.get_subtask_completion_stats
        (dict_set "subtasks"
           (VList (<[j := VDict (Subtask.toggle_subtask_completion sub s).1]>
                     subs)) task)
      = Ok (if truthy (dict_get_or "completed" (VBool false) sub)
            then (completed - 1)%nat else S completed, length subs).
Proof.
  intros Hsubs Hdicts Hj.
  assert (subs ≠ []) as Hne by (intros ->; done).
  destruct (count_completed_dicts subs Hdicts) as (c & Hc & Hle).
  destruct (count_completed_insert subs j sub c Hj Hc) as (c0 & -> & Hins).
  eexists. split.
  { rewrite (get_subtask_completion_stats_list task subs Hsubs Hne), Hc.
    done. }
  split; [done|]. split.
  { intros ->. lia. }
  rewrite (get_subtask_completion_stats_list _
             (<[j := VDict (Subtask.toggle_subtask_completion sub s).1]> subs)).
  - rewrite Hins, length_insert. result_simpl. f_equal. f_equal.
    unfold Subtask.toggle_subtask_completion. cbn [fst].
    rewrite dict_get_or_set, String.eqb_refl. cbn [truthy].
    destruct (truthy (dict_get_or "completed" (VBool false) sub));
      cbn [negb]; lia.
  - apply dict_lookup_set_eq.
  - intros Hnil. apply (f_equal length) in Hnil.
    rewrite length_insert in Hnil. by destruct subs.
Qed.

(** A parent with one of two subtasks completed, and the other one
    toggled. *)
Lemma subtask_stats_follow_toggle_scenario :
  ∃ completed,
    Subtask.get_subtask_completion_stats parent_of_two = Ok (completed, 2%nat)
    ∧ (completed ≤ 2)%nat.
Proof.
  destruct (subtask_stats_follow_toggle parent_of_two
              [VDict [("task", VStr "Pack"); ("completed", VBool true)];
               VDict [("task", VStr "Clean"); ("completed", VBool false)]]
              1 [("task", VStr "Clean"); ("completed", VBool false)]
              (initial None) eq_refl eq_refl eq_refl)
    as (completed & Hstats & Hle & _).
  by exists completed.
Defined.

Example subtask_stats_parent_of_two :
  Subtask.get_subtask_completion_stats parent_of_two = Ok (1%nat, 2%nat)
  ∧ Subtask.get_subtask_completion_stats (plain_task "a") = Ok (0%nat, 0%nat).
Proof. by vm_compute. Qed.

(** X17.  [add_subtask] puts the new subtask last, so the subtasks that
    were there keep their index, and touches no other field of the parent;
    [delete_subtask] at the index of the new subtask then gives the parent
    back as it was. *)
Theorem add_delete_subtask_round_trip (E : env) (subtask_name : string)
    (parent_task : pydict) (subs : list value) (s : app) :
  Tasks.blank subtask_name = false →
  dict_lookup "subtasks" parent_task = Some (VList subs) →
  dict_lookup "subtasks" (Subtask.add_subtask E subtask_name parent_task s).1
  = Some (VList (subs ++ [VDict (Tasks.new_task E subtask_name)]))
  ∧ (∀ k, k ≠ "subtasks" →
          dict_lookup k (Subtask.add_subtask E subtask_name parent_task s).1
          = dict_lookup k parent_task)
  ∧ tasks_changed (Subtask.add_subtask E subtask_name parent_task s).2 = true
  ∧ Subtask.delete_subtask (Z.of_nat (length subs))
      (Subtask.add_subtask E subtask_name parent_task s).1
      (Subtask.add_subtask E subtask_name parent_task s).2
    = (parent_task, mark_tasks_changed s).
Proof.
  intros Hname Hsubs. unfold Subtask.add_subtask, dict_has.
  rewrite Hname, Hsubs. cbn [negb]. rewrite (dict_get_lookup _ _ _ Hsubs).
  cbn [fst snd]. split; [apply dict_lookup_set_eq|].
  split; [intros k Hk; by apply dict_lookup_set_ne|].
  split; [apply mark_tasks_changed_changed|].
  unfold Subtask.delete_subtask. rewrite dict_lookup_set_eq.
  rewrite length_app. cbn [length].
  assert ((0 <=? Z.of_nat (length subs))%Z
          && (Z.of_nat (length subs) <? Z.of_nat (length subs + 1))%Z = true)
    as -> by (apply andb_true_intro; split;
              [apply Z.leb_le|apply Z.ltb_lt]; lia).
  cbn [negb]. rewrite Nat2Z.id.
  rewrite lookup_app_r, Nat.sub_diag by done. cbn [lookup list_lookup].
  cbn [Tasks.new_task dict_get_or dict_lookup String.eqb Ascii.eqb Bool.eqb
       from_option id Store.iterate Subtask.cancel_subtask_alarms].
  rewrite mark_tasks_changed_twice. f_equal.
  rewrite dict_set_overwrite.
  assert (Store.list_pop (length subs)
            (subs ++ [VDict (Tasks.new_task E subtask_name)]) = subs) as ->.
  { unfold Store.list_pop. rewrite take_app_length.
    rewrite drop_app_ge by lia.
    replace (S (length subs) - length subs)%nat with 1%nat by lia.
    by rewrite app_nil_r. }
  by apply dict_set_same.
Qed.

Lemma add_delete_subtask_round_trip_scenario :
  Subtask.delete_subtask 2
    (Subtask.add_subtask sample_env "Hand over keys" parent_of_two
       (initial None)).1
    (Subtask.add_subtask sample_env "Hand over keys" parent_of_two
       (initial None)).2
  = (parent_of_two, mark_tasks_changed (initial None)).
Proof.
  apply (add_delete_subtask_round_trip sample_env "Hand over keys"
           parent_of_two
           [VDict [("task", VStr "Pack"); ("completed", VBool true)];
            VDict [("task", VStr "Clean"); ("completed", VBool false)]]
           (initial None)); reflexivity.
Defined.

(** ** Annotations *)

Section note_facts.
Implicit Types (s : app) (task : pydict).

Lemma set_task_mark_tasks_changed index task s :
  set_task index task (mark_tasks_changed s)
  = mark_tasks_changed (set_task index task s).
Proof. unfold mark_tasks_changed. by destruct (tasks_changed s) eqn:Hc; cbn; rewrite ?Hc. Qed.

Lemma set_task_set_task index task task' s :
  set_task index task (set_task index task' s) = set_task index task s.
Proof.
  unfold set_task. cbn [tasks with_tasks].
  by rewrite list_insert_insert_eq.
Qed.
End note_facts.

(** X18.  [_save_new_annotation] puts the stripped text last in the
    annotations of the task, so the annotations that were there keep their
    index; [_delete_annotation] at the index of the new one returns [True]
    and gives the task back as it was.  A text of white space is refused
    and leaves the state as it is. *)
Theorem save_delete_annotation_round_trip (E : env) (task_index : Z)
    (text : string) (s : app) (task : pydict) (notes : list value) :
  valid_index s task_index = true →
  task_at s task_index = Some task →
  dict_lookup "annotations" task = Some (VList notes) →
  (strip text = "" → Note.save_new_annotation E task_index text s = s)
  ∧ (strip text ≠ "" →
     task_at (Note.save_new_annotation E task_index text s) task_index
     = Some (dict_set "annotations"
               (VList (notes ++ [VDict [("text", VStr (strip text));
                                        ("timestamp", VStr (now_iso E))]]))
               task)
     ∧ tasks_changed (Note.save_new_annotation E task_index text s) = true
     ∧ Note.delete_annotation task_index (Z.of_nat (length notes))
         (Note.save_new_annotation E task_index text s)
       = (mark_tasks_changed s, true)).
Proof.
  intros Hv Ht Hnotes. unfold Note.save_new_annotation. split.
  - by intros ->.
  - intros Htext. apply String.eqb_neq in Htext as ->.
    rewrite Hv, Ht. cbn [negb]. unfold dict_has.
    rewrite Hnotes, (dict_get_lookup _ _ _ Hnotes). cbn [is_list negb orb].
    rewrite (dict_get_lookup _ _ _ Hnotes).
    set (entry := VDict _).
    set (task1 := dict_set "annotations" (VList (notes ++ [entry])) task).
    split; [by apply task_at_mark_set|].
    split; [apply mark_tasks_changed_changed|].
    unfold Note.delete_annotation.
    rewrite valid_index_mark_set, Hv, task_at_mark_set by done. cbn [negb].
    subst task1. rewrite dict_lookup_set_eq, length_app. cbn [length].
    assert ((0 <=? Z.of_nat (length notes))%Z
            && (Z.of_nat (length notes) <? Z.of_nat (length notes + 1))%Z
            = true)
      as -> by (apply andb_true_intro; split;
                [apply Z.leb_le|apply Z.ltb_lt]; lia).
    cbn [negb]. rewrite Nat2Z.id.
    rewrite lookup_app_r, Nat.sub_diag by done. cbn [lookup list_lookup].
    subst entry. cbn [dict_get_or dict_lookup String.eqb Ascii.eqb Bool.eqb
                      from_option id].
    f_equal. rewrite dict_set_overwrite.
    assert (Store.list_pop (length notes)
              (notes ++ [VDict [("text", VStr (strip text));
                                ("timestamp", VStr (now_iso E))]]) = notes)
      as ->.
    { unfold Store.list_pop. rewrite take_app_length.
      rewrite drop_app_ge by lia.
      replace (S (length notes) - length notes)%nat with 1%nat by lia.
      by rewrite app_nil_r. }
    rewrite (dict_set_same _ _ _ Hnotes).
    rewrite set_task_mark_tasks_changed, set_task_set_task.
    rewrite set_task_same by done. apply mark_tasks_changed_twice.
Qed.

Lemma save_delete_annotation_round_trip_scenario :
  Note.delete_annotation 0 0
    (Note.save_new_annotation sample_env 0 " call back " fresh_store)
  = (mark_tasks_changed fresh_store, true).
Proof.
  destruct (save_delete_annotation_round_trip sample_env 0 " call back "
              fresh_store (Tasks.new_task sample_env "Write report") []
              eq_refl eq_refl eq_refl) as [_ Hsave].
  destruct Hsave as (_ & _ & Hback); [discriminate|].
  exact Hback.
Defined.

(** ** What a load leaves, and loading it again *)

Section dict_keys.
Implicit Types (k q : string) (v : value) (d : pydict).

Lemma dict_has_lookup k d :
  dict_has k d = true ↔ ∃ v, dict_lookup k d = Some v.
Proof.
  unfold dict_has. destruct (dict_lookup k d); split; eauto; try done.
  by intros [? ?].
Qed.

Lemma dict_has_set_true k q v d :
  dict_has q d = true → dict_has q (dict_set k v d) = true.
Proof. intros Hq. rewrite dict_has_set, Hq. apply orb_true_r. Qed.

Lemma dict_has_set_eq k v d : dict_has k (dict_set k v d) = true.
Proof. by rewrite dict_has_set, String.eqb_refl. Qed.


Lemma dict_has_setdefault_true k q v d :
  dict_has q d = true → dict_has q (dict_setdefault k v d) = true.
Proof.
  intros Hq. unfold dict_setdefault. destruct (dict_has k d); [done|].
  by apply dict_has_set_true.
Qed.

Lemma dict_has_setdefault_eq k v d : dict_has k (dict_setdefault k v d) = true.
Proof.
  unfold dict_setdefault. destruct (dict_has k d) eqn:Hk; [done|].
  apply dict_has_set_eq.
Qed.





End dict_keys.

Section subtask_fixpoint.
Import Load.
Implicit Types (k q : string) (v : value) (d : pydict).

Lemma initialize_subtasks_S E n task :
  initialize_subtasks E (S n) task =
  let task :=
    if negb (dict_has "subtasks" task)
    then dict_set "subtasks" (VList []) task else task in
  match dict_get "subtasks" task with
  | VList subs =>
      subs' ← initialize_each
                (λ sub, initialize_subtasks E n (subtask_defaults E sub)) subs;
      Ok (dict_set "subtasks" (VList subs') task)
  | VDict [] | VStr "" => Ok task
  | VDict (_ :: _) | VStr _ => Raise AttributeError
  | VNone | VBool _ | VNum _ => Raise TypeError
  end.
Proof.
  cbn [initialize_subtasks]. cbv zeta.
  destruct (dict_get "subtasks" _) as [| | | |subs|]; try done.
  f_equal. induction subs as [|[| | | | |sub] subs IH]; try done.
  cbn [initialize_each]. rewrite <- IH. done.
Qed.

Lemma subtask_defaults_keys E d :
  Forall (λ k, dict_has k (subtask_defaults E d) = true) subtask_keys.
Proof.
  unfold subtask_defaults, subtask_keys.
  repeat (constructor;
          [repeat first [ apply dict_has_setdefault_eq
                        | apply dict_has_setdefault_true ]|]).
  constructor.
Qed.


Lemma initialize_subtasks_has E n d d' q :
  initialize_subtasks E n d = Ok d' →
  dict_has q d = true → dict_has q d' = true.
Proof.
  destruct n as [|n]; [done|]. rewrite initialize_subtasks_S. cbv zeta.
  intros Hrun Hq.
  set (task := if negb (dict_has "subtasks" d)
               then dict_set "subtasks" (VList []) d else d) in *.
  assert (dict_has q task = true) as Hq'.
  { subst task. destruct (negb _); [|done]. by apply dict_has_set_true. }
  destruct (dict_get "subtasks" task) as [| | |[]|subs|[]]; simplify_eq;
    try done.
  destruct (initialize_each _ subs); result_simpl; simplify_eq.
  by apply dict_has_set_true.
Qed.

End subtask_fixpoint.

Section load_steps.
Import Load.
Implicit Types (k q : string) (v : value) (d : pydict) (E : env).

Lemma valid_alarms_loaded E i n alarms :
  forallb alarm_loaded (valid_alarms E i n alarms) = true.
Proof.
  revert n. induction alarms as [|alarm alarms IH]; intros n; [done|].
  destruct alarm as [| | | | |a]; cbn [valid_alarms]; try done.
  set (a' := dict_setdefault "id" _ _).
  destruct (truthy (dict_get "target_timestamp_unix" a')
            && truthy (dict_get "sound_file" a')) eqn:Hkeep; [|done].
  apply andb_prop in Hkeep as [Ht Hs].
  cbn [forallb alarm_loaded]. rewrite IH, Ht, Hs, !andb_true_r.
  subst a'.
  assert (∀ q d, dict_has q d = true →
                 dict_has q (dict_setdefault "id"
                               (VStr (load_alarm_id E i n)) d) = true) as Hid
    by (intros; by apply dict_has_setdefault_true).
  rewrite dict_has_setdefault_eq, !Hid; [done|..];
    repeat first [ apply dict_has_setdefault_eq
                 | apply dict_has_setdefault_true ].
Qed.


Lemma stamp_entries_stamped E h h' :
  stamp_entries E h = Ok h' → forallb entry_stamped h' = true.
Proof.
  revert h'. induction h as [|x h IH]; intros h'; [by intros [= <-]|].
  destruct x as [| | | | |e]; try done. rewrite stamp_entries_cons.
  destruct (stamp_entries E h) as [rest|]; result_simpl; [|done].
  intros [= <-]. cbn [forallb entry_stamped].
  rewrite dict_has_setdefault_eq. by apply IH.
Qed.



Lemma coerce_get_ne k q ok dflt d :
  k ≠ q → dict_get q (coerce k ok dflt d) = dict_get q d.
Proof. intros Hne. by apply dict_get_ext, coerce_lookup_ne. Qed.

Lemma coerce_has k q ok dflt d :
  dict_has q d = true → dict_has q (coerce k ok dflt d) = true.
Proof.
  intros Hq. unfold coerce. destruct (ok _); [done|].
  by apply dict_has_set_true.
Qed.

End load_steps.

(** Membership in a list that is written out. *)
Ltac elem_of_list := repeat (apply elem_of_cons; first [by left | right]).

Section load_stages.
Import Load.
Context (E : env).
Implicit Types (k q : string) (v : value) (d : pydict).

Lemma coerce_fields_ok d : fields_ok (coerce_fields d).
Proof.
  unfold fields_ok, coerce_fields.
  repeat split;
    repeat (rewrite coerce_get_ne by done); by apply coerce_get_ok.
Qed.


Lemma coerce_fields_has q d :
  dict_has q d = true → dict_has q (coerce_fields d) = true.
Proof. intros Hq. unfold coerce_fields. by repeat apply coerce_has. Qed.

Lemma coerce_fields_lookup_ne q d :
  q ∉ ["timer"; "start_time_unix"; "annotations"; "alarms"; "due_date";
       "icon"; "completed"; "titleHistory"] →
  dict_lookup q (coerce_fields d) = dict_lookup q d.
Proof.
  intros Hq. unfold coerce_fields.
  repeat (rewrite coerce_lookup_ne; [|intros <-; apply Hq; elem_of_list]).
  done.
Qed.

Lemma filter_alarms_has q i d :
  dict_has q d = true → dict_has q (filter_alarms E i d) = true.
Proof.
  intros Hq. unfold filter_alarms.
  destruct (dict_get "alarms" d); by apply dict_has_set_true.
Qed.

Lemma filter_alarms_loaded i d :
  ∃ alarms,
    dict_lookup "alarms" (filter_alarms E i d) = Some (VList alarms)
    ∧ forallb alarm_loaded alarms = true.
Proof.
  unfold filter_alarms.
  destruct (dict_get "alarms" d) as [| | | |alarms|];
    try (exists []; split; [apply dict_lookup_set_eq|done]).
  eexists. split; [apply dict_lookup_set_eq|apply valid_alarms_loaded].
Qed.

Lemma append_current_title_has q d d' :
  append_current_title E d = Ok d' →
  dict_has q d = true → dict_has q d' = true.
Proof.
  unfold append_current_title. intros Hd Hq.
  destruct (dict_item "titleHistory" d) as [h|]; result_simpl; [|done].
  destruct (dict_item "task" d) as [title|]; result_simpl; [|done].
  destruct h as [| | | |h|]; try done.
  destruct (match last h with
            | Some e => _
            | None => _
            end) as [[]|]; result_simpl; simplify_eq; [|done].
  by apply dict_has_set_true.
Qed.

Lemma stamp_history_has q d d' :
  stamp_history E d = Ok d' →
  dict_has q d = true → dict_has q d' = true.
Proof.
  unfold stamp_history. intros Hd Hq.
  destruct (dict_get "titleHistory" d) as [| | | |h|]; try done.
  destruct (stamp_entries E h); result_simpl; simplify_eq.
  by apply dict_has_set_true.
Qed.

Lemma stamp_history_stamped d d' :
  stamp_history E d = Ok d' →
  ∃ h, dict_lookup "titleHistory" d' = Some (VList h)
       ∧ forallb entry_stamped h = true.
Proof.
  unfold stamp_history.
  destruct (dict_get "titleHistory" d) as [| | | |h|]; try done.
  destruct (stamp_entries E h) as [h'|] eqn:Hh; result_simpl; [|done].
  intros [= <-]. exists h'. split; [apply dict_lookup_set_eq|].
  by eapply stamp_entries_stamped.
Qed.

Lemma dict_has_pop_ne k q d :
  k ≠ q → dict_has q (dict_pop k d) = dict_has q d.
Proof. intros Hne. unfold dict_has. by rewrite dict_lookup_pop_ne. Qed.

Lemma migrate_start_time_has q d :
  q ≠ "start_time" →
  dict_has q d = true → dict_has q (migrate_start_time d) = true.
Proof.
  intros Hne Hq. unfold migrate_start_time.
  destruct (_ && _); [|done]. rewrite dict_has_pop_ne by done.
  destruct (dict_get "start_time_unix" d); try done.
  by apply dict_has_set_true.
Qed.

Lemma fix_title_has q i d d' :
  fix_title i d = Ok d' → dict_has q d = true → dict_has q d' = true.
Proof.
  unfold fix_title. intros Hd Hq. destruct (_ || _); [|by simplify_eq].
  destruct (promoted_title d) as [[t|]|]; result_simpl; simplify_eq;
    by apply dict_has_set_true.
Qed.

Lemma task_defaults_has q d :
  dict_has q d = true → dict_has q (task_defaults E d) = true.
Proof.
  intros Hq. unfold task_defaults, subtask_defaults.
  by repeat apply dict_has_setdefault_true.
Qed.

Lemma task_defaults_keys d :
  Forall (λ k, dict_has k (task_defaults E d) = true)
    (subtask_keys ++ ["subtasks_visible"]).
Proof.
  apply Forall_app. split.
  - eapply Forall_impl; [apply (subtask_defaults_keys E d)|].
    intros k Hk. unfold task_defaults. by apply dict_has_setdefault_true.
  - constructor; [|constructor]. apply dict_has_setdefault_eq.
Qed.


(** The stages of the loop body of [load_tasks] on a dictionary. *)
Lemma load_task_stages i d0 d :
  load_task E i (VDict d0) = Ok d →
  ∃ d1 d3 d6 d7,
    fix_title i d0 = Ok d1
    ∧ initialize_subtasks E (recursion_limit E) (task_defaults E d1) = Ok d3
    ∧ append_current_title E (filter_alarms E i (coerce_fields d3)) = Ok d6
    ∧ stamp_history E d6 = Ok d7
    ∧ d = migrate_start_time d7.
Proof.
  unfold load_task.
  destruct (fix_title i d0) as [d1|] eqn:H1; result_simpl; [|done].
  destruct (initialize_subtasks E _ _) as [d3|] eqn:H3; result_simpl; [|done].
  destruct (append_current_title E _) as [d6|] eqn:H6; result_simpl; [|done].
  destruct (stamp_history E d6) as [d7|] eqn:H7; result_simpl; [|done].
  intros [= <-]. by exists d1, d3, d6, d7.
Qed.
End load_stages.

Section load_typed.
Import Load.
Context (E : env).
Implicit Types (k q : string) (v : value) (d : pydict).

Lemma migrate_start_time_unix_ok d :
  is_number_or_none (dict_get "start_time_unix" d) = true →
  is_number_or_none (dict_get "start_time_unix" (migrate_start_time d)) = true.
Proof.
  intros Hok. unfold migrate_start_time.
  destruct (dict_has "start_time" d && is_number (dict_get "start_time" d))
    eqn:Hcond; [|done].
  apply andb_prop in Hcond as [_ Hnum].
  erewrite dict_get_ext; [|by apply dict_lookup_pop_ne].
  destruct (dict_get "start_time_unix" d) eqn:Hunix; try by rewrite Hunix.
  rewrite dict_get_set, String.eqb_refl.
  by destruct (dict_get "start_time" d).
Qed.

(** A key that no stage after [_initialize_subtasks] rewrites keeps its
    value to the end. *)
Lemma load_tail_lookup i d3 d6 d7 q :
  append_current_title E (filter_alarms E i (coerce_fields d3)) = Ok d6 →
  stamp_history E d6 = Ok d7 →
  q ∉ ["timer"; "start_time_unix"; "annotations"; "alarms"; "due_date";
       "icon"; "completed"; "titleHistory"] →
  q ≠ "start_time" →
  dict_lookup q (migrate_start_time d7) = dict_lookup q d3.
Proof.
  intros H6 H7 Hq Hs.
  assert (∀ k, k ∈ ["timer"; "start_time_unix"; "annotations"; "alarms";
                    "due_date"; "icon"; "completed"; "titleHistory"] →
               k ≠ q) as Hne by (intros k Hk ->; done).
  rewrite migrate_start_time_lookup_ne
    by (done || apply Hne; elem_of_list).
  rewrite (stamp_history_lookup_ne E q _ _ H7) by (apply Hne; elem_of_list).
  rewrite (append_current_title_lookup_ne E q _ _ H6)
    by (apply Hne; elem_of_list).
  rewrite filter_alarms_lookup_ne by (apply Hne; elem_of_list).
  by apply coerce_fields_lookup_ne.
Qed.

Lemma load_tail_has i d3 d6 d7 q :
  append_current_title E (filter_alarms E i (coerce_fields d3)) = Ok d6 →
  stamp_history E d6 = Ok d7 →
  q ≠ "start_time" →
  dict_has q d3 = true → dict_has q (migrate_start_time d7) = true.
Proof.
  intros H6 H7 Hs Hq. apply migrate_start_time_has; [done|].
  eapply stamp_history_has; [done|].
  eapply append_current_title_has; [done|].
  by apply filter_alarms_has, coerce_fields_has.
Qed.

(** A field among those lines 742-749 check, other than the three that
    later stages rewrite, holds what the check leaves. *)
Lemma load_tail_get i d3 d6 d7 q :
  append_current_title E (filter_alarms E i (coerce_fields d3)) = Ok d6 →
  stamp_history E d6 = Ok d7 →
  q ∉ ["alarms"; "titleHistory"; "start_time_unix"; "start_time"] →
  dict_get q (migrate_start_time d7) = dict_get q (coerce_fields d3).
Proof.
  intros H6 H7 Hq.
  assert (∀ k, k ∈ ["alarms"; "titleHistory"; "start_time_unix";
                    "start_time"] → k ≠ q) as Hne by (intros k Hk ->; done).
  apply dict_get_ext.
  rewrite migrate_start_time_lookup_ne by (apply Hne; elem_of_list).
  rewrite (stamp_history_lookup_ne E q _ _ H7) by (apply Hne; elem_of_list).
  rewrite (append_current_title_lookup_ne E q _ _ H6)
    by (apply Hne; elem_of_list).
  by rewrite filter_alarms_lookup_ne by (apply Hne; elem_of_list).
Qed.

(** Every task the loop of [load_tasks] keeps is typed. *)
Lemma load_task_typed i v d : load_task E i v = Ok d → task_typed d.
Proof.
  destruct v as [| | | | |d0]; try done.
  intros (d1 & d3 & d6 & d7 & H1 & H3 & H6 & H7 & ->)%load_task_stages.
  destruct (coerce_fields_ok d3)
    as (Htimer & Hunix & Hnotes & _ & Hdue & Hicon & Hdone & _).
  assert (∀ q, q ∉ ["alarms"; "titleHistory"; "start_time_unix";
                    "start_time"] →
               dict_get q (migrate_start_time d7)
               = dict_get q (coerce_fields d3)) as Hget
    by (intros; by eapply load_tail_get).
  assert (∀ q, q ≠ "start_time" →
               dict_has q (task_defaults E d1) = true →
               dict_has q (migrate_start_time d7) = true) as Hhas.
  { intros q Hq Hin. eapply load_tail_has; [done..|].
    by eapply initialize_subtasks_has. }
  split.
  { pose proof (task_defaults_keys E d1) as Hkeys.
    rewrite Forall_forall in Hkeys.
    destruct (fix_title_has_task _ _ _ H1) as [title Htitle].
    unfold task_keys.
    constructor.
    { apply Hhas; [done|]. apply task_defaults_has.
      apply dict_has_lookup. eauto. }
    repeat (constructor;
            [apply Hhas; [done|]; apply Hkeys;
             unfold subtask_keys; simpl; elem_of_list|]).
    constructor. }
  split; [rewrite Hget; [done|]; by intros Hin; repeat
            (apply elem_of_cons in Hin as [?|Hin]; [done|]);
            apply elem_of_nil in Hin|].
  split.
  { apply migrate_start_time_unix_ok.
    erewrite dict_get_ext; [|by eapply stamp_history_lookup_ne].
    erewrite dict_get_ext; [|by eapply append_current_title_lookup_ne].
    erewrite dict_get_ext; [|by apply filter_alarms_lookup_ne].
    done. }
  assert (∀ q, q ∈ ["annotations"; "due_date"; "icon"; "completed"] →
               q ∉ ["alarms"; "titleHistory"; "start_time_unix";
                    "start_time"]) as Hother.
  { intros q Hq Hin.
    repeat (apply elem_of_cons in Hq as [->|Hq];
            [repeat (apply elem_of_cons in Hin as [?|Hin]; [done|]);
             by apply elem_of_nil in Hin|]).
    by apply elem_of_nil in Hq. }
  split; [rewrite Hget; [done|apply Hother; elem_of_list]|].
  split; [rewrite Hget; [done|apply Hother; elem_of_list]|].
  split; [rewrite Hget; [done|apply Hother; elem_of_list]|].
  split; [rewrite Hget; [done|apply Hother; elem_of_list]|].
  split.
  - destruct (filter_alarms_loaded E i (coerce_fields d3))
      as (alarms & Halarms & Hloaded).
    exists alarms. split; [|done].
    rewrite migrate_start_time_lookup_ne by done.
    rewrite (stamp_history_lookup_ne E _ _ _ H7) by done.
    by rewrite (append_current_title_lookup_ne E _ _ _ H6).
  - destruct (stamp_history_stamped E _ _ H7) as (h & Hh & Hstamped).
    exists h. split; [|done]. by rewrite migrate_start_time_lookup_ne.
Qed.
End load_typed.

Section load_again.
Import Load.
Context (E : env).
Implicit Types (k q : string) (v : value) (d : pydict).









End load_again.

Section round_trip.
Import Load Save.
Context (E E' : env).
Implicit Types (d : pydict) (ts : list pydict) (entries : list value).






End round_trip.



(** X20.  [load_tasks] establishes the types of the data model, whatever
    the document holds: every task it returns has the fourteen keys the
    loader gives a task, a number as [timer], a number or [None] as
    [start_time_unix], a list as [annotations], a string or [None] as
    [due_date] and as [icon], a boolean as [completed], as [alarms] a list
    of dictionaries that each have their four keys and a truthy target and
    sound file, and as [titleHistory] a list of dictionaries that each
    have a time stamp. *)
Theorem load_tasks_typed (E : env) (file : option value) :
  Forall task_typed (Load.load_tasks E file).
Proof. apply load_tasks_Forall. intros j v d. apply load_task_typed. Qed.

Section other_fields.
Import Load.

Lemma fix_title_lookup_ne i d d' q :
  fix_title i d = Ok d' → q ≠ "task" → dict_lookup q d' = dict_lookup q d.
Proof.
  unfold fix_title. intros Hd Hq. destruct (_ || _); [|by simplify_eq].
  destruct (promoted_title d) as [[t|]|]; result_simpl; simplify_eq;
    by apply dict_lookup_set_ne.
Qed.

Lemma fix_title_kept i d :
  dict_has "task" d = true →
  str_strip_empty (dict_get "task" d) = false →
  fix_title i d = Ok d.
Proof. unfold fix_title. by intros -> ->. Qed.
End other_fields.

(** X21.  The loop body of [load_tasks] and the copy [save_tasks] writes
    leave alone what they do not normalise: a field of a task entry whose
    key is not one of the eleven keys they may rewrite -- [todone],
    [timer_running], [localTime], [createdAt], [subtasks_visible] or a key
    the program does not know -- has the same value in the loaded task and
    in the task that is written; and a title that is not blank is kept. *)
Theorem load_keeps_other_fields (E : env) (i : nat) (d0 d : pydict) :
  Load.load_task E i (VDict d0) = Ok d →
  (∀ k v, k ∉ normalised_keys → dict_lookup k d0 = Some v →
          dict_lookup k d = Some v
          ∧ value_item k (Save.task_to_save d) = Ok v)
  ∧ (dict_has "task" d0 = true →
     str_strip_empty (dict_get "task" d0) = false →
     dict_lookup "task" d = dict_lookup "task" d0).
Proof.
  intros (d1 & d3 & d6 & d7 & H1 & H3 & H6 & H7 & ->)%load_task_stages.
  split.
  - intros k v Hk Hv.
    assert (∀ q, q ∈ normalised_keys → q ≠ k) as Hne
      by (intros q Hq ->; done).
    assert (dict_lookup k (Load.migrate_start_time d7) = Some v) as Hloaded.
    { rewrite (load_tail_lookup E i d3 d6 d7); [|done..| |].
      - rewrite (initialize_subtasks_lookup_ne E _ _ _ _ H3)
          by (apply Hne; unfold normalised_keys; elem_of_list).
        apply task_defaults_lookup_Some.
        rewrite (fix_title_lookup_ne _ _ _ _ H1); [done|].
        apply not_eq_sym, Hne. unfold normalised_keys. elem_of_list.
      - intros Hin. apply Hk. unfold normalised_keys.
        repeat (apply elem_of_cons in Hin as [->|Hin]; [elem_of_list|]).
        by apply elem_of_nil in Hin.
      - apply not_eq_sym, Hne. unfold normalised_keys. elem_of_list. }
    split; [done|]. unfold Save.task_to_save. cbn [value_item].
    unfold dict_item. rewrite coerce_fields_lookup_ne; [by rewrite Hloaded|].
    intros Hin. apply Hk. unfold normalised_keys.
    repeat (apply elem_of_cons in Hin as [->|Hin]; [elem_of_list|]).
    by apply elem_of_nil in Hin.
  - intros Hhas Hblank. rewrite (fix_title_kept i d0 Hhas Hblank) in H1.
    injection H1 as <-.
    rewrite (load_tail_lookup E i d3 d6 d7); [|done..| |done].
    + rewrite (initialize_subtasks_lookup_ne E _ _ _ _ H3) by done.
      apply dict_has_lookup in Hhas as [title Htitle].
      rewrite Htitle. by apply task_defaults_lookup_Some.
    + intros Hin. repeat (apply elem_of_cons in Hin as [?|Hin]; [done|]).
      by apply elem_of_nil in Hin.
Qed.

(** A task marked for the Todoist export, with a key the program does not
    know. *)
Lemma load_keeps_other_fields_scenario :
  ∃ d,
    Load.load_task sample_env 0 (VDict todone_entry) = Ok d
    ∧ dict_lookup "todone" d = Some (VBool true)
    ∧ dict_lookup "colour" d = Some (VStr "red")
    ∧ dict_lookup "task" d = Some (VStr "Pay rent").
Proof.
  assert (∃ d, Load.load_task sample_env 0 (VDict todone_entry) = Ok d)
    as [d Hd] by (eexists; vm_compute; reflexivity).
  destruct (load_keeps_other_fields sample_env 0 todone_entry d Hd)
    as [Hother Htitle].
  exists d. split; [exact Hd|].
  split; [apply (Hother "todone" (VBool true)); [|reflexivity]|].
  { intros Hin. repeat (apply elem_of_cons in Hin as [Hin|Hin];
                        [discriminate Hin|]).
    by apply elem_of_nil in Hin. }
  split; [apply (Hother "colour" (VStr "red")); [|reflexivity]|].
  { intros Hin. repeat (apply elem_of_cons in Hin as [Hin|Hin];
                        [discriminate Hin|]).
    by apply elem_of_nil in Hin. }
  rewrite Htitle; reflexivity.
Defined.

(** ** Deleting a task *)

Section delete.
Import Store.
Implicit Types (s : app) (k : key) (ev : clock_event).

Lemma cancel_task_alarms_cons alarm rest event s :
  cancel_task_alarms (alarm :: rest) event s =
  (alarm_id ← value_get "id" alarm;
   '(event, s) ←
     (if truthy alarm_id then
        k ← key_of alarm_id;
        Ok (Some (scheduled_alarms s !! k),
            with_scheduled (delete k (scheduled_alarms s)) s)
      else Ok (event, s));
   match event with
   | None => Raise UnboundLocalError
   | Some None => cancel_task_alarms rest event s
   | Some (Some ev) =>
       cancel_task_alarms rest event (with_cancelled (ev :: cancelled s) s)
   end).
Proof. done. Qed.

(** The loop of [delete_task] over alarms that all have an identifier: it
    raises nothing, only removes keys from [scheduled_alarms], removes the
    key of every alarm, cancels the callback it finds there, and touches
    nothing else. *)
Lemma cancel_task_alarms_ids alarms event s :
  forallb alarm_has_id alarms = true →
  ∃ s',
    cancel_task_alarms alarms event s = Ok s'
    ∧ tasks s' = tasks s
    ∧ selected_index s' = selected_index s
    ∧ tasks_changed s' = tasks_changed s
    ∧ tasks_file s' = tasks_file s
    ∧ (∀ ev, ev ∈ cancelled s → ev ∈ cancelled s')
    ∧ (∀ k, scheduled_alarms s' !! k = None
            ∨ scheduled_alarms s' !! k = scheduled_alarms s !! k)
    ∧ (∀ a k, VDict a ∈ alarms → key_of (dict_get "id" a) = Ok k →
              scheduled_alarms s' !! k = None
              ∧ ∀ ev, scheduled_alarms s !! k = Some ev → ev ∈ cancelled s')
    ∧ (∀ k, (∀ a, VDict a ∈ alarms → key_of (dict_get "id" a) ≠ Ok k) →
            scheduled_alarms s' !! k = scheduled_alarms s !! k).
Proof.
  revert event s. induction alarms as [|alarm rest IH]; intros event s Hids.
  - exists s. repeat (split; [done|]). split; [by right|].
    split; [|done]. intros a k Ha. by apply elem_of_nil in Ha.
  - cbn [forallb] in Hids. apply andb_prop in Hids as [Hid Hrest].
    destruct alarm as [| | | | |a0]; try done. cbn [alarm_has_id] in Hid.
    apply andb_prop in Hid as [Htruthy Hkey].
    destruct (key_of (dict_get "id" a0)) as [k0|] eqn:Hk0; [|done].
    rewrite cancel_task_alarms_cons. cbn [value_get]. result_simpl.
    rewrite Htruthy, Hk0. result_simpl.
    set (s1 := with_scheduled (delete k0 (scheduled_alarms s)) s).
    set (s2 := match scheduled_alarms s !! k0 with
               | Some ev => with_cancelled (ev :: cancelled s1) s1
               | None => s1
               end).
    destruct (IH (Some (scheduled_alarms s !! k0)) s2 Hrest)
      as (s' & Hrun & Htasks & Hsel & Hch & Hfile & Hcanc & Hdel & Hgone
          & Hother).
    assert (scheduled_alarms s2 = delete k0 (scheduled_alarms s)) as Hs2
      by (subst s2 s1; by destruct (scheduled_alarms s !! k0)).
    exists s'. split.
    { subst s2. by destruct (scheduled_alarms s !! k0). }
    split; [rewrite Htasks; subst s2 s1;
            by destruct (scheduled_alarms s !! k0)|].
    split; [rewrite Hsel; subst s2 s1;
            by destruct (scheduled_alarms s !! k0)|].
    split; [rewrite Hch; subst s2 s1;
            by destruct (scheduled_alarms s !! k0)|].
    split; [rewrite Hfile; subst s2 s1;
            by destruct (scheduled_alarms s !! k0)|].
    assert (∀ ev, ev ∈ cancelled s → ev ∈ cancelled s2) as Hcanc2.
    { intros ev Hev. subst s2 s1.
      destruct (scheduled_alarms s !! k0); [by apply elem_of_cons; right|done]. }
    assert (∀ ev, scheduled_alarms s !! k0 = Some ev → ev ∈ cancelled s')
      as Hpopped.
    { intros ev Hev. apply Hcanc. subst s2. rewrite Hev.
      apply elem_of_cons. by left. }
    assert (scheduled_alarms s' !! k0 = None) as Hk0gone.
    { destruct (Hdel k0) as [|Heq]; [done|].
      by rewrite Heq, Hs2, lookup_delete_eq. }
    split; [auto|]. split.
    { intros k. destruct (Hdel k) as [|Heq]; [by left|].
      rewrite Heq, Hs2. destruct (decide (k = k0)) as [->|Hne].
      - left. apply lookup_delete_eq.
      - right. by apply lookup_delete_ne. }
    split.
    + intros a k Ha Hk. apply elem_of_cons in Ha as [[= ->]|Ha].
      * rewrite Hk0 in Hk. injection Hk as <-. done.
      * destruct (Hgone a k Ha Hk) as [Hnone Hev]. split; [done|].
        intros ev Hsched. destruct (decide (k = k0)) as [->|Hne]; [auto|].
        apply Hev. by rewrite Hs2, lookup_delete_ne.
    + intros k Hk. rewrite Hother.
      * rewrite Hs2. apply lookup_delete_ne. intros ->.
        by apply (Hk a0); [apply elem_of_cons; left|].
      * intros a Ha. apply Hk. apply elem_of_cons. by right.
Qed.
End delete.

(** X22.  For a valid index whose task has a title and whose own alarms
    all have an identifier, [delete_task] removes the task, adjusts the
    selection and marks the store changed; for every alarm in the alarm
    list of that task it removes the identifier from [scheduled_alarms]
    and cancels the callback found there, and the other keys of
    [scheduled_alarms] are untouched. *)
Theorem delete_task_cancels_own_alarms (s : app) (index : Z)
    (task : pydict) (alarms : list value) (title : value) :
  valid_index s index = true →
  task_at s index = Some task →
  dict_lookup "task" task = Some title →
  dict_lookup "alarms" task = Some (VList alarms) →
  forallb alarm_has_id alarms = true →
  ∃ s',
    Store.delete_task index s = Ok s'
    ∧ tasks s' = Store.list_pop (Z.to_nat index) (tasks s)
    ∧ selected_index s'
      = Store.selection_after_delete index (selected_index s)
    ∧ tasks_changed s' = true
    ∧ (∀ a k, VDict a ∈ alarms → key_of (dict_get "id" a) = Ok k →
              scheduled_alarms s' !! k = None
              ∧ ∀ ev, scheduled_alarms s !! k = Some ev → ev ∈ cancelled s')
    ∧ (∀ k, (∀ a, VDict a ∈ alarms → key_of (dict_get "id" a) ≠ Ok k) →
            scheduled_alarms s' !! k = scheduled_alarms s !! k).
Proof.
  intros Hv Htask Htitle Halarms Hids. unfold Store.delete_task.
  rewrite Hv, Htask. cbn [negb].
  rewrite (dict_get_or_lookup _ _ _ _ Halarms). cbn [Store.iterate].
  result_simpl.
  destruct (cancel_task_alarms_ids alarms None s Hids)
    as (s1 & -> & Htasks & Hsel & Hch & _ & _ & _ & Hgone & Hother).
  result_simpl. unfold dict_item. rewrite Htitle. result_simpl.
  cbn [try_except]. eexists. split; [done|].
  cbn [tasks with_selected]. rewrite mark_tasks_changed_tasks.
  cbn [tasks with_tasks]. rewrite Htasks. split; [done|].
  cbn [selected_index with_selected]. rewrite mark_tasks_changed_selected.
  cbn [selected_index with_tasks]. rewrite Hsel. split; [done|].
  cbn [tasks_changed with_selected]. split.
  { unfold mark_tasks_changed. cbn [tasks_changed with_tasks].
    by destruct (tasks_changed s1) eqn:Hc;
      cbn [negb tasks_changed with_changed with_tasks]. }
  cbn [scheduled_alarms cancelled with_selected].
  assert (∀ x, scheduled_alarms (mark_tasks_changed (with_tasks x s1))
               = scheduled_alarms s1) as Hsched
    by (intros; by rewrite mark_tasks_changed_scheduled).
  assert (∀ x, cancelled (mark_tasks_changed (with_tasks x s1))
               = cancelled s1) as Hcanc.
  { intros. unfold mark_tasks_changed. cbn [tasks_changed with_tasks].
    by destruct (tasks_changed s1). }
  rewrite Hsched, Hcanc. split; [exact Hgone|exact Hother].
Qed.

(** Deleting a task that owns two enabled, scheduled alarms. *)
Lemma delete_task_cancels_own_alarms_scenario :
  ∃ s',
    Store.delete_task 0 scheduled_store = Ok s'
    ∧ tasks s' = []
    ∧ scheduled_alarms s' !! KStr "0_1000_aaaaaa" = None
    ∧ scheduled_alarms s' !! KStr "0_5000_bbbbbb" = None.
Proof.
  destruct (delete_task_cancels_own_alarms scheduled_store 0 armed_task
              [VDict alarm_1000; VDict alarm_5000] (VStr "Call back"))
    as (s' & Hrun & Htasks & _ & _ & Hgone & _).
  - reflexivity.
  - reflexivity.
  - reflexivity.
  - reflexivity.
  - reflexivity.
  - exists s'. split; [done|]. split; [done|]. split.
    + apply (Hgone alarm_1000); [|done].
      apply elem_of_cons. by left.
    + apply (Hgone alarm_5000); [|done].
      apply elem_of_cons. right. apply elem_of_cons. by left.
Defined.

Example delete_task_scheduled_store :
  (∃ ev1 ev2,
     scheduled_alarms scheduled_store !! KStr "0_1000_aaaaaa" = Some ev1
     ∧ scheduled_alarms scheduled_store !! KStr "0_5000_bbbbbb" = Some ev2
     ∧ match Store.delete_task 0 scheduled_store with
       | Ok s' => cancelled s' = [ev2; ev1]
       | Raise _ => False
       end).
Proof. eexists _, _. by vm_compute. Qed.

(** [delete_subtask] has the same loop with the test of [event] nested
    under [if alarm_id]: a subtask whose alarm has an empty identifier is
    deleted. *)
Example delete_subtask_empty_id :
  let alarm := [("id", VStr ""); ("target_timestamp_unix", VNum 5000);
                ("sound_file", VStr "alarm/bell.wav");
                ("enabled", VBool true)] in
  let parent := [("task", VStr "Parent");
                 ("subtasks",
                  VList [VDict [("task", VStr "Child");
                                ("alarms", VList [VDict alarm])]])] in
  Subtask.delete_subtask 0 parent (initial None)
  = ([("task", VStr "Parent"); ("subtasks", VList [])],
     mark_tasks_changed (initial None)).
Proof. by vm_compute. Qed.
